(** * Frame-overlay and encoding pipeline of [add_icons.py]

    A shallow embedding of [create_icon_overlay], [get_ffmpeg_version],
    [get_ffmpeg_command] and [process_video], followed by the properties
    of the design document that concern them.

    Conventions.
    - Python [int] is [Z]; [//] is floor division, which is [Z.div].
    - Python [str] is [string].  Labels, paths and tool output are read as
      byte strings; [lower] and [upper] act on the ASCII letters, which is
      all that the comparisons of the program can observe (they compare
      with ASCII literals only).
    - [None] is [option]'s [None].
    - An expression that can raise returns a [result].
    - Statements act on a [state] and end in one of three ways ([ctl]):
      they fall through, they execute [return], or they raise.
    - What the program gets from outside (the capture, the child
      processes, the file system, the writer) is a [World]; a run is a
      function of it.  Frame rates are floats, of which only [str] and
      the comparison with zero are used; they and the text metrics of
      OpenCV are the parameters of a [Platform].
    - [os.path] is [posixpath].  A capture delivers finitely many frames.
      [cv2.imwrite] reports failure by returning [False].  Removing the
      temporary directory succeeds. *)

From Stdlib Require Import ZArith List String Ascii Bool Lia DecimalString.
Import ListNotations.
Open Scope string_scope.
Open Scope list_scope.
Open Scope Z_scope.

(** ** Python values and built-ins *)

Inductive exn : Type :=
| FileNotFoundError
| CalledProcessError
| ZeroDivisionError
| IndexError
| Exception (msg : string).

Inductive result (A : Type) : Type :=
| Ok (a : A)
| Raise (e : exn).
Arguments Ok {A} a.
Arguments Raise {A} e.

Definition rbind {A B} (r : result A) (k : A -> result B) : result B :=
  match r with
  | Ok a => k a
  | Raise e => Raise e
  end.

Notation "'let?' x ':=' r 'in' k" := (rbind r (fun x => k))
  (at level 10, x name, r at level 100, k at level 200).

(** [a // b] *)
Definition floordiv (a b : Z) : result Z :=
  if b =? 0 then Raise ZeroDivisionError else Ok (a / b).

(** [len(l)] *)
Definition len {A} (l : list A) : Z := Z.of_nat (List.length l).

(** [l[i]], with Python's reading of a negative index. *)
Definition getitem {A} (l : list A) (i : Z) : result A :=
  let j := if i <? 0 then i + len l else i in
  if (0 <=? j) && (j <? len l) then
    match nth_error l (Z.to_nat j) with
    | Some a => Ok a
    | None => Raise IndexError
    end
  else Raise IndexError.

(** Truth value of an optional integer ([if frames_per_action:]). *)
Definition truthy (x : option Z) : bool :=
  match x with
  | None => false
  | Some z => negb (z =? 0)
  end.

Definition is_upper (c : ascii) : bool :=
  let n := N_of_ascii c in (65 <=? n)%N && (n <=? 90)%N.

Definition is_lower (c : ascii) : bool :=
  let n := N_of_ascii c in (97 <=? n)%N && (n <=? 122)%N.

Definition is_digit (c : ascii) : bool :=
  let n := N_of_ascii c in (48 <=? n)%N && (n <=? 57)%N.

Definition lower_ascii (c : ascii) : ascii :=
  if is_upper c then ascii_of_N (N_of_ascii c + 32) else c.

Definition upper_ascii (c : ascii) : ascii :=
  if is_lower c then ascii_of_N (N_of_ascii c - 32) else c.

Fixpoint smap (f : ascii -> ascii) (s : string) : string :=
  match s with
  | EmptyString => EmptyString
  | String c s' => String (f c) (smap f s')
  end.

(** [s.lower()] and [s.upper()] *)
Definition lower (s : string) : string := smap lower_ascii s.
Definition upper (s : string) : string := smap upper_ascii s.

(** [str(n)] for an [int] *)
Definition str_int (n : Z) : string := NilZero.string_of_int (Z.to_int n).

Fixpoint zeros (n : nat) : string :=
  match n with
  | O => EmptyString
  | S n' => String "0" (zeros n')
  end.

(** [f"{n:06d}"]: sign first, then zeros up to a total width of six. *)
Definition format_06d (n : Z) : string :=
  let digits := str_int (Z.abs n) in
  let sign := if n <? 0 then "-" else "" in
  let used := (String.length sign + String.length digits)%nat in
  (sign ++ zeros (6 - used) ++ digits)%string.

(** [needle in hay] for strings *)
Fixpoint contains (needle hay : string) : bool :=
  String.prefix needle hay ||
  match hay with
  | EmptyString => false
  | String _ hay' => contains needle hay'
  end.

(** [s.rfind(c)] for a one-character [c]: last index of [c], or [-1]. *)
Fixpoint rfind_from (c : ascii) (s : string) (i last : Z) : Z :=
  match s with
  | EmptyString => last
  | String a s' => rfind_from c s' (i + 1) (if Ascii.eqb a c then i else last)
  end.

Definition rfind (c : ascii) (s : string) : Z := rfind_from c s 0 (-1).

(** [s[i:j]] for [0 <= i] *)
Definition slice (s : string) (i j : Z) : string :=
  substring (Z.to_nat i) (Z.to_nat (j - i)) s.

(** [s[i:]] for [0 <= i] *)
Definition slice_from (s : string) (i : Z) : string :=
  substring (Z.to_nat i) (String.length s - Z.to_nat i) s.

Fixpoint all_dots (s : string) : bool :=
  match s with
  | EmptyString => true
  | String c s' => Ascii.eqb c "." && all_dots s'
  end.

(** [os.path.splitext(p)] (posixpath: separator [/], no alternative
    separator).  The extension starts at the last dot of the last path
    component, unless that component has only dots before it. *)
Definition splitext (p : string) : string * string :=
  let sepIndex := rfind "/" p in
  let dotIndex := rfind "." p in
  if sepIndex <? dotIndex then
    let filenameIndex := sepIndex + 1 in
    if all_dots (slice p filenameIndex dotIndex) then (p, EmptyString)
    else (slice p 0 dotIndex, slice_from p dotIndex)
  else (p, EmptyString).

Definition ends_with_sep (s : string) : bool :=
  match get (String.length s - 1) s with
  | Some c => Ascii.eqb c "/" && negb (String.length s =? 0)%nat
  | None => false
  end.

(** [os.path.join(a, b)] (posixpath) *)
Definition path_join (a b : string) : string :=
  if String.prefix "/" b then b
  else if (String.length a =? 0)%nat || ends_with_sep a then (a ++ b)%string
  else (a ++ "/" ++ b)%string.

(** ** Frames and drawing *)

Definition point : Type := Z * Z.
Definition colour : Type := Z * Z * Z.

(** The calls the overlay makes on a frame.  The font and its scale are
    the constants of the source ([FONT_HERSHEY_SIMPLEX], [2.0]). *)
Inductive draw_op : Type :=
| rectangle (pt1 pt2 : point) (color : colour) (thickness : Z)
| putText (text : string) (org : point) (color : colour) (thickness : Z).

(** A frame buffer: its shape, the decoded picture, and what has been
    drawn over it, oldest first. *)
Record frame : Type := {
  shape : Z * Z;            (* (height, width) *)
  picture : nat;
  drawn : list draw_op
}.

Definition draw (op : draw_op) (f : frame) : frame :=
  {| shape := shape f; picture := picture f; drawn := drawn f ++ [op] |}.

(** What the program takes from OpenCV and from Python's floats without
    defining it. *)
Class Platform : Type := {
  (* numbers used as frame rates; [cap.get(CAP_PROP_FPS)] is a float *)
  rate : Type;
  (* [str(fps)] *)
  str_rate : rate -> string;
  (* [fps == 0], which decides whether [total_frames/fps] raises *)
  rate_is_zero : rate -> bool;
  (* [cv2.getTextSize(text, FONT_HERSHEY_SIMPLEX, 2.0, 3)[0]] *)
  getTextSize : string -> Z * Z
}.

(** ** [create_icon_overlay] *)

(** The dictionary [icon_positions], in insertion order. *)
Definition icon_positions (height width : Z) : list (string * point) :=
  let icon_spacing := 100 in
  let icon_y_offset := height - 150 in
  let center_x := width / 2 in
  [ ("w", (center_x - icon_spacing, icon_y_offset - icon_spacing));
    ("a", (center_x - icon_spacing, icon_y_offset));
    ("s", (center_x, icon_y_offset));
    ("d", (center_x + icon_spacing, icon_y_offset)) ].

(** Lines 49-61: the value of the local [current_action]. *)
Definition current_action (action_list : list string) (frame_number : Z)
    (frames_per_action total_frames : option Z) : result (option string) :=
  let? frames_per_action :=
    match frames_per_action, total_frames with
    | None, Some total =>
        let? q := floordiv total (len action_list) in Ok (Some q)
    | _, _ => Ok frames_per_action
    end in
  match frames_per_action with
  | Some per_action =>
      if truthy frames_per_action then
        let? action_index := floordiv frame_number per_action in
        if action_index <? len action_list then
          let? a := getitem action_list action_index in Ok (Some (lower a))
        else Ok None
      else Ok None
  | None => Ok None
  end.

(** [key == current_action] *)
Definition is_active (key : string) (current : option string) : bool :=
  match current with
  | Some a => String.eqb key a
  | None => false
  end.

(** One turn of the loop of lines 64-98. *)
Definition draw_icon `{Platform} (current : option string)
    (f : frame) (icon : string * point) : frame :=
  let icon_radius := 40 in
  let '(key, (x, y)) := icon in
  let '(color, border_color, border_thickness) :=
    if is_active key current
    then ((0, 255, 0), (255, 255, 255), 3)
    else ((128, 128, 128), (64, 64, 64), 1) in
  let f := draw (rectangle (x - icon_radius, y - icon_radius)
                           (x + icon_radius, y + icon_radius) color (-1)) f in
  let f := draw (rectangle (x - icon_radius, y - icon_radius)
                           (x + icon_radius, y + icon_radius)
                           border_color border_thickness) f in
  let font_thickness := 3 in
  let text_size := getTextSize (upper key) in
  let text_x := x - fst text_size / 2 in
  let text_y := y + snd text_size / 2 in
  let f := draw (putText (upper key) (text_x, text_y) (0, 0, 0)
                         (font_thickness + 2)) f in
  draw (putText (upper key) (text_x, text_y) (255, 255, 255) font_thickness) f.

(** Lines 63-100: the icons drawn for a given active label. *)
Definition draw_icons `{Platform} (f : frame) (current : option string) : frame :=
  let '(height, width) := shape f in
  fold_left (draw_icon current) (icon_positions height width) f.

Definition create_icon_overlay `{Platform} (f : frame) (action_list : list string)
    (frame_number : Z) (fps : rate) (frames_per_action total_frames : option Z)
  : result frame :=
  let? current := current_action action_list frame_number
                                 frames_per_action total_frames in
  Ok (draw_icons f current).

(** ** The world outside the program *)

(** The four places where the program starts a child process. *)
Inductive call_site : Type :=
| CheckAvailable   (* line 319, [check=True] *)
| ProbeVersion     (* line 105 *)
| ProbeCodecs      (* lines 152, 201, 232 *)
| Encode.          (* line 333 *)

(** A [subprocess.CompletedProcess]. *)
Record completed : Type := Completed {
  returncode : Z;
  stdout : string;
  stderr : string
}.

(** Everything a run reads from its surroundings.  [cap_frames] are the
    successive results of [cap.read()] on the capture opened first, [None]
    standing for [ret == False]; past the end of the list every read
    fails.  [recap_frames] is the same for the capture opened again by the
    fallback. *)
Record World `{Platform} : Type := {
  cap_isOpened : bool;
  cap_width : Z;
  cap_height : Z;
  cap_frame_count : Z;
  cap_fps : rate;
  cap_frames : list (option frame);
  mkdtemp : string;
  imwrite : string -> frame -> bool;
  process_outcome : call_site -> list string -> result completed;
  recap_isOpened : bool;
  recap_frames : list (option frame);
  writer_isOpened : bool;
  writer_write : frame -> result unit
}.

(** ** Effects *)

(** The lines the program prints. *)
Inductive message `{Platform} : Type :=
| MsgCouldNotOpen (path : string)
| MsgCalculated (frames_per_action : Z)
| MsgVideoProperties
| MsgResolution (width height : Z)
| MsgTotalFrames (total_frames : Z)
| MsgFps (actual_fps : rate)
| MsgDuration (total_frames : Z) (actual_fps : rate)
| MsgActions (action_list : list string)
| MsgFramesPerAction (frames_per_action : Z)
| MsgProcessing
| MsgProgress (frame_count total_frames : Z)
| MsgFramesProcessed
| MsgNoLibx264
| MsgRunning (cmd : list string)
| MsgEncodingComplete
| MsgOutputSaved (path : string)
| MsgFfmpegError (stderr : string)
| MsgFallingBack
| MsgNotAvailable
| MsgCouldNotReopen
| MsgCouldNotCreate (path : string)
| MsgFallbackProgress (frame_count total_frames : Z)
| MsgFallbackComplete
| MsgNoteOpenCV
| MsgFallbackFailed (e : exn)
| MsgErrorRunning (e : exn).

Inductive event `{Platform} : Type :=
| Print (m : message)
| Run (argv : list string)
| CaptureOpen (path : string)
| CaptureRelease
| MakeTempDir (path : string)
| RemoveTempDir (path : string)
| Imwrite (path : string) (f : frame) (ok : bool)
| WriterOpen (path fourcc : string) (fps : rate) (size : Z * Z)
| WriterWrite (f : frame)
| WriterRelease.

(** The state a run acts on: what it has done so far (oldest first), the
    temporary directory ([None] when there is none on disk, otherwise the
    files in it), and how often one was created and removed. *)
Record state `{Platform} : Type := {
  trace : list event;
  tempdir : option (list (string * frame));
  created : nat;
  removed : nat
}.

Definition initial_state `{Platform} : state :=
  {| trace := []; tempdir := None; created := 0; removed := 0 |}.

(** How a block of statements ends: it falls through with a value, it
    executes [return], or it raises. *)
Inductive ctl (A : Type) : Type :=
| Normal (a : A)
| Return
| Raised (e : exn).
Arguments Normal {A} a.
Arguments Return {A}.
Arguments Raised {A} e.

Definition M `{Platform} (A : Type) : Type := state -> ctl A * state.

Definition ret `{Platform} {A} (a : A) : M A := fun s => (Normal a, s).

Definition bind `{Platform} {A B} (m : M A) (k : A -> M B) : M B :=
  fun s =>
    match m s with
    | (Normal a, s') => k a s'
    | (Return, s') => (Return, s')
    | (Raised e, s') => (Raised e, s')
    end.

Notation "x <- m ;; k" := (bind m (fun x => k))
  (at level 61, m at next level, right associativity).
Notation "m ;; k" := (bind m (fun _ => k))
  (at level 61, right associativity).

Definition return_ `{Platform} {A} : M A := fun s => (Return, s).
Definition raise `{Platform} {A} (e : exn) : M A := fun s => (Raised e, s).

Definition lift `{Platform} {A} (r : result A) : M A :=
  match r with
  | Ok a => ret a
  | Raise e => raise e
  end.

(** [try: body except ...]: [handler e] is the clause that catches [e],
    if there is one. *)
Definition try_except `{Platform} {A} (body : M A)
    (handler : exn -> option (M A)) : M A :=
  fun s =>
    match body s with
    | (Raised e, s') =>
        match handler e with
        | Some h => h s'
        | None => (Raised e, s')
        end
    | other => other
    end.

(** The state once [e] has happened. *)
Definition record `{Platform} (e : event) (s : state) : state :=
  {| trace := trace s ++ [e]; tempdir := tempdir s;
     created := created s; removed := removed s |}.

Definition emit `{Platform} (e : event) : M unit :=
  fun s => (Normal tt, record e s).

Definition print `{Platform} (m : message) : M unit := emit (Print m).

(** [subprocess.run(argv, capture_output=True, ...)] *)
Definition subprocess_run `{Platform} (w : World) (site : call_site)
    (argv : list string) : M completed :=
  emit (Run argv) ;; lift (process_outcome w site argv).

(** [cv2.imwrite(path, frame)] *)
Definition cv2_imwrite `{Platform} (w : World) (path : string) (f : frame) : M bool :=
  fun s =>
    let ok := imwrite w path f in
    (Normal ok,
     {| trace := trace s ++ [Imwrite path f ok];
        tempdir := match tempdir s with
                   | Some files => Some (if ok then files ++ [(path, f)] else files)
                   | None => None
                   end;
        created := created s; removed := removed s |}).

(** [tempfile.TemporaryDirectory()] makes an empty directory; leaving
    the [with] statement removes it and what is in it. *)
Definition make_dir `{Platform} (w : World) (s : state) : state :=
  {| trace := trace s ++ [MakeTempDir (mkdtemp w)];
     tempdir := Some [];
     created := S (created s); removed := removed s |}.

Definition remove_dir `{Platform} (w : World) (s : state) : state :=
  {| trace := trace s ++ [RemoveTempDir (mkdtemp w)];
     tempdir := None;
     created := created s; removed := S (removed s) |}.

(** [with tempfile.TemporaryDirectory() as temp_dir: body]: the directory
    is made on entry and removed however [body] ends. *)
Definition with_TemporaryDirectory `{Platform} {A} (w : World)
    (body : string -> M A) : M A :=
  fun s =>
    let '(r, s') := body (mkdtemp w) (make_dir w s) in
    (r, remove_dir w s').

(** ** [get_ffmpeg_version] *)

(** [s.split('\n')[0]] *)
Fixpoint first_line (s : string) : string :=
  match s with
  | EmptyString => EmptyString
  | String c s' => if Ascii.eqb c "010" then EmptyString else String c (first_line s')
  end.

Fixpoint span_digits (s : string) : string * string :=
  match s with
  | EmptyString => (EmptyString, EmptyString)
  | String c s' =>
      if is_digit c then let '(d, r) := span_digits s' in (String c d, r)
      else (EmptyString, s)
  end.

(** The pattern [ffmpeg version (\d+)\.] tried at the start of [s]; the
    result is group 1.  The digits are taken greedily, and giving one back
    cannot help, since a digit would then stand where the dot must. *)
Definition match_version (s : string) : option string :=
  if String.prefix "ffmpeg version " s then
    let '(digits, rest) := span_digits (slice_from s 15) in
    if negb (String.length digits =? 0)%nat && String.prefix "." rest
    then Some digits else None
  else None.

(** [re.search] of that pattern: the leftmost start that matches. *)
Fixpoint search_version (s : string) : option string :=
  match match_version s with
  | Some d => Some d
  | None =>
      match s with
      | EmptyString => None
      | String _ s' => search_version s'
      end
  end.

Fixpoint int_of_digits (s : string) (acc : Z) : Z :=
  match s with
  | EmptyString => acc
  | String c s' => int_of_digits s' (10 * acc + (Z.of_N (N_of_ascii c) - 48))
  end.

(** [int(digits)] for a run of ASCII digits.  CPython converts at most
    4300 digits (the default of [sys.set_int_max_str_digits]) and raises
    a [ValueError], which is an [Exception], on a longer run. *)
Definition int_max_str_digits : nat := 4300.

Definition int_of_str (digits : string) : result Z :=
  if (String.length digits <=? int_max_str_digits)%nat
  then Ok (int_of_digits digits 0)
  else Raise (Exception "Exceeds the limit (4300 digits) for integer string conversion").

Definition get_ffmpeg_version `{Platform} (w : World) : M (option Z) :=
  try_except
    (result <- subprocess_run w ProbeVersion ["ffmpeg"; "-version"] ;;
     if returncode result =? 0 then
       let version_line := first_line (stdout result) in
       match search_version version_line with
       | Some group1 =>
           version <- lift (int_of_str group1) ;;
           ret (Some version)
       | None => ret None
       end
     else ret None)
    (fun _ => Some (ret None)).

(** ** [get_ffmpeg_command] *)

(** The [try]/[except] of lines 150-163, which lines 200-210 and 231-241
    repeat: the arguments it appends to [cmd]. *)
Definition codec_arguments `{Platform} (w : World) : M (list string) :=
  try_except
    (result <- subprocess_run w ProbeCodecs ["ffmpeg"; "-codecs"] ;;
     if contains "libx264" (stdout result) then
       ret (["-c:v"; "libx264"] ++ ["-crf"; "23"])
     else
       print MsgNoLibx264 ;;
       ret ["-q:v"; "3"])
    (fun _ => Some (ret (["-c:v"; "libx264"] ++ ["-crf"; "23"]))).

(** [ffmpeg_version and ffmpeg_version >= 5] *)
Definition version_at_least_5 (ffmpeg_version : option Z) : bool :=
  truthy ffmpeg_version &&
  match ffmpeg_version with
  | Some v => 5 <=? v
  | None => false
  end.

(** [f'scale={width}:{height}'] *)
Definition scale_filter (width height : Z) : string :=
  ("scale=" ++ str_int width ++ ":" ++ str_int height)%string.

(** [os.path.splitext(output_path)[1].lower()] *)
Definition output_ext (output_path : string) : string :=
  lower (snd (splitext output_path)).

Definition get_ffmpeg_command `{Platform} (w : World)
    (input_pattern output_path : string) (fps : rate) (width height : Z)
  : M (list string) :=
  ffmpeg_version <- get_ffmpeg_version w ;;
  let output_ext := output_ext output_path in
  if String.eqb output_ext ".mp4" then
    let cmd := ["ffmpeg"; "-y"; "-framerate"; str_rate fps; "-i"; input_pattern;
                "-pix_fmt"; "yuv420p"; "-vf"; scale_filter width height] in
    codec <- codec_arguments w ;;
    let cmd := cmd ++ codec in
    let cmd := if version_at_least_5 ffmpeg_version
               then (cmd ++ ["-preset"; "medium"]) ++ ["-movflags"; "+faststart"]
               else cmd in
    ret (cmd ++ [output_path])
  else if String.eqb output_ext ".webm" then
    ret ["ffmpeg"; "-y"; "-framerate"; str_rate fps; "-i"; input_pattern;
         "-c:v"; "libvpx-vp9"; "-crf"; "30"; "-b:v"; "0";
         "-pix_fmt"; "yuv420p"; "-vf"; scale_filter width height;
         output_path]
  else if String.eqb output_ext ".avi" then
    let cmd := ["ffmpeg"; "-y"; "-framerate"; str_rate fps; "-i"; input_pattern;
                "-pix_fmt"; "yuv420p"; "-vf"; scale_filter width height] in
    codec <- codec_arguments w ;;
    let cmd := cmd ++ codec in
    let cmd := if version_at_least_5 ffmpeg_version
               then cmd ++ ["-preset"; "medium"]
               else cmd in
    ret (cmd ++ [output_path])
  else
    let cmd := ["ffmpeg"; "-y"; "-framerate"; str_rate fps; "-i"; input_pattern;
                "-pix_fmt"; "yuv420p"; "-vf"; scale_filter width height] in
    codec <- codec_arguments w ;;
    let cmd := cmd ++ codec in
    let cmd := if version_at_least_5 ffmpeg_version
               then (cmd ++ ["-preset"; "medium"]) ++ ["-movflags"; "+faststart"]
               else cmd in
    ret (cmd ++ [output_path]).

(** ** [process_video] *)

(** [a / b] on integers: the quotient is only printed, so it is kept as
    the fraction it is. *)
Definition truediv (a b : Z) : result (Z * Z) :=
  if b =? 0 then Raise ZeroDivisionError else Ok (a, b).

(** The loop of lines 291-309.  [frames] is what the capture still has to
    deliver; the loop is left at the first read that fails. *)
Fixpoint render_frames `{Platform} (w : World) (frames : list (option frame))
    (temp_dir : string) (action_list : list string) (actual_fps : rate)
    (frames_per_action total_frames : Z) (frame_count : Z) : M unit :=
  match frames with
  | [] => ret tt
  | None :: _ => ret tt
  | Some frame :: frames' =>
      frame_with_icons <-
        lift (create_icon_overlay frame action_list frame_count actual_fps
                (Some frames_per_action) (Some total_frames)) ;;
      let frame_path :=
        path_join temp_dir ("frame_" ++ format_06d frame_count ++ ".png")%string in
      cv2_imwrite w frame_path frame_with_icons ;;
      let frame_count := frame_count + 1 in
      (if frame_count mod 100 =? 0 then
         progress <- lift (truediv frame_count total_frames) ;;
         print (MsgProgress frame_count total_frames)
       else ret tt) ;;
      render_frames w frames' temp_dir action_list actual_fps
                    frames_per_action total_frames frame_count
  end.

(** [out.write(frame)] *)
Definition out_write `{Platform} (w : World) (f : frame) : M unit :=
  emit (WriterWrite f) ;; lift (writer_write w f).

(** The loop of lines 364-381. *)
Fixpoint fallback_frames `{Platform} (w : World) (frames : list (option frame))
    (action_list : list string) (actual_fps : rate)
    (frames_per_action total_frames : Z) (frame_count : Z) : M unit :=
  match frames with
  | [] => ret tt
  | None :: _ => ret tt
  | Some frame :: frames' =>
      frame_with_icons <-
        lift (create_icon_overlay frame action_list frame_count actual_fps
                (Some frames_per_action) (Some total_frames)) ;;
      out_write w frame_with_icons ;;
      let frame_count := frame_count + 1 in
      (if frame_count mod 100 =? 0 then
         progress <- lift (truediv frame_count total_frames) ;;
         print (MsgFallbackProgress frame_count total_frames)
       else ret tt) ;;
      fallback_frames w frames' action_list actual_fps
                      frames_per_action total_frames frame_count
  end.

(** The body of the inner [try] (lines 348-388). *)
Definition fallback_opencv `{Platform} (w : World)
    (input_video_path output_video_path : string) (action_list : list string)
    (actual_fps : rate) (width height frames_per_action total_frames : Z)
  : M unit :=
  emit (CaptureOpen input_video_path) ;;
  if negb (recap_isOpened w) then
    print MsgCouldNotReopen ;;
    return_
  else
    emit (WriterOpen output_video_path "mp4v" actual_fps (width, height)) ;;
    if negb (writer_isOpened w) then
      print (MsgCouldNotCreate output_video_path) ;;
      emit CaptureRelease ;;
      return_
    else
      fallback_frames w (recap_frames w) action_list actual_fps
                      frames_per_action total_frames 0 ;;
      emit CaptureRelease ;;
      emit WriterRelease ;;
      print MsgFallbackComplete ;;
      print (MsgOutputSaved output_video_path) ;;
      print MsgNoteOpenCV.

(** The body of the outer [try] (lines 318-341). *)
Definition encode_with_ffmpeg `{Platform} (w : World)
    (temp_dir output_video_path : string)
    (actual_fps : rate) (width height : Z) : M unit :=
  available <- subprocess_run w CheckAvailable ["ffmpeg"; "-version"] ;;
  (if returncode available =? 0 then ret tt else raise CalledProcessError) ;;
  ffmpeg_cmd <- get_ffmpeg_command w (path_join temp_dir "frame_%06d.png")
                  output_video_path actual_fps width height ;;
  print (MsgRunning ffmpeg_cmd) ;;
  result <- subprocess_run w Encode ffmpeg_cmd ;;
  if returncode result =? 0 then
    print MsgEncodingComplete ;;
    print (MsgOutputSaved output_video_path)
  else
    print (MsgFfmpegError (stderr result)) ;;
    print MsgFallingBack ;;
    raise (Exception "FFmpeg failed").

(** The [try] statement of lines 317-396. *)
Definition encode_or_fall_back `{Platform} (w : World)
    (temp_dir input_video_path output_video_path : string)
    (action_list : list string) (actual_fps : rate)
    (width height frames_per_action total_frames : Z) : M unit :=
  try_except
    (encode_with_ffmpeg w temp_dir output_video_path actual_fps width height)
    (fun e =>
       match e with
       | FileNotFoundError | CalledProcessError =>
           Some (print MsgNotAvailable ;;
                 try_except
                   (fallback_opencv w input_video_path output_video_path
                      action_list actual_fps width height
                      frames_per_action total_frames)
                   (fun e => Some (print (MsgFallbackFailed e) ;; return_)))
       | _ => Some (print (MsgErrorRunning e) ;; return_)
       end).

(** The body of the [with] statement (lines 289-396). *)
Definition in_temp_dir `{Platform} (w : World)
    (input_video_path output_video_path : string) (action_list : list string)
    (actual_fps : rate) (width height frames_per_action total_frames : Z)
    (temp_dir : string) : M unit :=
  print MsgProcessing ;;
  render_frames w (cap_frames w) temp_dir action_list actual_fps
                frames_per_action total_frames 0 ;;
  emit CaptureRelease ;;
  print MsgFramesProcessed ;;
  encode_or_fall_back w temp_dir input_video_path output_video_path
    action_list actual_fps width height frames_per_action total_frames.

(** Lines 274-285: the schedule and the report on the source. *)
Definition report_properties `{Platform} (action_list : list string)
    (frames_per_action : option Z) (actual_fps : rate)
    (width height total_frames : Z) : M Z :=
  frames_per_action <-
    match frames_per_action with
    | None =>
        q <- lift (floordiv total_frames (len action_list)) ;;
        print (MsgCalculated q) ;;
        ret q
    | Some given => ret given
    end ;;
  print MsgVideoProperties ;;
  print (MsgResolution width height) ;;
  print (MsgTotalFrames total_frames) ;;
  print (MsgFps actual_fps) ;;
  (if rate_is_zero actual_fps then raise ZeroDivisionError
   else print (MsgDuration total_frames actual_fps)) ;;
  print (MsgActions action_list) ;;
  print (MsgFramesPerAction frames_per_action) ;;
  ret frames_per_action.

Definition process_video `{Platform} (w : World)
    (input_video_path output_video_path : string) (action_list : list string)
    (fps : rate) (frames_per_action : option Z) : M unit :=
  emit (CaptureOpen input_video_path) ;;
  if negb (cap_isOpened w) then
    print (MsgCouldNotOpen input_video_path) ;;
    return_
  else
    let width := cap_width w in
    let height := cap_height w in
    let total_frames := cap_frame_count w in
    let actual_fps := cap_fps w in
    frames_per_action <-
      report_properties action_list frames_per_action actual_fps
                        width height total_frames ;;
    with_TemporaryDirectory w
      (in_temp_dir w input_video_path output_video_path action_list
                   actual_fps width height frames_per_action total_frames).

(** ** Observations used in the statements *)

(** The arguments of a command that stand between its input (the six
    leading arguments [ffmpeg -y -framerate <fps> -i <pattern>]) and its
    output path (the last argument). *)
Definition options (cmd : list string) : list string :=
  removelast (skipn 6 cmd).

(** What follows the last separator of a path. *)
Definition last_component (p : string) : string :=
  slice_from p (rfind "/" p + 1).

(** [part] occurs in [l] as a run of neighbouring arguments. *)
Definition appears_in {A} (part l : list A) : Prop :=
  exists front back, l = front ++ part ++ back.

(** The two codec paths of the mp4 and avi commands. *)
Definition primary_codec : list string := ["-c:v"; "libx264"; "-crf"; "23"].
Definition generic_codec : list string := ["-q:v"; "3"].

(** The corners of the filled rectangles among some drawing calls. *)
Fixpoint filled_boxes (ops : list draw_op) : list (point * point) :=
  match ops with
  | [] => []
  | rectangle pt1 pt2 _ thickness :: ops' =>
      if thickness =? -1 then (pt1, pt2) :: filled_boxes ops'
      else filled_boxes ops'
  | putText _ _ _ _ :: ops' => filled_boxes ops'
  end.

(** The square of radius 40 around a centre. *)
Definition box (x y : Z) : point * point := ((x - 40, y - 40), (x + 40, y + 40)).

(** The four WASD labels. *)
Definition wasd : list string := ["w"; "a"; "s"; "d"].

(** The state once the events [es] have happened, none of which touches
    the temporary directory. *)
Definition extend `{Platform} (es : list event) (s : state) : state :=
  {| trace := trace s ++ es; tempdir := tempdir s;
     created := created s; removed := removed s |}.

(** The pictures written to frame files, in order. *)
Fixpoint saved_pictures `{Platform} (t : list event) : list nat :=
  match t with
  | [] => []
  | Imwrite _ f _ :: t' => picture f :: saved_pictures t'
  | _ :: t' => saved_pictures t'
  end.

(** The printed lines, in order. *)
Fixpoint printed `{Platform} (t : list event) : list message :=
  match t with
  | [] => []
  | Print m :: t' => m :: printed t'
  | _ :: t' => printed t'
  end.

(** The writers opened (path and frame rate) and the pictures written
    to them, in order. *)
Fixpoint writers `{Platform} (t : list event) : list (string * rate) :=
  match t with
  | [] => []
  | WriterOpen path _ r _ :: t' => (path, r) :: writers t'
  | _ :: t' => writers t'
  end.

Fixpoint written_pictures `{Platform} (t : list event) : list nat :=
  match t with
  | [] => []
  | WriterWrite f :: t' => picture f :: written_pictures t'
  | _ :: t' => written_pictures t'
  end.

(** [m] keeps the invariant [I] of the state, however it ends. *)
Definition keeps `{Platform} {A} (I : state -> Prop) (m : M A) : Prop :=
  forall s, I s -> I (snd (m s)).

(** [m] can fall through with the value [a]. *)
Definition produces `{Platform} {A} (m : M A) (a : A) : Prop :=
  exists s, fst (m s) = Normal a.

(** The events that say nothing about a frame rate or about the
    temporary directory: everything but opening the writer, announcing
    or running the encoder command, and making or removing the
    directory. *)
Definition plain `{Platform} (e : event) : Prop :=
  match e with
  | WriterOpen _ _ _ _ => False
  | Print (MsgRunning _) => False
  | Run argv => argv = ["ffmpeg"; "-version"] \/ argv = ["ffmpeg"; "-codecs"]
  | MakeTempDir _ => False
  | RemoveTempDir _ => False
  | _ => True
  end.

(** The event is not the opening of a video writer. *)
Definition opens_no_writer `{Platform} (e : event) : Prop :=
  match e with
  | WriterOpen _ _ _ _ => False
  | _ => True
  end.

(** The frame rate an event shows, if it shows one, is the one the
    source reports: a writer is opened with it, and a child process is
    the version report, the codec listing, or a command whose input rate
    it is. *)
Definition with_measured_rate `{Platform} (w : World) (cmd : list string) : Prop :=
  firstn 4 cmd = ["ffmpeg"; "-y"; "-framerate"; str_rate (cap_fps w)].

Definition shows_measured_rate `{Platform} (w : World) (e : event) : Prop :=
  match e with
  | WriterOpen _ _ r _ => r = cap_fps w
  | Print (MsgRunning cmd) => with_measured_rate w cmd
  | Run argv =>
      argv = ["ffmpeg"; "-version"] \/ argv = ["ffmpeg"; "-codecs"]
      \/ with_measured_rate w argv
  | _ => True
  end.

(** ** Sample surroundings *)

(** Whole frame rates, printed the way Python prints a float of that
    value; every text is given the same size. *)
Definition whole_rates : Platform := {|
  rate := Z;
  str_rate := fun r => (str_int r ++ ".0")%string;
  rate_is_zero := fun r => r =? 0;
  getTextSize := fun _ => (40, 44)
|}.

Definition blank (n : nat) : frame :=
  {| shape := (480, 640); picture := n; drawn := [] |}.

(** The pictures [0 .. n-1], all decodable. *)
Definition pictures (n : nat) : list (option frame) :=
  map (fun i => Some (blank i)) (seq 0 n).


(** An encoder that is present, reports [version] and [codecs], and ends
    an encoding with [status]. *)
Definition encoder (version codecs : string) (status : Z)
    (site : call_site) (argv : list string) : result completed :=
  match site with
  | CheckAvailable => Ok (Completed 0 version "")
  | ProbeVersion => Ok (Completed 0 version "")
  | ProbeCodecs => Ok (Completed 0 codecs "")
  | Encode => Ok (Completed status "" "Conversion failed!")
  end.

(** No encoder on the path. *)
Definition no_encoder (site : call_site) (argv : list string) : result completed :=
  Raise FileNotFoundError.

(** A source that opens, reports 640x480, [total] frames and the rate
    [fps], and delivers [frames]; [save] tells which frame files can be
    written, [outcome] what the child processes do. *)
Definition surroundings (total fps : Z) (frames : list (option frame))
    (save : string -> frame -> bool)
    (outcome : call_site -> list string -> result completed)
  : @World whole_rates :=
  @Build_World whole_rates
    (* cap_isOpened *) true
    (* cap_width, cap_height *) 640 480
    (* cap_frame_count, cap_fps *) total fps
    (* cap_frames *) frames
    (* mkdtemp *) "/tmp/tmpab12"
    (* imwrite *) save
    (* process_outcome *) outcome
    (* recap_isOpened *) true
    (* recap_frames *) frames
    (* writer_isOpened *) true
    (* writer_write *) (fun _ => Ok tt).

Definition studio (total fps : Z) (n : nat) (version codecs : string)
    (status : Z) : @World whole_rates :=
  surroundings total fps (pictures n) (fun _ _ => true)
               (encoder version codecs status).

(** The same, except that listing the codecs raises. *)
Definition encoder_without_listing (version : string) (status : Z)
    (site : call_site) (argv : list string) : result completed :=
  match site with
  | ProbeCodecs => Raise (Exception "codec listing could not be decoded")
  | _ => encoder version "" status site argv
  end.

Definition banner5 : string :=
  "ffmpeg version 5.1.2 Copyright (c) 2000-2022 the FFmpeg developers" ++
  String "010" "built with gcc 11".

Definition banner4 : string := "ffmpeg version 4.2.7-0ubuntu0.1 Copyright".

Definition codecs_x264 : string :=
  " DEV.LS h264 H.264 / AVC (encoders: libx264 libx264rgb )".

Definition codecs_plain : string := " DEV.L. mpeg4 MPEG-4 part 2".

(** A source of three frames whose second read fails. *)
Definition stutter : @World whole_rates :=
  surroundings 3 30 [Some (blank 0); None; Some (blank 2)] (fun _ _ => true)
               (encoder banner5 codecs_x264 0).

(** Three frames of which the second cannot be written to its file. *)
Definition full_disk : @World whole_rates :=
  surroundings 3 30 (pictures 3)
    (fun path _ => negb (String.eqb path "/tmp/tmpab12/frame_000001.png"))
    (encoder banner5 codecs_x264 0).

From Stdlib Require DecimalPos.

(** ** Further observations *)

(** The corners of the rectangles filled with the highlight colour. *)
Fixpoint highlighted (ops : list draw_op) : list (point * point) :=
  match ops with
  | [] => []
  | rectangle pt1 pt2 (c1, c2, c3) thickness :: ops' =>
      if (c1 =? 0) && (c2 =? 255) && (c3 =? 0) && (thickness =? -1)
      then (pt1, pt2) :: highlighted ops'
      else highlighted ops'
  | putText _ _ _ _ :: ops' => highlighted ops'
  end.

(** The calls that draw text among some drawing calls. *)
Fixpoint texts (ops : list draw_op) : list draw_op :=
  match ops with
  | [] => []
  | rectangle _ _ _ _ :: ops' => texts ops'
  | putText text org color thickness :: ops' =>
      putText text org color thickness :: texts ops'
  end.

(** The paths of the frame files written, the frames written to files,
    and the frames handed to the video writer, in order. *)
Fixpoint saved_paths `{Platform} (t : list event) : list string :=
  match t with
  | [] => []
  | Imwrite path _ _ :: t' => path :: saved_paths t'
  | _ :: t' => saved_paths t'
  end.

Fixpoint saved_frames `{Platform} (t : list event) : list frame :=
  match t with
  | [] => []
  | Imwrite _ f _ :: t' => f :: saved_frames t'
  | _ :: t' => saved_frames t'
  end.

Fixpoint written_frames `{Platform} (t : list event) : list frame :=
  match t with
  | [] => []
  | WriterWrite f :: t' => f :: written_frames t'
  | _ :: t' => written_frames t'
  end.

(** The integers [first + 1 .. first + n]. *)
Fixpoint counts_after (first : Z) (n : nat) : list Z :=
  match n with
  | O => []
  | S n' => (first + 1) :: counts_after (first + 1) n'
  end.

(** The commands of the child processes that were started, in order. *)
Fixpoint commands_run `{Platform} (t : list event) : list (list string) :=
  match t with
  | [] => []
  | Run argv :: t' => argv :: commands_run t'
  | _ :: t' => commands_run t'
  end.

(** ** [check_ffmpeg] *)

(** The lines [check_ffmpeg] prints: one on the state of the encoder,
    and on a missing encoder the six lines on how to install it. *)
Inductive check_line : Type :=
| LineFullSupport (ffmpeg_version : Z)
| LineBasicMode (ffmpeg_version : Z)
| LineVersionUnknown
| LineNotWorking
| LineNotFound
| LineToInstall
| LineUbuntu
| LineCentOS
| LineMacOS
| LineWindows
| LineConda.

(** [check_ffmpeg()] (lines 398-425).  [outcome] is what the child
    process of line 401 does; the lines printed are given back with the
    answer, in the order in which they are printed. *)
Definition check_ffmpeg `{Platform} (w : World) (outcome : result completed)
  : M (list check_line * bool) :=
  try_except
    (emit (Run ["ffmpeg"; "-version"]) ;;
     result <- lift outcome ;;
     if returncode result =? 0 then
       ffmpeg_version <- get_ffmpeg_version w ;;
       if truthy ffmpeg_version then
         match ffmpeg_version with
         | Some v =>
             if 5 <=? v then ret ([LineFullSupport v], true)
             else ret ([LineBasicMode v], true)
         | None => ret ([LineVersionUnknown], true) (* [None] is not true *)
         end
       else ret ([LineVersionUnknown], true)
     else ret ([LineNotWorking], false))
    (fun e =>
       match e with
       | FileNotFoundError =>
           Some (ret ([LineNotFound; LineToInstall; LineUbuntu; LineCentOS;
                       LineMacOS; LineWindows; LineConda], false))
       | _ => None
       end).

(** ** The settings of [main] (lines 451-459) *)

(** White space in the sense of [str.split()], on ASCII text. *)
Definition is_space (c : ascii) : bool :=
  let n := N_of_ascii c in
  ((9 <=? n) && (n <=? 13) || (28 <=? n) && (n <=? 32))%N.

Fixpoint all_space (s : string) : bool :=
  match s with
  | EmptyString => true
  | String c s' => is_space c && all_space s'
  end.

(** [s.split()]: the runs of characters between white space; [word] is
    the run read so far. *)
Fixpoint split_words (s word : string) : list string :=
  match s with
  | EmptyString => if String.eqb word "" then [] else [word]
  | String c s' =>
      if is_space c then
        if String.eqb word "" then split_words s' ""
        else word :: split_words s' ""
      else split_words s' (word ++ String c "")
  end.

Definition split (s : string) : list string := split_words s "".

(** [s.endswith(suffix)] *)
Definition endswith (s suffix : string) : bool :=
  (String.length suffix <=? String.length s)%nat
  && String.eqb (substring (String.length s - String.length suffix)
                           (String.length suffix) s) suffix.

(** [f.endswith(('.mp4', '.avi', '.mov', '.mkv'))] *)
Definition is_video (f : string) : bool :=
  endswith f ".mp4" || endswith f ".avi" || endswith f ".mov"
  || endswith f ".mkv".

(** The condition of the list comprehension of line 456. *)
Definition is_candidate (f : string) : bool :=
  is_video f && negb (endswith f "_icon.mp4").

(** [s.replace(old, new)] for an [old] that is not empty: the
    occurrences of [old] are found from the left and do not overlap;
    [skip] counts the characters of an occurrence still to be passed. *)
Fixpoint replace_from (old new s : string) (skip : nat) : string :=
  match s with
  | EmptyString => EmptyString
  | String c s' =>
      match skip with
      | S skip' => replace_from old new s' skip'
      | O =>
          if String.prefix old s
          then (new ++ replace_from old new s' (String.length old - 1))%string
          else String c (replace_from old new s' 0)
      end
  end.

Definition replace (s old new : string) : string := replace_from old new s 0.

(** The output name of line 459. *)
Definition icon_name (input_video : string) : string :=
  replace (replace (replace (replace input_video ".mp4" "_icon.mp4")
                      ".avi" "_icon.avi")
             ".mov" "_icon.mov")
    ".mkv" "_icon.mkv".

(** Lines 454-459: the input and the output [main] goes on with, from
    the two settings and the listing of the current directory. *)
Definition choose_paths (input_video output_video : string)
    (listing : list string) : string * string :=
  if String.eqb input_video "home.mp4" then
    match filter is_candidate listing with
    | f :: _ => (f, icon_name f)
    | [] => (input_video, output_video)
    end
  else (input_video, output_video).

(** [s[n:]] for a natural [n]. *)
Fixpoint drop_chars (n : nat) (s : string) : string :=
  match n, s with
  | O, _ => s
  | S _, EmptyString => EmptyString
  | S n', String _ s' => drop_chars n' s'
  end.

(** * Properties *)

(** ** The action schedule (lines 49-61) *)

Lemma len_pos {A} (l : list A) : l <> [] -> 0 < len l.
Proof. destruct l; [congruence | unfold len; simpl; lia]. Qed.

Lemma getitem_in_range {A} (l : list A) (i : Z) (d : A) :
  0 <= i < len l -> getitem l i = Ok (nth (Z.to_nat i) l d).
Proof.
  intros [Hlo Hhi]. unfold getitem.
  destruct (i <? 0) eqn:Hneg; [apply Z.ltb_lt in Hneg; lia |].
  assert (Hin : (Z.to_nat i < List.length l)%nat) by (unfold len in Hhi; lia).
  replace (0 <=? i) with true by (symmetry; apply Z.leb_le; lia).
  replace (i <? len l) with true by (symmetry; apply Z.ltb_lt; lia).
  simpl. destruct (nth_error l (Z.to_nat i)) eqn:Hnth.
  - f_equal. symmetry. apply nth_error_nth. exact Hnth.
  - apply nth_error_None in Hnth. lia.
Qed.

Lemma current_action_given (action_list : list string) (n per_action : Z)
    (total_frames : option Z) :
  per_action <> 0 ->
  current_action action_list n (Some per_action) total_frames =
  if n / per_action <? len action_list
  then let? a := getitem action_list (n / per_action) in Ok (Some (lower a))
  else Ok None.
Proof.
  intros Hne. unfold current_action. simpl.
  destruct (per_action =? 0) eqn:Hz; [apply Z.eqb_eq in Hz; lia |].
  simpl. unfold floordiv. rewrite Hz. reflexivity.
Qed.

Lemma current_action_computed (action_list : list string) (n total : Z) :
  action_list <> [] ->
  current_action action_list n None (Some total) =
  current_action action_list n (Some (total / len action_list)) (Some total).
Proof.
  intros Hne. apply len_pos in Hne. unfold current_action at 1. unfold floordiv at 1.
  destruct (len action_list =? 0) eqn:Hz; [apply Z.eqb_eq in Hz; lia |].
  reflexivity.
Qed.

(** On frame counters and schedules that are not negative the mapper
    always gives a label or none. *)
Lemma current_action_total (action_list : list string) (n per_action : Z)
    (total_frames : option Z) :
  0 <= n -> 0 <= per_action ->
  exists c, current_action action_list n (Some per_action) total_frames = Ok c.
Proof.
  intros Hn Hp. destruct (Z.eq_dec per_action 0) as [-> | Hne].
  - exists None. reflexivity.
  - rewrite current_action_given by exact Hne.
    destruct (n / per_action <? len action_list) eqn:Hlt.
    + apply Z.ltb_lt in Hlt.
      assert (0 <= n / per_action) by (apply Z.div_pos; lia).
      rewrite (getitem_in_range _ _ "") by lia. simpl. eauto.
    + eauto.
Qed.

(** C4.  For a frame index that is not negative, a positive
    [frames_per_action] and a non-empty action list, the mapper gives
    [actions[frame_index // frames_per_action].lower()] while that index
    is below [len(actions)], and no label from there on: labels are not
    repeated once the list is used up.  With 100 frames, the actions
    w, a, s, d and no [frames_per_action] given, the computed value is 25
    and the label is w at frame 24, a at frame 25 and d at frame 99. *)
Theorem mapper_is_non_cyclic (action_list : list string)
    (frame_index frames_per_action : Z) (total_frames : option Z) :
  0 <= frame_index -> 0 < frames_per_action -> action_list <> [] ->
  let action_index := frame_index / frames_per_action in
  (action_index < len action_list ->
     current_action action_list frame_index (Some frames_per_action) total_frames
     = Ok (Some (lower (nth (Z.to_nat action_index) action_list ""))))
  /\ (len action_list <= action_index ->
     current_action action_list frame_index (Some frames_per_action) total_frames
     = Ok None)
  /\ floordiv 100 (len wasd) = Ok 25
  /\ (forall n, current_action wasd n None (Some 100)
                = current_action wasd n (Some 25) (Some 100))
  /\ current_action wasd 24 None (Some 100) = Ok (Some "w")
  /\ current_action wasd 25 None (Some 100) = Ok (Some "a")
  /\ current_action wasd 99 None (Some 100) = Ok (Some "d").
Proof.
  intros Hn Hp Hne action_index.
  assert (Hidx : 0 <= action_index) by (apply Z.div_pos; lia).
  split; [| split].
  - intros Hlt. rewrite current_action_given by lia. fold action_index.
    replace (action_index <? len action_list) with true
      by (symmetry; apply Z.ltb_lt; exact Hlt).
    rewrite (getitem_in_range _ _ "") by lia. reflexivity.
  - intros Hge. rewrite current_action_given by lia. fold action_index.
    replace (action_index <? len action_list) with false
      by (symmetry; apply Z.ltb_ge; exact Hge).
    reflexivity.
  - repeat split; reflexivity.
Qed.

Lemma mapper_is_non_cyclic_witness :
  current_action ["W"; "a"] 7 (Some 5) None = Ok (Some "a")
  /\ current_action ["W"; "a"] 10 (Some 5) None = Ok None.
Proof.
  destruct (mapper_is_non_cyclic ["W"; "a"] 7 5 None
              ltac:(lia) ltac:(lia) ltac:(discriminate)) as (Hin & _).
  destruct (mapper_is_non_cyclic ["W"; "a"] 10 5 None
              ltac:(lia) ltac:(lia) ltac:(discriminate)) as (_ & Hout & _).
  split.
  - apply Hin. vm_compute. reflexivity.
  - apply Hout. vm_compute. discriminate.
Defined.

(** C5.  For every frame index and non-empty action list: a
    [frames_per_action] of 0 gives no label; a [frames_per_action] that
    is still undefined at the guard of line 53, because no
    [total_frames] was passed either, gives no label; and neither 0 nor
    an undefined [frames_per_action] (with or without a total, of which
    lines 49-51 take [total_frames // len(actions)]) makes the mapper
    raise a division error. *)
Theorem degenerate_schedule (action_list : list string) (frame_index : Z)
    (total_frames : option Z) :
  action_list <> [] ->
  current_action action_list frame_index (Some 0) total_frames = Ok None
  /\ current_action action_list frame_index None None = Ok None
  /\ (forall total,
        current_action action_list frame_index None (Some total)
        = current_action action_list frame_index
            (Some (total / len action_list)) (Some total))
  /\ current_action action_list frame_index (Some 0) total_frames
     <> Raise ZeroDivisionError
  /\ current_action action_list frame_index None total_frames
     <> Raise ZeroDivisionError.
Proof.
  intros Hne. split; [reflexivity | split; [reflexivity | split]].
  - intros total. apply current_action_computed. exact Hne.
  - split; [discriminate |].
    destruct total_frames as [total |]; [| discriminate].
    rewrite current_action_computed by exact Hne.
    destruct (Z.eq_dec (total / len action_list) 0) as [Hz | Hnz].
    + rewrite Hz. discriminate.
    + rewrite current_action_given by exact Hnz.
      destruct (frame_index / (total / len action_list) <? len action_list);
        [| discriminate].
      unfold getitem.
      destruct (_ && _); [| discriminate].
      destruct (nth_error _ _); discriminate.
Qed.

Lemma degenerate_schedule_witness :
  current_action wasd 7 (Some 0) (Some 100) = Ok None
  /\ current_action wasd 7 None (Some 3) = Ok None.
Proof.
  destruct (degenerate_schedule wasd 7 (Some 100)) as (H0 & _);
    [discriminate |].
  destruct (degenerate_schedule wasd 7 None) as (_ & _ & Hc & _);
    [discriminate |].
  split; [exact H0 | rewrite Hc; reflexivity].
Defined.

(** ** The overlay (lines 33-46 and 63-100) *)

Lemma filled_boxes_app (ops1 ops2 : list draw_op) :
  filled_boxes (ops1 ++ ops2) = filled_boxes ops1 ++ filled_boxes ops2.
Proof.
  induction ops1 as [| op ops1 IH]; [reflexivity |].
  destruct op as [pt1 pt2 c t | text org c t]; simpl.
  - destruct (t =? -1); simpl; rewrite IH; reflexivity.
  - exact IH.
Qed.

Lemma draw_icon_boxes `{Platform} (current : option string) (f : frame)
    (key : string) (x y : Z) :
  filled_boxes (drawn (draw_icon current f (key, (x, y))))
  = filled_boxes (drawn f) ++ [box x y].
Proof.
  unfold draw_icon, box.
  destruct (is_active key current); simpl;
    rewrite !filled_boxes_app; simpl; rewrite !app_nil_r; reflexivity.
Qed.

(** C9, as stated, fails: on a 640x480 frame the upper icon (w) is centred
    at x = 220, above the left icon (a), and not at x = 320 where the
    centre icon (s) of the row is. *)
Lemma upper_icon_is_above_left_icon :
  icon_positions 480 640
  = [("w", (220, 230)); ("a", (220, 330)); ("s", (320, 330)); ("d", (420, 330))]
  /\ filled_boxes (drawn (@draw_icons whole_rates (blank 0) (Some "w")))
     = [box 220 230; box 220 330; box 320 330; box 420 330]
  /\ 220 <> 320.
Proof. split; [reflexivity | split; [reflexivity | lia]]. Qed.

(** C9, amended.  For every frame buffer and active label the renderer
    fills four squares of side 80 whose centres depend on the frame's
    width and height only: three in a row 150 above the bottom edge, at
    the horizontal centre and 100 to its left and right, and the fourth
    100 higher, directly above the left one of the row. *)
Theorem icon_layout `{Platform} (f : frame) (current : option string) :
  let height := fst (shape f) in
  let width := snd (shape f) in
  let center_x := width / 2 in
  let row_y := height - 150 in
  icon_positions height width
  = [ ("w", (center_x - 100, row_y - 100)); ("a", (center_x - 100, row_y));
      ("s", (center_x, row_y)); ("d", (center_x + 100, row_y)) ]
  /\ filled_boxes (drawn (draw_icons f current))
     = filled_boxes (drawn f)
       ++ [ box (center_x - 100) (row_y - 100); box (center_x - 100) row_y;
            box center_x row_y; box (center_x + 100) row_y ]
  /\ (forall x y, fst (snd (box x y)) - fst (fst (box x y)) = 80
                  /\ snd (snd (box x y)) - snd (fst (box x y)) = 80).
Proof.
  intros height width center_x row_y. split; [reflexivity | split].
  - unfold draw_icons. subst height width center_x row_y.
    destruct (shape f) as [h wd]. unfold icon_positions. cbn [fold_left fst snd].
    rewrite !draw_icon_boxes. rewrite <- !app_assoc. reflexivity.
  - intros x y. unfold box. simpl. lia.
Qed.

(** ** The extension of the output path (line 136) *)

Lemma rfind_from_shift (c : ascii) (s : string) (i last : Z) :
  rfind_from c s i last = if rfind c s <? 0 then last else i + rfind c s.
Proof.
  revert i last. induction s as [| a s IH]; intros i last; [reflexivity |].
  unfold rfind. simpl. rewrite (IH (i + 1)), (IH 1).
  fold (rfind c s).
  destruct (rfind c s <? 0) eqn:Hnone.
  - destruct (Ascii.eqb a c); simpl; [f_equal; lia | reflexivity].
  - apply Z.ltb_ge in Hnone.
    replace (1 + rfind c s <? 0) with false by (symmetry; apply Z.ltb_ge; lia).
    lia.
Qed.

Lemma rfind_from_app (c : ascii) (s1 s2 : string) (i last : Z) :
  rfind_from c (s1 ++ s2) i last
  = rfind_from c s2 (i + Z.of_nat (String.length s1)) (rfind_from c s1 i last).
Proof.
  revert i last. induction s1 as [| a s1 IH]; intros i last; simpl.
  - f_equal. lia.
  - rewrite IH. f_equal. lia.
Qed.

Lemma rfind_below_length (c : ascii) (s : string) :
  -1 <= rfind c s < Z.of_nat (String.length s).
Proof.
  induction s as [| a s IH]; [unfold rfind; simpl; lia |].
  unfold rfind. cbn [rfind_from]. rewrite rfind_from_shift.
  destruct (rfind c s <? 0) eqn:Hnone.
  - destruct (Ascii.eqb a c); cbn [String.length]; lia.
  - apply Z.ltb_ge in Hnone. cbn [String.length]. lia.
Qed.

Lemma rfind_app_absent (c : ascii) (s1 s2 : string) :
  rfind c s2 = -1 -> rfind c (s1 ++ s2) = rfind c s1.
Proof.
  intros Habsent. unfold rfind at 1. rewrite rfind_from_app, rfind_from_shift.
  rewrite Habsent. reflexivity.
Qed.

Lemma length_app (s1 s2 : string) :
  String.length (s1 ++ s2) = (String.length s1 + String.length s2)%nat.
Proof. induction s1 as [| a s1 IH]; simpl; [reflexivity | rewrite IH; reflexivity]. Qed.

Lemma substring_whole (s : string) : substring 0 (String.length s) s = s.
Proof. induction s as [| a s IH]; simpl; [reflexivity | rewrite IH; reflexivity]. Qed.

Lemma substring_app_left (s1 s2 : string) (n m : nat) :
  (n + m <= String.length s1)%nat ->
  substring n m (s1 ++ s2) = substring n m s1.
Proof.
  revert n m. induction s1 as [| a s1 IH]; intros n m Hfit; simpl in Hfit.
  - assert (n = 0%nat) by lia. assert (m = 0%nat) by lia. subst.
    destruct s2; reflexivity.
  - destruct n as [| n]; simpl.
    + destruct m as [| m]; [reflexivity |]. rewrite IH by lia. reflexivity.
    + apply IH. lia.
Qed.

Lemma substring_app_right (s1 s2 : string) :
  substring (String.length s1) (String.length s2) (s1 ++ s2) = s2.
Proof.
  induction s1 as [| a s1 IH]; simpl; [apply substring_whole | exact IH].
Qed.

(** For a path that ends in a dot and letters, after a file name that is
    not made of dots only, [os.path.splitext] splits at that dot. *)
Lemma splitext_of_named_file (stem letters : string) :
  rfind "." letters = -1 ->
  rfind "/" letters = -1 ->
  all_dots (last_component stem) = false ->
  splitext (stem ++ String "." letters) = (stem, String "." letters).
Proof.
  intros Hdot Hsep Hname. unfold splitext.
  assert (Hsep' : rfind "/" (stem ++ String "." letters) = rfind "/" stem).
  { apply rfind_app_absent. unfold rfind. cbn [rfind_from].
    rewrite rfind_from_shift, Hsep. reflexivity. }
  assert (Hdot' : rfind "." (stem ++ String "." letters)
                  = Z.of_nat (String.length stem)).
  { unfold rfind at 1. rewrite rfind_from_app. cbn [rfind_from].
    rewrite rfind_from_shift, Hdot. simpl. lia. }
  rewrite Hsep', Hdot'.
  pose proof (rfind_below_length "/" stem) as Hrange.
  replace (rfind "/" stem <? Z.of_nat (String.length stem)) with true
    by (symmetry; apply Z.ltb_lt; lia).
  assert (Hslice : slice (stem ++ String "." letters) (rfind "/" stem + 1)
                     (Z.of_nat (String.length stem))
                   = last_component stem).
  { unfold slice, last_component, slice_from.
    rewrite substring_app_left by lia. f_equal. lia. }
  rewrite Hslice, Hname. f_equal.
  - unfold slice. simpl Z.to_nat. rewrite Z.sub_0_r, Nat2Z.id.
    rewrite substring_app_left by lia. apply substring_whole.
  - unfold slice_from. rewrite Nat2Z.id, length_app.
    replace (String.length stem + String.length (String "." letters)
             - String.length stem)%nat
      with (String.length (String "." letters)) by lia.
    apply substring_app_right.
Qed.

(** So a path such as [dir/name.webm] has the extension its last letters
    spell, whatever their case. *)
Lemma output_ext_of_named_file (stem letters : string) :
  rfind "." letters = -1 ->
  rfind "/" letters = -1 ->
  all_dots (last_component stem) = false ->
  output_ext (stem ++ String "." letters) = String "." (lower letters).
Proof.
  intros Hdot Hsep Hname. unfold output_ext.
  rewrite splitext_of_named_file by assumption. reflexivity.
Qed.

(** ** The encoder command (lines 102-249) *)

Lemma get_ffmpeg_version_runs `{Platform} (w : World) (s : state) :
  exists tier,
    get_ffmpeg_version w s = (Normal tier, record (Run ["ffmpeg"; "-version"]) s).
Proof.
  unfold get_ffmpeg_version, try_except, subprocess_run, bind, emit, lift.
  destruct (process_outcome w ProbeVersion _) as [done | e]; simpl.
  - destruct (returncode done =? 0); [| unfold ret; eauto].
    destruct (search_version _) as [group1 |]; [| unfold ret; eauto].
    destruct (int_of_str group1); unfold ret, raise; eauto.
  - unfold ret; eauto.
Qed.

(** What [codec_arguments] gives, read off the outcome of the listing. *)
Lemma codec_arguments_choice `{Platform} (w : World) (s : state) :
  exists s',
    codec_arguments w s =
    (Normal match process_outcome w ProbeCodecs ["ffmpeg"; "-codecs"] with
            | Raise _ => primary_codec
            | Ok listing =>
                if contains "libx264" (stdout listing)
                then primary_codec else generic_codec
            end, s').
Proof.
  unfold codec_arguments, try_except, subprocess_run, bind, emit, lift, print.
  destruct (process_outcome w ProbeCodecs _) as [listing | e]; simpl.
  - destruct (contains "libx264" (stdout listing)); unfold ret; simpl; eauto.
  - unfold ret; eauto.
Qed.

(** The command in closed form: the branch is chosen by the extension,
    the codec by the listing, the closing arguments by the version. *)
Lemma get_ffmpeg_command_closed_form `{Platform} (w : World)
    (input_pattern output_path : string) (fps : rate) (width height : Z)
    (s : state) (tier : option Z) :
  fst (get_ffmpeg_version w s) = Normal tier ->
  let head := ["ffmpeg"; "-y"; "-framerate"; str_rate fps; "-i"; input_pattern] in
  let common := ["-pix_fmt"; "yuv420p"; "-vf"; scale_filter width height] in
  let codec := match process_outcome w ProbeCodecs ["ffmpeg"; "-codecs"] with
               | Raise _ => primary_codec
               | Ok listing =>
                   if contains "libx264" (stdout listing)
                   then primary_codec else generic_codec
               end in
  let mp4 := head ++ common ++ codec
             ++ (if version_at_least_5 tier
                 then ["-preset"; "medium"; "-movflags"; "+faststart"] else [])
             ++ [output_path] in
  fst (get_ffmpeg_command w input_pattern output_path fps width height s)
  = Normal
      (if String.eqb (output_ext output_path) ".mp4" then mp4
       else if String.eqb (output_ext output_path) ".webm" then
         head ++ ["-c:v"; "libvpx-vp9"; "-crf"; "30"; "-b:v"; "0"]
              ++ common ++ [output_path]
       else if String.eqb (output_ext output_path) ".avi" then
         head ++ common ++ codec
              ++ (if version_at_least_5 tier then ["-preset"; "medium"] else [])
              ++ [output_path]
       else mp4).
Proof.
  intros Htier head common codec mp4. subst mp4 codec.
  unfold get_ffmpeg_command.
  destruct (get_ffmpeg_version_runs w s) as [tier' Hv].
  rewrite Hv in Htier. simpl in Htier. injection Htier as ->.
  unfold bind at 1. rewrite Hv.
  destruct (codec_arguments_choice w (record (Run ["ffmpeg"; "-version"]) s))
    as [s' Hc].
  destruct (String.eqb (output_ext output_path) ".mp4");
    [| destruct (String.eqb (output_ext output_path) ".webm");
       [| destruct (String.eqb (output_ext output_path) ".avi")]].
  all: try (unfold bind; rewrite Hc; unfold ret; simpl;
            destruct (version_at_least_5 tier); simpl;
            rewrite <- ?app_assoc; reflexivity).
  reflexivity.
Qed.

Lemma get_ffmpeg_command_returns `{Platform} (w : World)
    (input_pattern output_path : string) (fps : rate) (width height : Z)
    (s : state) :
  exists cmd,
    fst (get_ffmpeg_command w input_pattern output_path fps width height s)
    = Normal cmd.
Proof.
  destruct (get_ffmpeg_version_runs w s) as [tier Hv].
  eexists. apply (get_ffmpeg_command_closed_form _ _ _ _ _ _ _ tier).
  rewrite Hv. reflexivity.
Qed.


Ltac not_an_option :=
  unfold options, primary_codec, generic_codec, scale_filter; simpl;
  let Hin := fresh "Hin" in
  intros Hin;
  repeat (destruct Hin as [Hin | Hin]; [discriminate Hin |]);
  exact Hin.



Ltac choose_codec w :=
  let listing := fresh "listing" in
  destruct (process_outcome w ProbeCodecs ["ffmpeg"; "-codecs"]) as [listing | ?];
  [destruct (contains "libx264" (stdout listing)) |].





(** A file name that is nothing but a dot and letters has no extension
    for [os.path.splitext], so such an output path takes the default
    branch, and case does not matter. *)
Example extension_examples :
  output_ext "clips/out.WebM" = ".webm"
  /\ output_ext "out.tar.mp4" = ".mp4"
  /\ output_ext "clips.d/out" = ""
  /\ output_ext "clips/.webm" = "".
Proof. repeat split. Qed.

Lemma appears_in_In {A} (part l : list A) (x : A) :
  appears_in part l -> In x part -> In x l.
Proof.
  intros (front & back & ->) Hx.
  apply in_or_app. right. apply in_or_app. left. exact Hx.
Qed.

(** C2, as stated, fails: when listing the codecs raises, the mp4 command
    still names the primary codec libx264 with its fixed quality, and has
    no generic quality argument. *)
Lemma failed_listing_keeps_primary_codec :
  process_outcome (surroundings 100 30 [] (fun _ _ => true)
                     (encoder_without_listing banner4 0))
    ProbeCodecs ["ffmpeg"; "-codecs"]
  = Raise (Exception "codec listing could not be decoded")
  /\ fst (@get_ffmpeg_command whole_rates
            (surroundings 100 30 [] (fun _ _ => true)
               (encoder_without_listing banner4 0))
            "t/frame_%06d.png" "out.mp4" 30 640 480 initial_state)
     = Normal ["ffmpeg"; "-y"; "-framerate"; "30.0"; "-i"; "t/frame_%06d.png";
               "-pix_fmt"; "yuv420p"; "-vf"; "scale=640:480";
               "-c:v"; "libx264"; "-crf"; "23"; "out.mp4"]
  /\ ~ In "-q:v" ["ffmpeg"; "-y"; "-framerate"; "30.0"; "-i"; "t/frame_%06d.png";
                  "-pix_fmt"; "yuv420p"; "-vf"; "scale=640:480";
                  "-c:v"; "libx264"; "-crf"; "23"; "out.mp4"].
Proof.
  split; [reflexivity | split; [reflexivity |]].
  simpl. intros Hin.
  repeat (destruct Hin as [Hin | Hin]; [discriminate Hin |]). exact Hin.
Qed.

(** C2, amended.  For an mp4 or avi command: if listing the codecs
    raises, or if the listing names libx264, the command has the primary
    codec with its fixed quality; if the listing completes without naming
    libx264, it has the generic quality argument instead.  Whatever the
    listing does, exactly one of the two codec paths is in the command. *)
Theorem codec_path_of_listing `{Platform} (w : World)
    (input_pattern output_path : string) (fps : rate) (width height : Z)
    (s : state) :
  output_ext output_path = ".mp4" \/ output_ext output_path = ".avi" ->
  (exists cmd,
     fst (get_ffmpeg_command w input_pattern output_path fps width height s)
     = Normal cmd)
  /\ forall cmd,
     fst (get_ffmpeg_command w input_pattern output_path fps width height s)
     = Normal cmd ->
     ((exists e, process_outcome w ProbeCodecs ["ffmpeg"; "-codecs"] = Raise e) ->
        appears_in primary_codec (options cmd) /\ ~ In "-q:v" (options cmd))
     /\ (forall listing,
           process_outcome w ProbeCodecs ["ffmpeg"; "-codecs"] = Ok listing ->
           contains "libx264" (stdout listing) = true ->
           appears_in primary_codec (options cmd) /\ ~ In "-q:v" (options cmd))
     /\ (forall listing,
           process_outcome w ProbeCodecs ["ffmpeg"; "-codecs"] = Ok listing ->
           contains "libx264" (stdout listing) = false ->
           appears_in generic_codec (options cmd)
           /\ ~ In "-c:v" (options cmd) /\ ~ In "libx264" (options cmd))
     /\ ((appears_in primary_codec (options cmd)
          /\ ~ appears_in generic_codec (options cmd))
         \/ (appears_in generic_codec (options cmd)
             /\ ~ appears_in primary_codec (options cmd))).
Proof.
  intros Hext. split; [apply get_ffmpeg_command_returns |].
  intros cmd Hcmd.
  destruct (get_ffmpeg_version_runs w s) as [tier Hv].
  rewrite (get_ffmpeg_command_closed_form _ _ _ _ _ _ _ tier) in Hcmd
    by (rewrite Hv; reflexivity).
  injection Hcmd as Hcmd. cbv zeta in Hcmd.
  assert (Hshape : exists closing,
            (closing = [] \/ closing = ["-preset"; "medium"]
             \/ closing = ["-preset"; "medium"; "-movflags"; "+faststart"])
            /\ options cmd
               = ["-pix_fmt"; "yuv420p"; "-vf"; scale_filter width height]
                 ++ match process_outcome w ProbeCodecs ["ffmpeg"; "-codecs"] with
                    | Raise _ => primary_codec
                    | Ok listing =>
                        if contains "libx264" (stdout listing)
                        then primary_codec else generic_codec
                    end ++ closing).
  { subst cmd. destruct Hext as [Hext | Hext]; rewrite Hext; simpl;
      destruct (version_at_least_5 tier); eexists; (split; [| choose_codec w; reflexivity]);
      auto. }
  clear Hcmd. destruct Hshape as (closing & Hclosing & Hopts).
  assert (Hprimary : forall opts,
            opts = ["-pix_fmt"; "yuv420p"; "-vf"; scale_filter width height]
                   ++ primary_codec ++ closing ->
            appears_in primary_codec opts /\ ~ In "-q:v" opts).
  { intros opts ->. split.
    - exists ["-pix_fmt"; "yuv420p"; "-vf"; scale_filter width height], closing.
      reflexivity.
    - destruct Hclosing as [-> | [-> | ->]]; not_an_option. }
  assert (Hgeneric : forall opts,
            opts = ["-pix_fmt"; "yuv420p"; "-vf"; scale_filter width height]
                   ++ generic_codec ++ closing ->
            appears_in generic_codec opts
            /\ ~ In "-c:v" opts /\ ~ In "libx264" opts).
  { intros opts ->. split.
    - exists ["-pix_fmt"; "yuv420p"; "-vf"; scale_filter width height], closing.
      reflexivity.
    - destruct Hclosing as [-> | [-> | ->]]; split; not_an_option. }
  split; [| split; [| split]].
  - intros [e He]. rewrite He in Hopts. apply Hprimary. exact Hopts.
  - intros listing Hl Hin. rewrite Hl, Hin in Hopts. apply Hprimary. exact Hopts.
  - intros listing Hl Hin. rewrite Hl, Hin in Hopts. apply Hgeneric. exact Hopts.
  - destruct (process_outcome w ProbeCodecs ["ffmpeg"; "-codecs"]) as [listing | e];
      [destruct (contains "libx264" (stdout listing)) |].
    + left. destruct (Hprimary _ Hopts) as [Hp Hq]. split; [exact Hp |].
      intros Hg. apply Hq. apply (appears_in_In _ _ _ Hg). left. reflexivity.
    + right. destruct (Hgeneric _ Hopts) as (Hg & Hc & _). split; [exact Hg |].
      intros Hp. apply Hc. apply (appears_in_In _ _ _ Hp). left. reflexivity.
    + left. destruct (Hprimary _ Hopts) as [Hp Hq]. split; [exact Hp |].
      intros Hg. apply Hq. apply (appears_in_In _ _ _ Hg). left. reflexivity.
Qed.

Lemma codec_path_of_listing_witness :
  appears_in generic_codec
    (options ["ffmpeg"; "-y"; "-framerate"; "30.0"; "-i"; "t/frame_%06d.png";
              "-pix_fmt"; "yuv420p"; "-vf"; "scale=640:480"; "-q:v"; "3";
              "-preset"; "medium"; "out.avi"]).
Proof.
  destruct (@codec_path_of_listing whole_rates
              (studio 100 30 0 banner5 codecs_plain 0)
              "t/frame_%06d.png" "out.avi" 30 640 480 initial_state
              (or_intror eq_refl)) as [_ Hall].
  destruct (Hall _ eq_refl) as (_ & _ & Hgeneric & _).
  destruct (Hgeneric (Completed 0 codecs_plain "") eq_refl eq_refl) as (Hg & _).
  exact Hg.
Defined.

(** ** Invariants of a run *)

Section Invariants.

Context `{Platform}.
Variable I : state -> Prop.
Variable allowed : event -> Prop.
Hypothesis I_record : forall e s, allowed e -> I s -> I (record e s).
Hypothesis I_imwrite :
  forall w path f s,
    allowed (Imwrite path f (imwrite w path f)) ->
    I s -> I (snd (cv2_imwrite w path f s)).
Hypothesis allowed_plain : forall e, plain e -> allowed e.

Lemma keeps_ret {A} (a : A) : keeps I (ret a).
Proof. intros s Hs. exact Hs. Qed.

Lemma keeps_raise {A} (e : exn) : keeps I (@raise _ A e).
Proof. intros s Hs. exact Hs. Qed.

Lemma keeps_return {A} : keeps I (@return_ _ A).
Proof. intros s Hs. exact Hs. Qed.

Lemma keeps_lift {A} (r : result A) : keeps I (lift r).
Proof. destruct r; intros s Hs; exact Hs. Qed.

Lemma keeps_bind {A B} (m : M A) (k : A -> M B) :
  keeps I m -> (forall a, produces m a -> keeps I (k a)) -> keeps I (bind m k).
Proof.
  intros Hm Hk s Hs. unfold bind.
  pose proof (Hm s Hs) as Hs1.
  destruct (m s) as [[a | | e] s1] eqn:Hrun; simpl in *; try exact Hs1.
  apply Hk; [| exact Hs1]. exists s. rewrite Hrun. reflexivity.
Qed.

Lemma keeps_try {A} (body : M A) (handler : exn -> option (M A)) :
  keeps I body ->
  (forall e h, handler e = Some h -> keeps I h) ->
  keeps I (try_except body handler).
Proof.
  intros Hbody Hhandler s Hs. unfold try_except.
  pose proof (Hbody s Hs) as Hs1.
  destruct (body s) as [[a | | e] s1]; simpl in *; try exact Hs1.
  destruct (handler e) as [h |] eqn:Hh; [| exact Hs1].
  apply (Hhandler e h Hh). exact Hs1.
Qed.

Lemma keeps_emit (e : event) : allowed e -> keeps I (emit e).
Proof. intros He s Hs. apply I_record; assumption. Qed.

Lemma keeps_print (m : message) : allowed (Print m) -> keeps I (print m).
Proof. apply keeps_emit. Qed.

Lemma keeps_subprocess_run (w : World) (site : call_site) (argv : list string) :
  allowed (Run argv) -> keeps I (subprocess_run w site argv).
Proof.
  intros Hrun. unfold subprocess_run.
  apply keeps_bind; [apply keeps_emit; exact Hrun | intros _ _; apply keeps_lift].
Qed.

Lemma keeps_imwrite (w : World) (path : string) (f : frame) :
  keeps I (cv2_imwrite w path f).
Proof.
  intros s Hs. apply I_imwrite; [| exact Hs]. apply allowed_plain. exact Logic.I.
Qed.

(** One step of a proof that a block keeps the invariant. *)
Ltac keeps_step :=
  first
    [ apply keeps_ret | apply keeps_raise | apply keeps_return | apply keeps_lift
    | apply keeps_imwrite
    | apply keeps_print; apply allowed_plain; exact Logic.I
    | apply keeps_emit; apply allowed_plain; exact Logic.I
    | apply keeps_subprocess_run; apply allowed_plain; simpl; auto
    | apply keeps_bind; [| intros ? ?]
    | match goal with |- keeps _ (if ?b then _ else _) => destruct b end ].

Lemma keeps_get_ffmpeg_version (w : World) : keeps I (get_ffmpeg_version w).
Proof.
  unfold get_ffmpeg_version. apply keeps_try.
  - repeat keeps_step. destruct (search_version _); repeat keeps_step.
  - intros e h [= <-]. keeps_step.
Qed.

Lemma keeps_codec_arguments (w : World) : keeps I (codec_arguments w).
Proof.
  unfold codec_arguments. apply keeps_try.
  - repeat keeps_step.
  - intros e h [= <-]. keeps_step.
Qed.

Lemma keeps_get_ffmpeg_command (w : World) (input_pattern output_path : string)
    (fps : rate) (width height : Z) :
  keeps I (get_ffmpeg_command w input_pattern output_path fps width height).
Proof.
  unfold get_ffmpeg_command.
  apply keeps_bind; [apply keeps_get_ffmpeg_version | intros tier _].
  repeat first [ apply keeps_codec_arguments | keeps_step ].
Qed.

Lemma keeps_render_frames (w : World) (frames : list (option frame))
    (temp_dir : string) (action_list : list string) (actual_fps : rate)
    (frames_per_action total_frames frame_count : Z) :
  keeps I (render_frames w frames temp_dir action_list actual_fps
             frames_per_action total_frames frame_count).
Proof.
  revert frame_count.
  induction frames as [| [frame |] frames IH]; intros frame_count; simpl;
    try apply keeps_ret.
  repeat first [ apply IH | keeps_step ].
Qed.

Lemma keeps_fallback_frames (w : World) (frames : list (option frame))
    (action_list : list string) (actual_fps : rate)
    (frames_per_action total_frames frame_count : Z) :
  keeps I (fallback_frames w frames action_list actual_fps
             frames_per_action total_frames frame_count).
Proof.
  revert frame_count.
  induction frames as [| [frame |] frames IH]; intros frame_count; simpl;
    try apply keeps_ret.
  unfold out_write. repeat first [ apply IH | keeps_step ].
Qed.

Lemma keeps_fallback_opencv (w : World)
    (input_video_path output_video_path : string) (action_list : list string)
    (actual_fps : rate) (width height frames_per_action total_frames : Z) :
  allowed (WriterOpen output_video_path "mp4v" actual_fps (width, height)) ->
  keeps I (fallback_opencv w input_video_path output_video_path action_list
             actual_fps width height frames_per_action total_frames).
Proof.
  intros Hopen. unfold fallback_opencv.
  repeat first [ apply keeps_fallback_frames
               | apply keeps_emit; exact Hopen
               | keeps_step ].
Qed.

Lemma keeps_encode_with_ffmpeg (w : World) (temp_dir output_video_path : string)
    (actual_fps : rate) (width height : Z) :
  (forall cmd,
     produces (get_ffmpeg_command w (path_join temp_dir "frame_%06d.png")
                 output_video_path actual_fps width height) cmd ->
     allowed (Print (MsgRunning cmd)) /\ allowed (Run cmd)) ->
  keeps I (encode_with_ffmpeg w temp_dir output_video_path actual_fps width height).
Proof.
  intros Hcmd. unfold encode_with_ffmpeg.
  apply keeps_bind; [keeps_step | intros available _].
  apply keeps_bind; [keeps_step; keeps_step | intros _ _].
  apply keeps_bind; [apply keeps_get_ffmpeg_command | intros cmd Hproduced].
  destruct (Hcmd cmd Hproduced) as [Hprint Hrun].
  apply keeps_bind; [apply keeps_print; exact Hprint | intros _ _].
  apply keeps_bind; [apply keeps_subprocess_run; exact Hrun | intros result _].
  repeat keeps_step.
Qed.

Lemma keeps_encode_or_fall_back (w : World)
    (temp_dir input_video_path output_video_path : string)
    (action_list : list string) (actual_fps : rate)
    (width height frames_per_action total_frames : Z) :
  allowed (WriterOpen output_video_path "mp4v" actual_fps (width, height)) ->
  (forall cmd,
     produces (get_ffmpeg_command w (path_join temp_dir "frame_%06d.png")
                 output_video_path actual_fps width height) cmd ->
     allowed (Print (MsgRunning cmd)) /\ allowed (Run cmd)) ->
  keeps I (encode_or_fall_back w temp_dir input_video_path output_video_path
             action_list actual_fps width height frames_per_action total_frames).
Proof.
  intros Hopen Hcmd. unfold encode_or_fall_back. apply keeps_try.
  - apply keeps_encode_with_ffmpeg. exact Hcmd.
  - intros e h Hh.
    assert (Hfall : keeps I
              (print MsgNotAvailable ;;
               try_except
                 (fallback_opencv w input_video_path output_video_path
                    action_list actual_fps width height
                    frames_per_action total_frames)
                 (fun e => Some (print (MsgFallbackFailed e) ;; return_)))).
    { apply keeps_bind; [keeps_step | intros _ _].
      apply keeps_try; [apply keeps_fallback_opencv; exact Hopen |].
      intros e' h' [= <-]. repeat keeps_step. }
    destruct e; injection Hh as <-; try exact Hfall; repeat keeps_step.
Qed.

Lemma keeps_in_temp_dir (w : World)
    (input_video_path output_video_path : string) (action_list : list string)
    (actual_fps : rate) (width height frames_per_action total_frames : Z)
    (temp_dir : string) :
  allowed (WriterOpen output_video_path "mp4v" actual_fps (width, height)) ->
  (forall cmd,
     produces (get_ffmpeg_command w (path_join temp_dir "frame_%06d.png")
                 output_video_path actual_fps width height) cmd ->
     allowed (Print (MsgRunning cmd)) /\ allowed (Run cmd)) ->
  keeps I (in_temp_dir w input_video_path output_video_path action_list
             actual_fps width height frames_per_action total_frames temp_dir).
Proof.
  intros Hopen Hcmd. unfold in_temp_dir.
  repeat first [ apply keeps_render_frames
               | apply keeps_encode_or_fall_back; assumption
               | keeps_step ].
Qed.

Lemma keeps_report_properties (action_list : list string)
    (frames_per_action : option Z) (actual_fps : rate)
    (width height total_frames : Z) :
  keeps I (report_properties action_list frames_per_action actual_fps
             width height total_frames).
Proof.
  unfold report_properties.
  apply keeps_bind; [destruct frames_per_action; repeat keeps_step | intros q _].
  repeat keeps_step.
Qed.

End Invariants.

(** ** The temporary directory (lines 288-396) *)

Lemma report_properties_returns `{Platform} (action_list : list string)
    (frames_per_action : option Z) (actual_fps : rate)
    (width height total_frames : Z) (s : state) :
  frames_per_action <> None \/ action_list <> [] ->
  rate_is_zero actual_fps = false ->
  exists q s',
    report_properties action_list frames_per_action actual_fps
      width height total_frames s = (Normal q, s')
    /\ q = match frames_per_action with
           | Some given => given
           | None => total_frames / len action_list
           end.
Proof.
  intros Hschedule Hrate. unfold report_properties.
  destruct frames_per_action as [given |].
  - unfold bind, ret, print, emit. simpl. rewrite Hrate. simpl. eauto.
  - destruct Hschedule as [Hs | Hs]; [congruence |].
    apply len_pos in Hs.
    unfold bind, lift, floordiv, ret, print, emit.
    destruct (len action_list =? 0) eqn:Hz; [apply Z.eqb_eq in Hz; lia |].
    simpl. rewrite Hrate. simpl. eauto.
Qed.

(** Inside the [with] statement nothing makes or removes a directory. *)
Lemma in_temp_dir_counts `{Platform} (w : World)
    (input_video_path output_video_path : string) (action_list : list string)
    (actual_fps : rate) (width height frames_per_action total_frames : Z)
    (temp_dir : string) (c r : nat) :
  keeps (fun s => created s = c /\ removed s = r)
    (in_temp_dir w input_video_path output_video_path action_list
       actual_fps width height frames_per_action total_frames temp_dir).
Proof.
  apply (keeps_in_temp_dir _ (fun _ => True)); auto.
Qed.

(** Before the [with] statement there is no directory at all. *)
Lemma report_properties_no_dir `{Platform} (action_list : list string)
    (frames_per_action : option Z) (actual_fps : rate)
    (width height total_frames : Z) :
  keeps (fun s => tempdir s = None /\ created s = 0%nat /\ removed s = 0%nat)
    (report_properties action_list frames_per_action actual_fps
       width height total_frames).
Proof.
  apply (keeps_report_properties _ (fun _ => True)); auto.
Qed.

(** C3.  After every run of [process_video], however it ends (it falls
    through, it returns early, or an exception leaves it), there is no
    temporary directory: one is made at most once, every one made has
    been removed, and a run that reaches the frame loop makes one and
    removes it exactly once. *)
Theorem temporary_directory_is_released `{Platform} (w : World)
    (input_video_path output_video_path : string) (action_list : list string)
    (fps : rate) (frames_per_action : option Z) :
  let s' := snd (process_video w input_video_path output_video_path
                   action_list fps frames_per_action initial_state) in
  tempdir s' = None
  /\ removed s' = created s'
  /\ (created s' <= 1)%nat
  /\ (cap_isOpened w = true ->
      frames_per_action <> None \/ action_list <> [] ->
      rate_is_zero (cap_fps w) = false ->
      created s' = 1%nat /\ removed s' = 1%nat).
Proof.
  intros s'.
  assert (Hs' : s' = snd (process_video w input_video_path output_video_path
                            action_list fps frames_per_action initial_state))
    by reflexivity.
  clearbody s'. unfold process_video, bind, emit in Hs'.
  destruct (cap_isOpened w) eqn:Hopen; simpl in Hs'.
  - pose proof (report_properties_no_dir action_list frames_per_action
                  (cap_fps w) (cap_width w) (cap_height w) (cap_frame_count w)
                  (record (CaptureOpen input_video_path) initial_state)
                  (conj eq_refl (conj eq_refl eq_refl))) as Hbefore.
    destruct (report_properties _ _ _ _ _ _ _) as [[q | | e] s2] eqn:Hreport;
      simpl in Hbefore; destruct Hbefore as (Hdir & Hc & Hr).
    + unfold with_TemporaryDirectory in Hs'.
      pose proof (in_temp_dir_counts w input_video_path output_video_path
                    action_list (cap_fps w) (cap_width w) (cap_height w) q
                    (cap_frame_count w) (mkdtemp w) 1 0) as Hinside.
      match type of Hs' with
      | context [in_temp_dir _ _ _ _ _ _ _ _ _ _ ?s1] =>
          specialize (Hinside s1)
      end.
      destruct (in_temp_dir _ _ _ _ _ _ _ _ _ _ _) as [r3 s3].
      simpl in Hinside. destruct Hinside as [Hc3 Hr3].
      { rewrite Hc, Hr. auto. }
      subst s'. simpl. rewrite Hc3, Hr3.
      split; [reflexivity | split; [reflexivity | split; [lia | auto]]].
    + subst s'. simpl. rewrite Hdir, Hc, Hr.
      split; [reflexivity | split; [reflexivity | split; [lia |]]].
      intros _ Hschedule Hrate.
      destruct (report_properties_returns action_list frames_per_action
                  (cap_fps w) (cap_width w) (cap_height w) (cap_frame_count w)
                  (record (CaptureOpen input_video_path) initial_state)
                  Hschedule Hrate) as (q & s' & Hret & _).
      rewrite Hret in Hreport. discriminate.
    + subst s'. simpl. rewrite Hdir, Hc, Hr.
      split; [reflexivity | split; [reflexivity | split; [lia |]]].
      intros _ Hschedule Hrate.
      destruct (report_properties_returns action_list frames_per_action
                  (cap_fps w) (cap_width w) (cap_height w) (cap_frame_count w)
                  (record (CaptureOpen input_video_path) initial_state)
                  Hschedule Hrate) as (q & s' & Hret & _).
      rewrite Hret in Hreport. discriminate.
  - subst s'. simpl.
    split; [reflexivity | split; [reflexivity | split; [lia |]]].
    intros Habs. discriminate.
Qed.

Lemma temporary_directory_is_released_witness :
  created (snd (@process_video whole_rates
                  (studio 0 30 100 banner5 codecs_x264 1)
                  "in.mp4" "out.mp4" wasd 24 None initial_state)) = 1%nat
  /\ removed (snd (@process_video whole_rates
                     (studio 0 30 100 banner5 codecs_x264 1)
                     "in.mp4" "out.mp4" wasd 24 None initial_state)) = 1%nat.
Proof.
  assert (Hne : wasd <> []) by discriminate.
  destruct (@temporary_directory_is_released whole_rates
              (studio 0 30 100 banner5 codecs_x264 1)
              "in.mp4" "out.mp4" wasd 24 None) as (_ & _ & _ & Honce).
  exact (Honce eq_refl (or_intror Hne) eq_refl).
Defined.

(** ** The frame rate (lines 272, 322-328 and 356) *)

Lemma get_ffmpeg_command_framerate `{Platform} (w : World)
    (input_pattern output_path : string) (fps : rate) (width height : Z)
    (cmd : list string) :
  produces (get_ffmpeg_command w input_pattern output_path fps width height) cmd ->
  firstn 4 cmd = ["ffmpeg"; "-y"; "-framerate"; str_rate fps].
Proof.
  intros [s Hcmd].
  destruct (get_ffmpeg_version_runs w s) as [tier Hv].
  rewrite (get_ffmpeg_command_closed_form _ _ _ _ _ _ _ tier) in Hcmd
    by (rewrite Hv; reflexivity).
  injection Hcmd as <-. cbv zeta.
  destruct (String.eqb (output_ext output_path) ".mp4");
    [| destruct (String.eqb (output_ext output_path) ".webm");
       [| destruct (String.eqb (output_ext output_path) ".avi")]];
    reflexivity.
Qed.

Lemma plain_shows_measured_rate `{Platform} (w : World) (e : event) :
  plain e -> shows_measured_rate w e.
Proof.
  destruct e as [m | argv | | | | | | | |]; simpl; try tauto.
  destruct m; simpl; tauto.
Qed.

Lemma keeps_with_TemporaryDirectory `{Platform} {A} (P : event -> Prop)
    (w : World) (body : string -> M A) :
  P (MakeTempDir (mkdtemp w)) -> P (RemoveTempDir (mkdtemp w)) ->
  keeps (fun s => Forall P (trace s)) (body (mkdtemp w)) ->
  keeps (fun s => Forall P (trace s)) (with_TemporaryDirectory w body).
Proof.
  intros Hmake Hremove Hbody s Hs. unfold with_TemporaryDirectory.
  match goal with
  | |- context [body _ ?s1] => specialize (Hbody s1)
  end.
  destruct (body _ _) as [r s2]. simpl in *.
  apply Forall_app. split; [| repeat constructor; exact Hremove].
  apply Hbody. apply Forall_app. split; [exact Hs | repeat constructor; exact Hmake].
Qed.

Lemma process_video_shows_measured_rate `{Platform} (w : World)
    (input_video_path output_video_path : string) (action_list : list string)
    (fps : rate) (frames_per_action : option Z) :
  keeps (fun s => Forall (shows_measured_rate w) (trace s))
    (process_video w input_video_path output_video_path action_list
       fps frames_per_action).
Proof.
  assert (Hrecord : forall e s,
            shows_measured_rate w e ->
            Forall (shows_measured_rate w) (trace s) ->
            Forall (shows_measured_rate w) (trace (record e s))).
  { intros e s He Hs. simpl. apply Forall_app. split; [exact Hs |].
    repeat constructor. exact He. }
  assert (Himwrite : forall (w' : World) path f s,
            shows_measured_rate w (Imwrite path f (imwrite w' path f)) ->
            Forall (shows_measured_rate w) (trace s) ->
            Forall (shows_measured_rate w) (trace (snd (cv2_imwrite w' path f s)))).
  { intros w' path f s _ Hs. simpl. apply Forall_app. split; [exact Hs |].
    repeat constructor. }
  unfold process_video.
  apply keeps_bind.
  { apply (keeps_emit _ (shows_measured_rate w) Hrecord). exact Logic.I. }
  intros _ _. destruct (negb (cap_isOpened w)).
  - apply keeps_bind.
    + apply (keeps_emit _ (shows_measured_rate w) Hrecord). exact Logic.I.
    + intros _ _. apply keeps_return.
  - apply keeps_bind.
    + apply (keeps_report_properties _ (shows_measured_rate w) Hrecord).
      apply plain_shows_measured_rate.
    + intros q _. apply keeps_with_TemporaryDirectory; try exact Logic.I.
      apply (keeps_in_temp_dir _ (shows_measured_rate w) Hrecord Himwrite).
      * apply plain_shows_measured_rate.
      * reflexivity.
      * intros cmd Hcmd. apply get_ffmpeg_command_framerate in Hcmd.
        simpl. unfold with_measured_rate. auto.
Qed.

(** C7, as stated, fails: with no encoder on the path, a source that
    reports 30 frames per second and a hint of 24, the fallback writer is
    opened with 30. *)
Lemma fallback_writer_ignores_hint :
  In (@WriterOpen whole_rates "out.mp4" "mp4v" 30 (640, 480))
     (trace (snd (@process_video whole_rates
                    (surroundings 100 30 (pictures 2) (fun _ _ => true) no_encoder)
                    "in.mp4" "out.mp4" wasd 24 None initial_state)))
  /\ (30 : @rate whole_rates) <> 24.
Proof.
  split; [| discriminate].
  vm_compute. repeat (first [left; reflexivity | right]).
Qed.

(** C7, amended.  The frame rate hint is used by neither encoder path: a
    run does not depend on it, and both the command for the external
    encoder and the fallback writer get the frame rate the source
    reports. *)
Theorem frame_rate_is_the_measured_one `{Platform} (w : World)
    (input_video_path output_video_path : string) (action_list : list string)
    (fps : rate) (frames_per_action : option Z) :
  (forall other_fps,
     process_video w input_video_path output_video_path action_list
       fps frames_per_action
     = process_video w input_video_path output_video_path action_list
         other_fps frames_per_action)
  /\ let s' := snd (process_video w input_video_path output_video_path
                      action_list fps frames_per_action initial_state) in
     (forall path fourcc r size,
        In (WriterOpen path fourcc r size) (trace s') -> r = cap_fps w)
     /\ (forall cmd,
           In (Print (MsgRunning cmd)) (trace s') ->
           firstn 4 cmd = ["ffmpeg"; "-y"; "-framerate"; str_rate (cap_fps w)])
     /\ (forall argv,
           In (Run argv) (trace s') ->
           argv = ["ffmpeg"; "-version"] \/ argv = ["ffmpeg"; "-codecs"]
           \/ firstn 4 argv = ["ffmpeg"; "-y"; "-framerate"; str_rate (cap_fps w)]).
Proof.
  split; [reflexivity |].
  intros s'.
  assert (Hall : Forall (shows_measured_rate w) (trace s')).
  { apply (process_video_shows_measured_rate w input_video_path output_video_path
             action_list fps frames_per_action initial_state).
    constructor. }
  rewrite Forall_forall in Hall.
  split; [| split].
  - intros path fourcc r size Hin. exact (Hall _ Hin).
  - intros cmd Hin. exact (Hall _ Hin).
  - intros argv Hin. exact (Hall _ Hin).
Qed.

Lemma frame_rate_is_the_measured_one_witness :
  (30 : @rate whole_rates)
  = cap_fps (surroundings 100 30 (pictures 2) (fun _ _ => true) no_encoder).
Proof.
  destruct (@frame_rate_is_the_measured_one whole_rates
              (surroundings 100 30 (pictures 2) (fun _ _ => true) no_encoder)
              "in.mp4" "out.mp4" wasd 24 None) as (_ & Hwriter & _).
  apply (Hwriter "out.mp4" "mp4v" 30 (640, 480)).
  vm_compute. repeat (first [left; reflexivity | right]).
Defined.

(** ** The frame loop (lines 291-309) *)

Lemma render_frames_stops_at_failed_read `{Platform} (w : World)
    (before after : list (option frame)) (temp_dir : string)
    (action_list : list string) (actual_fps : rate)
    (frames_per_action total_frames frame_count : Z) (s : state) :
  render_frames w (before ++ None :: after) temp_dir action_list actual_fps
    frames_per_action total_frames frame_count s
  = render_frames w before temp_dir action_list actual_fps
      frames_per_action total_frames frame_count s.
Proof.
  revert frame_count s.
  induction before as [| [frame |] before IH]; intros frame_count s;
    try reflexivity.
  simpl. unfold bind.
  destruct (lift _ s) as [[shown | | e] s1]; try reflexivity.
  destruct (cv2_imwrite _ _ _ s1) as [[ok | | e] s2]; try reflexivity.
  destruct ((frame_count + 1) mod 100 =? 0).
  - destruct (lift (truediv (frame_count + 1) total_frames) s2)
      as [[progress | | e] s3]; try reflexivity.
    simpl. apply IH.
  - simpl. apply IH.
Qed.

Lemma failed_save_is_ignored `{Platform} (w : World) (f shown : frame)
    (frames : list (option frame)) (temp_dir : string)
    (action_list : list string) (actual_fps : rate)
    (frames_per_action total_frames frame_count : Z) (s : state) :
  let frame_path :=
    path_join temp_dir ("frame_" ++ format_06d frame_count ++ ".png")%string in
  create_icon_overlay f action_list frame_count actual_fps
    (Some frames_per_action) (Some total_frames) = Ok shown ->
  imwrite w frame_path shown = false ->
  (frame_count + 1) mod 100 <> 0 ->
  render_frames w (Some f :: frames) temp_dir action_list actual_fps
    frames_per_action total_frames frame_count s
  = render_frames w frames temp_dir action_list actual_fps
      frames_per_action total_frames (frame_count + 1)
      (record (Imwrite frame_path shown false) s).
Proof.
  intros frame_path Hshown Hsave Hquiet. subst frame_path.
  cbn [render_frames]. rewrite Hshown.
  unfold bind, lift, ret, cv2_imwrite. rewrite Hsave.
  apply Z.eqb_neq in Hquiet. rewrite Hquiet.
  match goal with
  | |- render_frames _ _ _ _ _ _ _ _ ?s1 = render_frames _ _ _ _ _ _ _ _ ?s2 =>
      replace s1 with s2; [reflexivity |]
  end.
  unfold record. destruct (tempdir s); reflexivity.
Qed.

Lemma printed_app `{Platform} (t1 t2 : list event) :
  printed (t1 ++ t2) = printed t1 ++ printed t2.
Proof.
  induction t1 as [| e t1 IH]; [reflexivity |].
  destruct e; simpl; rewrite IH; reflexivity.
Qed.

Lemma saved_pictures_app `{Platform} (t1 t2 : list event) :
  saved_pictures (t1 ++ t2) = saved_pictures t1 ++ saved_pictures t2.
Proof.
  induction t1 as [| e t1 IH]; [reflexivity |].
  destruct e; simpl; rewrite IH; reflexivity.
Qed.

(** C8, as stated, fails: of three frames whose second cannot be read,
    only the first is rendered and saved; the loop ends at the failed
    read, the third frame is never asked for, and no line about the
    failure is printed. *)
Lemma failed_read_ends_the_loop :
  cap_frames stutter = [Some (blank 0); None; Some (blank 2)]
  /\ saved_pictures
       (trace (snd (@process_video whole_rates stutter "in.mp4" "out.mp4"
                      ["w"] 24 None initial_state)))
     = [0%nat]
  /\ printed
       (trace (snd (@process_video whole_rates stutter "in.mp4" "out.mp4"
                      ["w"] 24 None initial_state)))
     = [MsgCalculated 3; MsgVideoProperties; MsgResolution 640 480;
        MsgTotalFrames 3; @MsgFps whole_rates 30;
        @MsgDuration whole_rates 3 30;
        MsgActions ["w"]; MsgFramesPerAction 3; MsgProcessing;
        MsgFramesProcessed;
        MsgRunning
          ["ffmpeg"; "-y"; "-framerate"; "30.0"; "-i";
           "/tmp/tmpab12/frame_%06d.png"; "-pix_fmt"; "yuv420p"; "-vf";
           "scale=640:480"; "-c:v"; "libx264"; "-crf"; "23"; "-preset";
           "medium"; "-movflags"; "+faststart"; "out.mp4"];
        MsgEncodingComplete; MsgOutputSaved "out.mp4"].
Proof. repeat split; vm_compute; reflexivity. Qed.

(** C8, amended.  In the frame loop a read that fails ends the loop: the
    frames after it are not processed, and the run goes on to the
    encoding with the frames before it.  A frame whose file cannot be
    written (the save reports failure) is passed over: the loop goes on
    with the next frame and the next index, and nothing is printed about
    it. *)
Theorem frame_failures_in_the_loop `{Platform} (w : World)
    (before after frames : list (option frame)) (f shown : frame)
    (temp_dir : string) (action_list : list string) (actual_fps : rate)
    (frames_per_action total_frames frame_count : Z) (s : state) :
  let frame_path :=
    path_join temp_dir ("frame_" ++ format_06d frame_count ++ ".png")%string in
  render_frames w (before ++ None :: after) temp_dir action_list actual_fps
    frames_per_action total_frames frame_count s
  = render_frames w before temp_dir action_list actual_fps
      frames_per_action total_frames frame_count s
  /\ render_frames w (None :: after) temp_dir action_list actual_fps
       frames_per_action total_frames frame_count s
     = (Normal tt, s)
  /\ (create_icon_overlay f action_list frame_count actual_fps
        (Some frames_per_action) (Some total_frames) = Ok shown ->
      imwrite w frame_path shown = false ->
      (frame_count + 1) mod 100 <> 0 ->
      render_frames w (Some f :: frames) temp_dir action_list actual_fps
        frames_per_action total_frames frame_count s
      = render_frames w frames temp_dir action_list actual_fps
          frames_per_action total_frames (frame_count + 1)
          (record (Imwrite frame_path shown false) s)
      /\ printed (trace (record (Imwrite frame_path shown false) s))
         = printed (trace s)).
Proof.
  intros frame_path. split; [apply render_frames_stops_at_failed_read |].
  split; [reflexivity |].
  intros Hshown Hsave Hquiet. split.
  - apply failed_save_is_ignored; assumption.
  - simpl. rewrite printed_app. simpl. apply app_nil_r.
Qed.

Lemma frame_failures_in_the_loop_witness :
  saved_pictures
    (trace (snd (@render_frames whole_rates full_disk
                   [Some (blank 1); Some (blank 2)] "/tmp/tmpab12"
                   wasd 30 1 3 1 initial_state)))
  = [1%nat; 2%nat]
  /\ printed
       (trace (snd (@render_frames whole_rates full_disk
                      [Some (blank 1); Some (blank 2)] "/tmp/tmpab12"
                      wasd 30 1 3 1 initial_state)))
     = [].
Proof.
  destruct (@frame_failures_in_the_loop whole_rates full_disk [] []
              [Some (blank 2)] (blank 1)
              (@draw_icons whole_rates (blank 1) (Some "a"))
              "/tmp/tmpab12" wasd 30 1 3 1 initial_state)
    as (_ & _ & Hsave).
  destruct (Hsave eq_refl eq_refl ltac:(discriminate)) as [Hnext _].
  rewrite Hnext. split; vm_compute; reflexivity.
Defined.

(** ** The progress report (lines 306-309) *)

(** What [report_properties] prints when nothing in it raises. *)
Lemma report_properties_prints `{Platform} (action_list : list string)
    (frames_per_action : option Z) (actual_fps : rate)
    (width height total_frames : Z) (s : state) :
  frames_per_action <> None \/ action_list <> [] ->
  rate_is_zero actual_fps = false ->
  let q := match frames_per_action with
           | Some given => given
           | None => total_frames / len action_list
           end in
  report_properties action_list frames_per_action actual_fps
    width height total_frames s
  = (Normal q,
     extend (match frames_per_action with
             | Some _ => []
             | None => [Print (MsgCalculated q)]
             end
             ++ [Print MsgVideoProperties; Print (MsgResolution width height);
                 Print (MsgTotalFrames total_frames); Print (MsgFps actual_fps);
                 Print (MsgDuration total_frames actual_fps);
                 Print (MsgActions action_list); Print (MsgFramesPerAction q)])
            s).
Proof.
  intros Hschedule Hrate q. subst q. unfold report_properties.
  destruct frames_per_action as [given |].
  - unfold bind, ret, print, emit. simpl. rewrite Hrate. simpl.
    f_equal. unfold record, extend. simpl. rewrite <- !app_assoc. reflexivity.
  - destruct Hschedule as [Hs | Hs]; [congruence |].
    apply len_pos in Hs.
    unfold bind, lift, floordiv, ret, print, emit.
    destruct (len action_list =? 0) eqn:Hz; [apply Z.eqb_eq in Hz; lia |].
    simpl. rewrite Hrate. simpl.
    f_equal. unfold record, extend. simpl. rewrite <- !app_assoc. reflexivity.
Qed.

Lemma process_video_opened `{Platform} (w : World)
    (input_video_path output_video_path : string) (action_list : list string)
    (fps : rate) (frames_per_action : option Z) (s s2 : state) (q : Z) :
  cap_isOpened w = true ->
  report_properties action_list frames_per_action (cap_fps w)
    (cap_width w) (cap_height w) (cap_frame_count w)
    (record (CaptureOpen input_video_path) s) = (Normal q, s2) ->
  process_video w input_video_path output_video_path action_list
    fps frames_per_action s
  = with_TemporaryDirectory w
      (in_temp_dir w input_video_path output_video_path action_list
         (cap_fps w) (cap_width w) (cap_height w) q (cap_frame_count w)) s2.
Proof.
  intros Hopen Hreport. unfold process_video, bind, emit.
  rewrite Hopen. simpl. rewrite Hreport. reflexivity.
Qed.


Lemma picture_draw_icons `{Platform} (f : frame) (current : option string) :
  picture (draw_icons f current) = picture f.
Proof.
  unfold draw_icons. destruct (shape f) as [height width].
  generalize (icon_positions height width). intros icons. revert f.
  induction icons as [| [key [x y]] icons IH]; intros f; [reflexivity |].
  simpl. rewrite IH. unfold draw_icon. destruct (is_active key current); reflexivity.
Qed.

Lemma create_icon_overlay_total `{Platform} (f : frame) (action_list : list string)
    (n : Z) (actual_fps : rate) (per_action : Z) (total_frames : option Z) :
  0 <= n -> 0 <= per_action ->
  exists shown,
    create_icon_overlay f action_list n actual_fps (Some per_action) total_frames
    = Ok shown
    /\ picture shown = picture f.
Proof.
  intros Hn Hp. unfold create_icon_overlay.
  destruct (current_action_total action_list n per_action total_frames Hn Hp)
    as [c Hc].
  rewrite Hc. simpl. eexists. split; [reflexivity | apply picture_draw_icons].
Qed.









(** ** The encoding attempt (lines 317-396) *)

Lemma codec_arguments_effect `{Platform} (w : World) (s : state) :
  exists codec probes,
    codec_arguments w s = (Normal codec, extend probes s)
    /\ incl probes [Run ["ffmpeg"; "-codecs"]; Print MsgNoLibx264].
Proof.
  unfold codec_arguments, try_except, subprocess_run, bind, emit, lift, print.
  destruct (process_outcome w ProbeCodecs _) as [listing | e]; simpl.
  - destruct (contains "libx264" (stdout listing)); unfold ret, emit; simpl.
    + exists (["-c:v"; "libx264"] ++ ["-crf"; "23"]), [Run ["ffmpeg"; "-codecs"]].
      split; [reflexivity |]. intros e [<- | []]. left. reflexivity.
    + exists ["-q:v"; "3"], [Run ["ffmpeg"; "-codecs"]; Print MsgNoLibx264].
      split; [| apply incl_refl].
      f_equal. unfold record, extend. simpl. rewrite <- app_assoc. reflexivity.
  - unfold ret.
    exists (["-c:v"; "libx264"] ++ ["-crf"; "23"]), [Run ["ffmpeg"; "-codecs"]].
    split; [reflexivity |]. intros e' [<- | []]. left. reflexivity.
Qed.

Lemma get_ffmpeg_command_effect `{Platform} (w : World)
    (input_pattern output_path : string) (fps : rate) (width height : Z)
    (s : state) :
  exists cmd probes,
    get_ffmpeg_command w input_pattern output_path fps width height s
    = (Normal cmd, extend probes s)
    /\ incl probes [Run ["ffmpeg"; "-version"]; Run ["ffmpeg"; "-codecs"];
                    Print MsgNoLibx264].
Proof.
  unfold get_ffmpeg_command.
  destruct (get_ffmpeg_version_runs w s) as [tier Hv].
  unfold bind at 1. rewrite Hv.
  destruct (codec_arguments_effect w (record (Run ["ffmpeg"; "-version"]) s))
    as (codec & probes & Hc & Hprobes).
  assert (Hwith_codec : forall finish : list string -> list string,
            exists cmd probes',
              (codec <- codec_arguments w ;; ret (finish codec))
                (record (Run ["ffmpeg"; "-version"]) s)
              = (Normal cmd, extend probes' s)
              /\ incl probes' [Run ["ffmpeg"; "-version"]; Run ["ffmpeg"; "-codecs"];
                               Print MsgNoLibx264]).
  { intros finish. exists (finish codec), (Run ["ffmpeg"; "-version"] :: probes).
    split.
    - unfold bind. rewrite Hc. unfold ret. f_equal.
      unfold record, extend. simpl. rewrite <- app_assoc. reflexivity.
    - intros e [<- | He]; [left; reflexivity | right; apply Hprobes; exact He]. }
  destruct (String.eqb (output_ext output_path) ".mp4");
    [| destruct (String.eqb (output_ext output_path) ".webm");
       [| destruct (String.eqb (output_ext output_path) ".avi")]].
  - apply (Hwith_codec (fun codec => _)).
  - eexists _, [Run ["ffmpeg"; "-version"]]. split; [reflexivity |].
    intros e [<- | []]. left. reflexivity.
  - apply (Hwith_codec (fun codec => _)).
  - apply (Hwith_codec (fun codec => _)).
Qed.

(** When the encoder can be invoked and ends with a non-zero status, the
    [try] statement returns from the clause for [Exception]; what it has
    done by then is all listed here. *)
Lemma failed_encoding_returns `{Platform} (w : World)
    (temp_dir input_video_path output_video_path : string)
    (action_list : list string) (actual_fps : rate)
    (width height frames_per_action total_frames : Z) (s : state) :
  (exists banner,
     process_outcome w CheckAvailable ["ffmpeg"; "-version"] = Ok banner
     /\ returncode banner = 0) ->
  (forall cmd, exists failure,
     process_outcome w Encode cmd = Ok failure /\ returncode failure <> 0) ->
  exists cmd failure probes,
    process_outcome w Encode cmd = Ok failure
    /\ returncode failure <> 0
    /\ incl probes [Run ["ffmpeg"; "-version"]; Run ["ffmpeg"; "-codecs"];
                    Print MsgNoLibx264]
    /\ encode_or_fall_back w temp_dir input_video_path output_video_path
         action_list actual_fps width height frames_per_action total_frames s
       = (Return,
          extend (Run ["ffmpeg"; "-version"] :: probes
                  ++ [Print (MsgRunning cmd); Run cmd;
                      Print (MsgFfmpegError (stderr failure));
                      Print MsgFallingBack;
                      Print (MsgErrorRunning (Exception "FFmpeg failed"))]) s).
Proof.
  intros (banner & Hbanner & Hzero) Hencode.
  destruct (get_ffmpeg_command_effect w (path_join temp_dir "frame_%06d.png")
              output_video_path actual_fps width height
              (record (Run ["ffmpeg"; "-version"]) s))
    as (cmd & probes & Hcmd & Hprobes).
  destruct (Hencode cmd) as (failure & Hfailure & Hstatus).
  exists cmd, failure, probes.
  split; [exact Hfailure | split; [exact Hstatus | split; [exact Hprobes |]]].
  unfold encode_or_fall_back, try_except, encode_with_ffmpeg.
  unfold bind at 1. unfold subprocess_run at 1. unfold bind at 1.
  unfold emit at 1. rewrite Hbanner. unfold lift at 1. unfold ret at 1.
  unfold bind at 1. rewrite Hzero. simpl (0 =? 0). cbv iota. unfold ret at 1.
  unfold bind at 1. rewrite Hcmd.
  unfold print, subprocess_run. rewrite Hfailure.
  unfold bind, emit, lift, ret, raise, return_. cbv beta iota.
  apply Z.eqb_neq in Hstatus. rewrite Hstatus.
  f_equal. unfold record, extend. simpl. rewrite <- !app_assoc. reflexivity.
Qed.


Lemma process_video_opens_no_writer `{Platform} (w : World)
    (input_video_path output_video_path : string) (action_list : list string)
    (fps : rate) (frames_per_action : option Z) :
  (exists banner,
     process_outcome w CheckAvailable ["ffmpeg"; "-version"] = Ok banner
     /\ returncode banner = 0) ->
  (forall cmd, exists failure,
     process_outcome w Encode cmd = Ok failure /\ returncode failure <> 0) ->
  keeps (fun s => Forall opens_no_writer (trace s))
    (process_video w input_video_path output_video_path action_list
       fps frames_per_action).
Proof.
  intros Havailable Hencode.
  assert (Hrecord : forall e s,
            opens_no_writer e ->
            Forall opens_no_writer (trace s) ->
            Forall opens_no_writer (trace (record e s))).
  { intros e s He Hs. simpl. apply Forall_app. split; [exact Hs |].
    repeat constructor. exact He. }
  assert (Himwrite : forall (w' : World) path f s,
            opens_no_writer (Imwrite path f (imwrite w' path f)) ->
            Forall opens_no_writer (trace s) ->
            Forall opens_no_writer (trace (snd (cv2_imwrite w' path f s)))).
  { intros w' path f s _ Hs. simpl. apply Forall_app. split; [exact Hs |].
    repeat constructor. }
  assert (Hplain : forall e, plain e -> opens_no_writer e).
  { intros [] Hp; simpl in *; tauto. }
  unfold process_video.
  apply keeps_bind.
  { apply (keeps_emit _ opens_no_writer Hrecord). exact Logic.I. }
  intros _ _. destruct (negb (cap_isOpened w)).
  - apply keeps_bind.
    + apply (keeps_emit _ opens_no_writer Hrecord). exact Logic.I.
    + intros _ _. apply keeps_return.
  - apply keeps_bind.
    + apply (keeps_report_properties _ opens_no_writer Hrecord Hplain).
    + intros q _. apply keeps_with_TemporaryDirectory; try exact Logic.I.
      unfold in_temp_dir.
      apply keeps_bind;
        [apply (keeps_emit _ opens_no_writer Hrecord); exact Logic.I | intros _ _].
      apply keeps_bind;
        [apply (keeps_render_frames _ opens_no_writer Hrecord Himwrite Hplain)
        | intros _ _].
      apply keeps_bind;
        [apply (keeps_emit _ opens_no_writer Hrecord); exact Logic.I | intros _ _].
      apply keeps_bind;
        [apply (keeps_emit _ opens_no_writer Hrecord); exact Logic.I | intros _ _].
      intros s Hs.
      destruct (failed_encoding_returns w (mkdtemp w) input_video_path
                  output_video_path action_list (cap_fps w) (cap_width w)
                  (cap_height w) q (cap_frame_count w) s Havailable Hencode)
        as (cmd & failure & probes & _ & _ & Hprobes & Hrun).
      rewrite Hrun. simpl. apply Forall_app. split; [exact Hs |].
      constructor; [exact Logic.I |]. apply Forall_app. split.
      * apply Forall_forall. intros e He. apply Hprobes in He.
        destruct He as [<- | [<- | [<- | []]]]; exact Logic.I.
      * repeat constructor.
Qed.

(** C1 does not hold of the code.  When the encoder can be invoked and
    its invocation ends with a non-zero status, the [try] statement prints
    the encoder's diagnostics and "Falling back to OpenCV...", raises a
    plain [Exception], which the clause for [Exception] catches, prints
    "Error running FFmpeg" and returns: the fallback of the first clause
    is not run, and in the whole run no video writer is opened. *)
Theorem encoder_failure_ends_the_run `{Platform} (w : World)
    (input_video_path output_video_path : string) (action_list : list string)
    (fps : rate) (frames_per_action : option Z) :
  (exists banner,
     process_outcome w CheckAvailable ["ffmpeg"; "-version"] = Ok banner
     /\ returncode banner = 0) ->
  (forall cmd, exists failure,
     process_outcome w Encode cmd = Ok failure /\ returncode failure <> 0) ->
  (forall temp_dir actual_fps width height per_action total_frames s,
   exists cmd failure probes,
     process_outcome w Encode cmd = Ok failure
     /\ incl probes [Run ["ffmpeg"; "-version"]; Run ["ffmpeg"; "-codecs"];
                     Print MsgNoLibx264]
     /\ encode_or_fall_back w temp_dir input_video_path output_video_path
          action_list actual_fps width height per_action total_frames s
        = (Return,
           extend (Run ["ffmpeg"; "-version"] :: probes
                   ++ [Print (MsgRunning cmd); Run cmd;
                       Print (MsgFfmpegError (stderr failure));
                       Print MsgFallingBack;
                       Print (MsgErrorRunning (Exception "FFmpeg failed"))]) s))
  /\ (forall path fourcc r size,
        ~ In (WriterOpen path fourcc r size)
             (trace (snd (process_video w input_video_path output_video_path
                            action_list fps frames_per_action initial_state)))).
Proof.
  intros Havailable Hencode. split.
  - intros temp_dir actual_fps width height per_action total_frames s.
    destruct (failed_encoding_returns w temp_dir input_video_path
                output_video_path action_list actual_fps width height
                per_action total_frames s Havailable Hencode)
      as (cmd & failure & probes & Hfailure & _ & Hprobes & Hrun).
    exists cmd, failure, probes. auto.
  - intros path fourcc r size Hin.
    pose proof (process_video_opens_no_writer w input_video_path
                  output_video_path action_list fps frames_per_action
                  Havailable Hencode initial_state (Forall_nil _)) as Hall.
    rewrite Forall_forall in Hall. exact (Hall _ Hin).
Qed.

Lemma encoder_failure_ends_the_run_witness :
  fst (@encode_or_fall_back whole_rates (studio 100 30 3 banner5 codecs_x264 1)
         "/tmp/tmpab12" "in.mp4" "out.mp4" wasd 30 640 480 25 100 initial_state)
  = Return
  /\ fst (@process_video whole_rates (studio 100 30 3 banner5 codecs_x264 1)
            "in.mp4" "out.mp4" wasd 24 None initial_state)
     = Return
  /\ writers
       (trace (snd (@process_video whole_rates
                      (studio 100 30 3 banner5 codecs_x264 1)
                      "in.mp4" "out.mp4" wasd 24 None initial_state)))
     = []
  /\ written_pictures
       (trace (snd (@process_video whole_rates
                      (studio 100 30 3 banner5 codecs_x264 1)
                      "in.mp4" "out.mp4" wasd 24 None initial_state)))
     = []
  /\ skipn 11
       (printed
          (trace (snd (@process_video whole_rates
                         (studio 100 30 3 banner5 codecs_x264 1)
                         "in.mp4" "out.mp4" wasd 24 None initial_state))))
     = [MsgFfmpegError "Conversion failed!"; MsgFallingBack;
        MsgErrorRunning (Exception "FFmpeg failed")].
Proof.
  split.
  - destruct (@encoder_failure_ends_the_run whole_rates
                (studio 100 30 3 banner5 codecs_x264 1)
                "in.mp4" "out.mp4" wasd 24 None) as [Hstage _].
    + exists (Completed 0 banner5 ""). split; reflexivity.
    + intros cmd. exists (Completed 1 "" "Conversion failed!").
      split; [reflexivity | discriminate].
    + destruct (Hstage "/tmp/tmpab12" 30 640 480 25 100 initial_state)
        as (cmd & failure & probes & _ & _ & Hrun).
      rewrite Hrun. reflexivity.
  - repeat split; vm_compute; reflexivity.
Defined.

(** * Further properties *)

(** ** The schedule that is computed (lines 49-61 and 274-277) *)

(** X1.  With no [frames_per_action] given, a non-empty action list and
    a total that is not negative, the frames with a label are exactly the
    first [total - total % len(actions)]: a frame below that bound gets
    the label [actions[n // (total // len(actions))].lower()], every frame
    from there on gets none.  With more actions than frames no frame
    gets a label. *)
Theorem computed_schedule_covers_whole_buckets (action_list : list string)
    (total n : Z) :
  action_list <> [] -> 0 <= total -> 0 <= n ->
  let per_action := total / len action_list in
  (n < total - total mod len action_list ->
     current_action action_list n None (Some total)
     = Ok (Some (lower (nth (Z.to_nat (n / per_action)) action_list ""))))
  /\ (total - total mod len action_list <= n ->
     current_action action_list n None (Some total) = Ok None)
  /\ (total < len action_list ->
     current_action action_list n None (Some total) = Ok None).
Proof.
  intros Hne Htotal Hn per_action.
  pose proof (len_pos _ Hne) as Hlen.
  assert (Hcover : per_action * len action_list
                   = total - total mod len action_list).
  { subst per_action.
    pose proof (Z.div_mod total (len action_list)). lia. }
  assert (Hper : 0 <= per_action) by (apply Z.div_pos; lia).
  rewrite current_action_computed by exact Hne. fold per_action.
  assert (Hnone : per_action * len action_list <= n ->
                  current_action action_list n (Some per_action) (Some total)
                  = Ok None).
  { intros Hbeyond. destruct (Z.eq_dec per_action 0) as [Hz | Hnz].
    - rewrite Hz. reflexivity.
    - rewrite current_action_given by exact Hnz.
      replace (n / per_action <? len action_list) with false; [reflexivity |].
      symmetry. apply Z.ltb_ge. apply Z.div_le_lower_bound; lia. }
  split; [| split].
  - intros Hin. rewrite <- Hcover in Hin.
    assert (Hpos : 0 < per_action) by nia.
    rewrite current_action_given by lia.
    assert (Hidx : n / per_action < len action_list)
      by (apply Z.div_lt_upper_bound; lia).
    replace (n / per_action <? len action_list) with true
      by (symmetry; apply Z.ltb_lt; exact Hidx).
    rewrite (getitem_in_range _ _ "")
      by (split; [apply Z.div_pos; lia | exact Hidx]).
    reflexivity.
  - intros Hbeyond. apply Hnone. lia.
  - intros Hfew. apply Hnone.
    replace per_action with 0; [lia |].
    subst per_action. symmetry. apply Z.div_small. lia.
Qed.

Lemma computed_schedule_covers_whole_buckets_witness :
  current_action wasd 7 None (Some 10) = Ok (Some "d")
  /\ current_action wasd 8 None (Some 10) = Ok None
  /\ current_action wasd 0 None (Some 3) = Ok None.
Proof.
  assert (Hne : wasd <> []) by discriminate.
  destruct (computed_schedule_covers_whole_buckets wasd 10 7 Hne
              ltac:(lia) ltac:(lia)) as (Hin & _).
  destruct (computed_schedule_covers_whole_buckets wasd 10 8 Hne
              ltac:(lia) ltac:(lia)) as (_ & Hout & _).
  destruct (computed_schedule_covers_whole_buckets wasd 3 0 Hne
              ltac:(lia) ltac:(lia)) as (_ & _ & Hfew).
  split; [| split].
  - rewrite Hin; [reflexivity | vm_compute; reflexivity].
  - apply Hout. vm_compute. discriminate.
  - apply Hfew. vm_compute. reflexivity.
Defined.

(** ** Labels in any case (line 57) *)

Lemma lower_upper_ascii (c : ascii) : lower_ascii (upper_ascii c) = lower_ascii c.
Proof. destruct c as [[] [] [] [] [] [] [] []]; reflexivity. Qed.

Lemma lower_upper (s : string) : lower (upper s) = lower s.
Proof.
  induction s as [| c s IH]; [reflexivity |].
  unfold lower, upper in *. simpl. rewrite lower_upper_ascii, IH. reflexivity.
Qed.

Lemma lower_lower_ascii (c : ascii) : lower_ascii (lower_ascii c) = lower_ascii c.
Proof. destruct c as [[] [] [] [] [] [] [] []]; reflexivity. Qed.

Lemma lower_lower (s : string) : lower (lower s) = lower s.
Proof.
  induction s as [| c s IH]; [reflexivity |].
  unfold lower in *. simpl. rewrite lower_lower_ascii, IH. reflexivity.
Qed.

Lemma len_map {A B} (g : A -> B) (l : list A) : len (map g l) = len l.
Proof. unfold len. rewrite length_map. reflexivity. Qed.

Lemma getitem_map {A B} (g : A -> B) (l : list A) (i : Z) :
  getitem (map g l) i
  = match getitem l i with
    | Ok a => Ok (g a)
    | Raise e => Raise e
    end.
Proof.
  unfold getitem. rewrite len_map.
  destruct ((0 <=? (if i <? 0 then i + len l else i))
            && ((if i <? 0 then i + len l else i) <? len l)); [| reflexivity].
  rewrite nth_error_map.
  destruct (nth_error l _); reflexivity.
Qed.

(** The label of a frame does not change when the labels of the list are
    rewritten with [g], as long as [g] does not change what [lower]
    makes of them. *)
Lemma current_action_map (g : string -> string) (action_list : list string)
    (n : Z) (frames_per_action total_frames : option Z) :
  (forall a, lower (g a) = lower a) ->
  current_action (map g action_list) n frames_per_action total_frames
  = current_action action_list n frames_per_action total_frames.
Proof.
  intros Hg. unfold current_action. rewrite !len_map.
  destruct (match frames_per_action, total_frames with
            | None, Some total =>
                let? q := floordiv total (len action_list) in Ok (Some q)
            | _, _ => Ok frames_per_action
            end) as [[per_action |] | e]; simpl; try reflexivity.
  destruct (negb (per_action =? 0)); [| reflexivity].
  destruct (floordiv n per_action) as [action_index | e]; simpl; [| reflexivity].
  destruct (action_index <? len action_list); [| reflexivity].
  rewrite getitem_map.
  destruct (getitem action_list action_index); simpl; [| reflexivity].
  rewrite Hg. reflexivity.
Qed.

(** X2.  Action labels are read without regard to case: writing every
    label of the list in upper case, or in lower case, changes neither
    the overlay drawn on a frame nor an exception raised. *)
Theorem labels_are_case_insensitive `{Platform} (f : frame)
    (action_list : list string) (frame_number : Z) (fps : rate)
    (frames_per_action total_frames : option Z) :
  create_icon_overlay f (map upper action_list) frame_number fps
    frames_per_action total_frames
  = create_icon_overlay f action_list frame_number fps
      frames_per_action total_frames
  /\ create_icon_overlay f (map lower action_list) frame_number fps
       frames_per_action total_frames
     = create_icon_overlay f action_list frame_number fps
         frames_per_action total_frames.
Proof.
  unfold create_icon_overlay.
  rewrite (current_action_map upper) by apply lower_upper.
  rewrite (current_action_map lower) by apply lower_lower.
  split; reflexivity.
Qed.

(** ** What the overlay draws (lines 63-100) *)

Lemma highlighted_app (ops1 ops2 : list draw_op) :
  highlighted (ops1 ++ ops2) = highlighted ops1 ++ highlighted ops2.
Proof.
  induction ops1 as [| op ops1 IH]; [reflexivity |].
  destruct op as [pt1 pt2 [[c1 c2] c3] t | text org c t]; simpl.
  - destruct ((c1 =? 0) && (c2 =? 255) && (c3 =? 0) && (t =? -1));
      simpl; rewrite IH; reflexivity.
  - exact IH.
Qed.

Lemma draw_icon_highlighted `{Platform} (current : option string) (f : frame)
    (key : string) (x y : Z) :
  highlighted (drawn (draw_icon current f (key, (x, y))))
  = highlighted (drawn f) ++ (if is_active key current then [box x y] else []).
Proof.
  unfold draw_icon, box.
  destruct (is_active key current); simpl;
    rewrite !highlighted_app; simpl; rewrite !app_nil_r; reflexivity.
Qed.

(** X3.  On every frame and for every label, at most one of the four
    icons is filled with the highlight colour: the one whose key is the
    label, and none when there is no label or the label is not one of
    w, a, s, d. *)
Theorem at_most_one_icon_is_highlighted `{Platform} (f : frame)
    (current : option string) :
  let center_x := snd (shape f) / 2 in
  let row_y := fst (shape f) - 150 in
  highlighted (drawn (draw_icons f current))
  = highlighted (drawn f)
    ++ match current with
       | None => []
       | Some label =>
           if String.eqb label "w" then [box (center_x - 100) (row_y - 100)]
           else if String.eqb label "a" then [box (center_x - 100) row_y]
           else if String.eqb label "s" then [box center_x row_y]
           else if String.eqb label "d" then [box (center_x + 100) row_y]
           else []
       end
  /\ (List.length (highlighted (drawn (draw_icons f current)))
      <= List.length (highlighted (drawn f)) + 1)%nat.
Proof.
  intros center_x row_y.
  assert (Heq : highlighted (drawn (draw_icons f current))
                = highlighted (drawn f)
                  ++ match current with
                     | None => []
                     | Some label =>
                         if String.eqb label "w"
                         then [box (center_x - 100) (row_y - 100)]
                         else if String.eqb label "a"
                         then [box (center_x - 100) row_y]
                         else if String.eqb label "s" then [box center_x row_y]
                         else if String.eqb label "d"
                         then [box (center_x + 100) row_y]
                         else []
                     end).
  { unfold draw_icons. subst center_x row_y.
    destruct (shape f) as [h wd]. unfold icon_positions. cbn [fold_left fst snd].
    rewrite !draw_icon_highlighted. rewrite <- !app_assoc. f_equal.
    destruct current as [label |]; [| reflexivity].
    unfold is_active.
    rewrite (String.eqb_sym "w" label), (String.eqb_sym "a" label),
      (String.eqb_sym "s" label), (String.eqb_sym "d" label).
    destruct (String.eqb label "w") eqn:Hw;
      [apply String.eqb_eq in Hw; subst label; reflexivity |].
    destruct (String.eqb label "a") eqn:Ha;
      [apply String.eqb_eq in Ha; subst label; reflexivity |].
    destruct (String.eqb label "s") eqn:Hs;
      [apply String.eqb_eq in Hs; subst label; reflexivity |].
    destruct (String.eqb label "d"); reflexivity. }
  split; [exact Heq |].
  rewrite Heq, List.length_app.
  destruct current as [label |]; [| simpl; lia].
  destruct (String.eqb label "w"); [simpl; lia |].
  destruct (String.eqb label "a"); [simpl; lia |].
  destruct (String.eqb label "s"); [simpl; lia |].
  destruct (String.eqb label "d"); simpl; lia.
Qed.

Lemma draw_icon_appends `{Platform} (current : option string) (f : frame)
    (icon : string * point) :
  shape (draw_icon current f icon) = shape f
  /\ picture (draw_icon current f icon) = picture f
  /\ exists new, drawn (draw_icon current f icon) = drawn f ++ new
                 /\ List.length new = 4%nat.
Proof.
  destruct icon as [key [x y]]. unfold draw_icon.
  destruct (is_active key current); simpl;
    (split; [reflexivity | split; [reflexivity |]]);
    eexists; rewrite <- !app_assoc; simpl; (split; [reflexivity | reflexivity]).
Qed.

Lemma draw_icons_appends `{Platform} (f : frame) (current : option string) :
  shape (draw_icons f current) = shape f
  /\ picture (draw_icons f current) = picture f
  /\ exists new, drawn (draw_icons f current) = drawn f ++ new
                 /\ List.length new = 16%nat.
Proof.
  unfold draw_icons. destruct (shape f) as [h wd] eqn:Hshape.
  unfold icon_positions. cbn [fold_left].
  repeat match goal with
  | |- context [draw_icon current ?g ?icon] =>
      lazymatch g with
      | context [draw_icon] => fail
      | _ =>
          let Hs := fresh "Hs" in
          let Hp := fresh "Hp" in
          let new := fresh "new" in
          let Hd := fresh "Hd" in
          let Hl := fresh "Hl" in
          destruct (draw_icon_appends current g icon)
            as (Hs & Hp & new & Hd & Hl);
          generalize dependent (draw_icon current g icon); intros
      end
  end.
  split; [congruence | split; [congruence |]].
  exists (new ++ new0 ++ new1 ++ new2). split.
  - rewrite Hd2, Hd1, Hd0, Hd, <- !app_assoc. reflexivity.
  - rewrite !List.length_app. lia.
Qed.

(** X4.  When [create_icon_overlay] returns, the frame it returns has the
    size and the picture of the frame it was given, everything drawn on
    that frame before is still there, and sixteen drawing calls have been
    added, whatever the label. *)
Theorem overlay_only_adds_drawing `{Platform} (f shown : frame)
    (action_list : list string) (frame_number : Z) (fps : rate)
    (frames_per_action total_frames : option Z) :
  create_icon_overlay f action_list frame_number fps
    frames_per_action total_frames = Ok shown ->
  shape shown = shape f
  /\ picture shown = picture f
  /\ exists new, drawn shown = drawn f ++ new /\ List.length new = 16%nat.
Proof.
  unfold create_icon_overlay.
  destruct (current_action action_list frame_number frames_per_action total_frames)
    as [current | e]; simpl; [| discriminate].
  intros [= <-]. apply draw_icons_appends.
Qed.

Lemma overlay_only_adds_drawing_witness :
  shape (@draw_icons whole_rates (blank 3) (Some "s")) = (480, 640).
Proof.
  destruct (@overlay_only_adds_drawing whole_rates (blank 3)
              (@draw_icons whole_rates (blank 3) (Some "s"))
              wasd 2 30 (Some 1) None eq_refl) as (Hshape & _).
  rewrite Hshape. reflexivity.
Defined.

(** ** Reading the version (lines 102-115) *)

Lemma int_of_digits_acc (d : Decimal.uint) (acc : positive) :
  int_of_digits (NilEmpty.string_of_uint d) (Z.pos acc)
  = Z.pos (Pos.of_uint_acc d acc).
Proof.
  revert acc.
  induction d; intros acc;
    cbn [NilEmpty.string_of_uint int_of_digits Pos.of_uint_acc];
    try reflexivity;
    rewrite <- IHd; f_equal;
    match goal with
    | |- context [Z.of_N (N_of_ascii ?c)] =>
        let v := eval vm_compute in (Z.of_N (N_of_ascii c)) in
        change (Z.of_N (N_of_ascii c)) with v
    end;
    lia.
Qed.

Lemma int_of_digits_uint (d : Decimal.uint) :
  int_of_digits (NilEmpty.string_of_uint d) 0 = Z.of_N (Pos.of_uint d).
Proof.
  induction d;
    cbn [NilEmpty.string_of_uint int_of_digits Pos.of_uint];
    try reflexivity;
    match goal with
    | |- context [Z.of_N (N_of_ascii ?c)] =>
        let v := eval vm_compute in (10 * 0 + (Z.of_N (N_of_ascii c) - 48)) in
        change (10 * 0 + (Z.of_N (N_of_ascii c) - 48)) with v
    end;
    try exact IHd;
    rewrite int_of_digits_acc; reflexivity.
Qed.

(** [int(str(n))] is [n]. *)
Lemma int_of_digits_str_int (n : Z) :
  0 <= n -> int_of_digits (str_int n) 0 = n.
Proof.
  intros Hn. unfold str_int. destruct n as [| p | p]; [reflexivity | | lia].
  simpl. unfold NilZero.string_of_uint.
  pose proof (DecimalPos.Unsigned.of_to p) as Hback.
  destruct (Pos.to_uint p) eqn:Hp; try (rewrite int_of_digits_uint, Hback; reflexivity).
  simpl in Hback. discriminate.
Qed.

Lemma span_digits_uint (d : Decimal.uint) (rest : string) :
  span_digits (NilEmpty.string_of_uint d ++ String "." rest)
  = (NilEmpty.string_of_uint d, String "." rest).
Proof.
  induction d; simpl; try reflexivity; rewrite IHd; reflexivity.
Qed.

Lemma span_digits_str_int (n : Z) (rest : string) :
  0 <= n ->
  span_digits (str_int n ++ String "." rest) = (str_int n, String "." rest)
  /\ String.length (str_int n) <> 0%nat.
Proof.
  intros Hn. unfold str_int. destruct n as [| p | p]; [split; [reflexivity | discriminate] | | lia].
  simpl. unfold NilZero.string_of_uint.
  destruct (Pos.to_uint p) eqn:Hp;
    try (rewrite <- Hp; rewrite span_digits_uint; rewrite Hp;
         split; [reflexivity | discriminate]).
  split; [reflexivity | discriminate].
Qed.

Lemma first_line_uint (d : Decimal.uint) (rest : string) :
  first_line (NilEmpty.string_of_uint d ++ rest)
  = (NilEmpty.string_of_uint d ++ first_line rest)%string.
Proof.
  induction d; simpl; try reflexivity; rewrite IHd; reflexivity.
Qed.

Lemma first_line_str_int (n : Z) (rest : string) :
  0 <= n ->
  first_line (str_int n ++ rest) = (str_int n ++ first_line rest)%string.
Proof.
  intros Hn. unfold str_int. destruct n as [| p | p]; [reflexivity | | lia].
  simpl. unfold NilZero.string_of_uint.
  destruct (Pos.to_uint p) eqn:Hp;
    try (rewrite <- Hp; apply first_line_uint).
  reflexivity.
Qed.

Lemma prefix_app (p s : string) : String.prefix p (p ++ s) = true.
Proof.
  apply String.prefix_correct.
  rewrite substring_app_left by lia. apply substring_whole.
Qed.

Lemma match_version_at_start (digits rest : string) :
  span_digits (digits ++ String "." rest) = (digits, String "." rest) ->
  String.length digits <> 0%nat ->
  match_version ("ffmpeg version " ++ digits ++ String "." rest) = Some digits.
Proof.
  intros Hspan Hsome. unfold match_version.
  rewrite prefix_app.
  replace (slice_from ("ffmpeg version " ++ digits ++ String "." rest) 15)
    with (digits ++ String "." rest)%string.
  - rewrite Hspan.
    destruct (String.length digits =? 0)%nat eqn:Hz;
      [apply Nat.eqb_eq in Hz; contradiction |].
    change (String "." rest) with ("." ++ rest)%string.
    rewrite prefix_app. reflexivity.
  - unfold slice_from. simpl. rewrite Nat.sub_0_r.
    symmetry. apply substring_whole.
Qed.

Lemma search_version_at_start (line digits : string) :
  match_version line = Some digits -> search_version line = Some digits.
Proof.
  intros Hm. destruct line; cbn [search_version]; rewrite Hm; reflexivity.
Qed.

(** X5.  When the version report ends with status 0 and its output
    starts with [ffmpeg version N.], where [N] is the decimal writing of a
    number that is not negative, [get_ffmpeg_version] gives that number if
    it has at most 4300 digits, whatever follows the dot, on that line or
    on later ones; with more digits [int] raises, and the version is
    unknown. *)
Theorem major_version_is_read_back `{Platform} (w : World) (s : state)
    (n : Z) (rest err : string) :
  0 <= n ->
  process_outcome w ProbeVersion ["ffmpeg"; "-version"]
  = Ok (Completed 0 ("ffmpeg version " ++ str_int n ++ String "." rest) err) ->
  get_ffmpeg_version w s
  = (Normal (if (String.length (str_int n) <=? int_max_str_digits)%nat
             then Some n else None),
     record (Run ["ffmpeg"; "-version"]) s).
Proof.
  intros Hn Hreport.
  unfold get_ffmpeg_version, try_except, subprocess_run, bind, emit, lift.
  rewrite Hreport. unfold ret. cbn [returncode stdout]. simpl (0 =? 0).
  cbv iota.
  assert (Hline : first_line ("ffmpeg version " ++ str_int n ++ String "." rest)
                  = ("ffmpeg version " ++ str_int n
                     ++ String "." (first_line rest))%string).
  { change (first_line ("ffmpeg version " ++ str_int n ++ String "." rest))
      with ("ffmpeg version " ++ first_line (str_int n ++ String "." rest))%string.
    rewrite first_line_str_int by exact Hn. reflexivity. }
  rewrite Hline.
  destruct (span_digits_str_int n (first_line rest) Hn) as [Hspan Hsome].
  assert (Hfound : search_version
                     ("ffmpeg version " ++ str_int n
                      ++ String "." (first_line rest))
                   = Some (str_int n)).
  { apply search_version_at_start.
    apply match_version_at_start; assumption. }
  rewrite Hfound. unfold int_of_str.
  destruct (String.length (str_int n) <=? int_max_str_digits)%nat;
    [rewrite int_of_digits_str_int by exact Hn |]; reflexivity.
Qed.

Lemma major_version_is_read_back_witness :
  fst (@get_ffmpeg_version whole_rates
         (studio 100 30 0 banner5 codecs_x264 0) initial_state)
  = Normal (Some 5).
Proof.
  rewrite (@major_version_is_read_back whole_rates
             (studio 100 30 0 banner5 codecs_x264 0) initial_state 5
             ("1.2 Copyright (c) 2000-2022 the FFmpeg developers"
              ++ String "010" "built with gcc 11") ""
             ltac:(lia) eq_refl).
  reflexivity.
Defined.

Lemma search_version_needs_the_words (line : string) (digits : string) :
  search_version line = Some digits ->
  contains "ffmpeg version " line = true.
Proof.
  induction line as [| c line IH].
  - simpl. unfold match_version. simpl. discriminate.
  - intros Hfound. cbn [search_version] in Hfound. cbn [contains].
    unfold match_version in Hfound.
    destruct (String.prefix "ffmpeg version " (String c line)); [reflexivity |].
    simpl. apply IH. exact Hfound.
Qed.

(** X6.  The version is unknown, and nothing is raised, when the version
    report cannot be started, when it ends with a status other than 0, or
    when the first line of its output does not have the words
    [ffmpeg version ]. *)
Theorem version_is_unknown_without_report `{Platform} (w : World) (s : state) :
  (exists e, process_outcome w ProbeVersion ["ffmpeg"; "-version"] = Raise e)
  \/ (exists report,
        process_outcome w ProbeVersion ["ffmpeg"; "-version"] = Ok report
        /\ (returncode report <> 0
            \/ contains "ffmpeg version " (first_line (stdout report)) = false)) ->
  get_ffmpeg_version w s = (Normal None, record (Run ["ffmpeg"; "-version"]) s)
  /\ version_at_least_5 None = false.
Proof.
  intros Hwhy. split; [| reflexivity].
  unfold get_ffmpeg_version, try_except, subprocess_run, bind, emit, lift.
  destruct Hwhy as [[e He] | (report & Hreport & Hwhy)].
  - rewrite He. reflexivity.
  - rewrite Hreport. unfold ret.
    destruct Hwhy as [Hstatus | Hwords].
    + apply Z.eqb_neq in Hstatus. rewrite Hstatus. reflexivity.
    + destruct (returncode report =? 0); [| reflexivity].
      destruct (search_version (first_line (stdout report))) as [digits |] eqn:Hfound;
        [| reflexivity].
      apply search_version_needs_the_words in Hfound. congruence.
Qed.

Lemma version_is_unknown_without_report_witness :
  fst (@get_ffmpeg_version whole_rates
         (studio 100 30 0 "FFmpeg 5.1.2 (static build)" codecs_x264 0)
         initial_state)
  = Normal None.
Proof.
  destruct (@version_is_unknown_without_report whole_rates
              (studio 100 30 0 "FFmpeg 5.1.2 (static build)" codecs_x264 0)
              initial_state) as [Hnone _].
  - right. exists (Completed 0 "FFmpeg 5.1.2 (static build)" "").
    split; [reflexivity | right; reflexivity].
  - rewrite Hnone. reflexivity.
Defined.

(** ** Arguments of every command (lines 117-249) *)

(** X7.  Whatever the extension of the output path, the version and the
    codec listing, the command starts with [ffmpeg -y -framerate <fps> -i
    <pattern>], ends with the output path, and has in between the pixel
    format [yuv420p] followed by the scale filter for the given width and
    height. *)
Theorem every_command_overwrites_and_scales `{Platform} (w : World)
    (input_pattern output_path : string) (fps : rate) (width height : Z)
    (s : state) :
  exists cmd,
    fst (get_ffmpeg_command w input_pattern output_path fps width height s)
    = Normal cmd
    /\ cmd = ["ffmpeg"; "-y"; "-framerate"; str_rate fps; "-i"; input_pattern]
             ++ options cmd ++ [output_path]
    /\ appears_in ["-pix_fmt"; "yuv420p"; "-vf"; scale_filter width height]
                  (options cmd).
Proof.
  destruct (get_ffmpeg_version_runs w s) as [tier Hv].
  eexists. split.
  - apply (get_ffmpeg_command_closed_form _ _ _ _ _ _ _ tier).
    rewrite Hv. reflexivity.
  - cbv zeta.
    destruct (String.eqb (output_ext output_path) ".mp4");
      [| destruct (String.eqb (output_ext output_path) ".webm");
         [| destruct (String.eqb (output_ext output_path) ".avi")]].
    all: try (choose_codec w; destruct (version_at_least_5 tier);
              (split; [reflexivity |]);
              exists (@nil string); eexists; reflexivity).
    split; [reflexivity |].
    exists ["-c:v"; "libvpx-vp9"; "-crf"; "30"; "-b:v"; "0"], (@nil string).
    reflexivity.
Qed.

(** X8.  An output path whose extension is none of .mp4, .webm and .avi
    (another one, or none at all) gets the command of an .mp4 path: the
    two commands differ in their last argument only, and the same child
    processes are run for both. *)
Theorem other_extensions_are_treated_as_mp4 `{Platform} (w : World)
    (input_pattern mp4_path other_path : string) (fps : rate)
    (width height : Z) (s : state) :
  output_ext mp4_path = ".mp4" ->
  output_ext other_path <> ".mp4" ->
  output_ext other_path <> ".webm" ->
  output_ext other_path <> ".avi" ->
  exists args s',
    get_ffmpeg_command w input_pattern mp4_path fps width height s
    = (Normal (args ++ [mp4_path]), s')
    /\ get_ffmpeg_command w input_pattern other_path fps width height s
       = (Normal (args ++ [other_path]), s').
Proof.
  intros Hmp4 Hnot_mp4 Hnot_webm Hnot_avi.
  apply String.eqb_neq in Hnot_mp4, Hnot_webm, Hnot_avi.
  unfold get_ffmpeg_command.
  rewrite Hmp4, Hnot_mp4, Hnot_webm, Hnot_avi.
  change (String.eqb ".mp4" ".mp4") with true. cbv iota.
  destruct (get_ffmpeg_version_runs w s) as [tier Hv].
  unfold bind at 1 3. rewrite Hv.
  destruct (codec_arguments_choice w (record (Run ["ffmpeg"; "-version"]) s))
    as [s' Hc].
  unfold bind. rewrite Hc. unfold ret.
  eexists. exists s'. split; reflexivity.
Qed.

Lemma other_extensions_are_treated_as_mp4_witness :
  removelast
    (match fst (@get_ffmpeg_command whole_rates
                  (studio 100 30 0 banner5 codecs_x264 0)
                  "t/frame_%06d.png" "clip.mov" 30 640 480 initial_state) with
     | Normal cmd => cmd
     | _ => []
     end)
  = removelast
      (match fst (@get_ffmpeg_command whole_rates
                    (studio 100 30 0 banner5 codecs_x264 0)
                    "t/frame_%06d.png" "clip.mp4" 30 640 480 initial_state) with
       | Normal cmd => cmd
       | _ => []
       end).
Proof.
  destruct (@other_extensions_are_treated_as_mp4 whole_rates
              (studio 100 30 0 banner5 codecs_x264 0)
              "t/frame_%06d.png" "clip.mp4" "clip.mov" 30 640 480 initial_state
              eq_refl ltac:(discriminate) ltac:(discriminate) ltac:(discriminate))
    as (args & s' & Hmp4 & Hother).
  rewrite Hmp4, Hother. cbn [fst]. rewrite !removelast_last. reflexivity.
Defined.

(** X9.  For an output path that ends in a dot and letters, after a file
    name that is not made of dots only, the container is chosen by those
    letters without regard to case: when they spell webm the command is
    the webm command, and no codec is listed. *)
Theorem webm_is_recognised_in_any_case `{Platform} (w : World)
    (input_pattern stem letters : string) (fps : rate) (width height : Z)
    (s : state) :
  rfind "." letters = -1 ->
  rfind "/" letters = -1 ->
  all_dots (last_component stem) = false ->
  lower letters = "webm" ->
  output_ext (stem ++ String "." letters) = ".webm"
  /\ get_ffmpeg_command w input_pattern (stem ++ String "." letters)
       fps width height s
     = (Normal ["ffmpeg"; "-y"; "-framerate"; str_rate fps; "-i"; input_pattern;
                "-c:v"; "libvpx-vp9"; "-crf"; "30"; "-b:v"; "0";
                "-pix_fmt"; "yuv420p"; "-vf"; scale_filter width height;
                (stem ++ String "." letters)%string],
        record (Run ["ffmpeg"; "-version"]) s).
Proof.
  intros Hdot Hsep Hname Hwebm.
  assert (Hext : output_ext (stem ++ String "." letters) = ".webm").
  { rewrite output_ext_of_named_file by assumption. rewrite Hwebm. reflexivity. }
  split; [exact Hext |].
  unfold get_ffmpeg_command.
  destruct (get_ffmpeg_version_runs w s) as [tier Hv].
  unfold bind. rewrite Hv, Hext. reflexivity.
Qed.

Lemma webm_is_recognised_in_any_case_witness :
  output_ext "clips/My.Video.WebM" = ".webm".
Proof.
  destruct (@webm_is_recognised_in_any_case whole_rates
              (studio 100 30 0 banner5 codecs_x264 0)
              "t/frame_%06d.png" "clips/My.Video" "WebM" 30 640 480
              initial_state eq_refl eq_refl eq_refl eq_refl) as [Hext _].
  exact Hext.
Defined.

(** ** The frame loop on decodable frames (lines 291-309) *)

Lemma saved_paths_app `{Platform} (t1 t2 : list event) :
  saved_paths (t1 ++ t2) = saved_paths t1 ++ saved_paths t2.
Proof.
  induction t1 as [| e t1 IH]; [reflexivity |].
  destruct e; simpl; rewrite IH; reflexivity.
Qed.

Lemma saved_frames_app `{Platform} (t1 t2 : list event) :
  saved_frames (t1 ++ t2) = saved_frames t1 ++ saved_frames t2.
Proof.
  induction t1 as [| e t1 IH]; [reflexivity |].
  destruct e; simpl; rewrite IH; reflexivity.
Qed.

Lemma written_frames_app `{Platform} (t1 t2 : list event) :
  written_frames (t1 ++ t2) = written_frames t1 ++ written_frames t2.
Proof.
  induction t1 as [| e t1 IH]; [reflexivity |].
  destruct e; simpl; rewrite IH; reflexivity.
Qed.

(** What the loop does with frames that can all be read, when the
    progress report cannot divide by zero: the events it adds. *)
Lemma render_frames_all `{Platform} (w : World) (fs : list frame)
    (tail : list (option frame)) (temp_dir : string)
    (action_list : list string) (actual_fps : rate)
    (frames_per_action total_frames frame_count : Z) (s : state) :
  tail = [] \/ (exists rest, tail = None :: rest) ->
  0 <= frame_count -> 0 <= frames_per_action ->
  total_frames <> 0 \/ frame_count + len fs < 100 ->
  exists s' evs,
    render_frames w (map Some fs ++ tail) temp_dir action_list actual_fps
      frames_per_action total_frames frame_count s = (Normal tt, s')
    /\ trace s' = trace s ++ evs
    /\ saved_paths evs
       = map (fun c => path_join temp_dir
                         ("frame_" ++ format_06d (c - 1) ++ ".png")%string)
             (counts_after frame_count (List.length fs))
    /\ saved_pictures evs = map picture fs
    /\ printed evs
       = map (fun c => MsgProgress c total_frames)
             (filter (fun c => c mod 100 =? 0)
                     (counts_after frame_count (List.length fs)))
    /\ writers evs = [].
Proof.
  intros Htail. revert frame_count s.
  induction fs as [| f fs IH]; intros frame_count s Hcount Hper Hsafe.
  - exists s, []. rewrite app_nil_r.
    split; [| repeat split; reflexivity].
    destruct Htail as [-> | [rest ->]]; reflexivity.
  - destruct (create_icon_overlay_total f action_list frame_count actual_fps
                frames_per_action (Some total_frames) Hcount Hper)
      as (shown & Hshown & Hpic).
    cbn [map app render_frames]. rewrite Hshown.
    unfold bind at 1. unfold lift at 1. unfold ret at 1.
    unfold bind at 1. unfold cv2_imwrite at 1.
    set (frame_path := path_join temp_dir _).
    set (s1 := {| trace := trace s ++ [Imwrite frame_path shown _];
                  tempdir := _; created := _; removed := _ |}).
    assert (Hlen : len (f :: fs) = len fs + 1) by (unfold len; simpl; lia).
    cbn [List.length counts_after map filter].
    replace (frame_count + 1 - 1) with frame_count by lia.
    destruct ((frame_count + 1) mod 100 =? 0) eqn:Hmark.
    + assert (Htotal : total_frames <> 0).
      { destruct Hsafe as [Hnz | Hfew]; [exact Hnz |].
        apply Z.eqb_eq in Hmark. pose proof (len_pos (f :: fs)).
        rewrite Z.mod_small in Hmark by (rewrite Hlen in Hfew; unfold len in *; lia).
        lia. }
      destruct (IH (frame_count + 1) (record (Print (MsgProgress (frame_count + 1) total_frames)) s1))
        as (s' & evs & Hrun & Htrace & Hpaths & Hpics & Hprints & Hquiet);
        [lia | exact Hper | left; exact Htotal |].
      exists s', (Imwrite frame_path shown (imwrite w frame_path shown)
                  :: Print (MsgProgress (frame_count + 1) total_frames) :: evs).
      split.
      * unfold bind, lift, truediv, print, emit, ret.
        apply Z.eqb_neq in Htotal. rewrite Htotal. exact Hrun.
      * split; [rewrite Htrace; simpl; rewrite <- !app_assoc; reflexivity |].
        split; [simpl; rewrite Hpaths; reflexivity |].
        split; [simpl; rewrite Hpics, Hpic; reflexivity |].
        split; [simpl; rewrite Hprints; reflexivity | exact Hquiet].
    + destruct (IH (frame_count + 1) s1)
        as (s' & evs & Hrun & Htrace & Hpaths & Hpics & Hprints & Hquiet);
        [lia | exact Hper
         | destruct Hsafe as [Hnz | Hfew]; [left; exact Hnz | right; lia] |].
      exists s', (Imwrite frame_path shown (imwrite w frame_path shown) :: evs).
      split.
      * unfold bind, ret. exact Hrun.
      * split; [rewrite Htrace; simpl; rewrite <- !app_assoc; reflexivity |].
        split; [simpl; rewrite Hpaths; reflexivity |].
        split; [simpl; rewrite Hpics, Hpic; reflexivity |].
        split; [exact Hprints | exact Hquiet].
Qed.

(** X10.  When the source delivers frames up to its end or up to a first
    failed read, the schedule is not negative and the total is not 0 (or
    fewer than 100 frames are counted), the loop falls through, and the
    frame read at count [c] is written to [frame_<c, six digits>.png] in
    the temporary directory: the files are numbered in the order of the
    frames, whether or not earlier ones could be saved. *)
Theorem frame_files_are_numbered_in_order `{Platform} (w : World)
    (fs : list frame) (tail : list (option frame)) (temp_dir : string)
    (action_list : list string) (actual_fps : rate)
    (frames_per_action total_frames frame_count : Z) (s : state) :
  tail = [] \/ (exists rest, tail = None :: rest) ->
  0 <= frame_count -> 0 <= frames_per_action ->
  total_frames <> 0 \/ frame_count + len fs < 100 ->
  exists s',
    render_frames w (map Some fs ++ tail) temp_dir action_list actual_fps
      frames_per_action total_frames frame_count s = (Normal tt, s')
    /\ saved_paths (trace s')
       = saved_paths (trace s)
         ++ map (fun c => path_join temp_dir
                            ("frame_" ++ format_06d (c - 1) ++ ".png")%string)
                (counts_after frame_count (List.length fs))
    /\ saved_pictures (trace s') = saved_pictures (trace s) ++ map picture fs.
Proof.
  intros Htail Hcount Hper Hsafe.
  destruct (render_frames_all w fs tail temp_dir action_list actual_fps
              frames_per_action total_frames frame_count s
              Htail Hcount Hper Hsafe)
    as (s' & evs & Hrun & Htrace & Hpaths & Hpics & _).
  exists s'. split; [exact Hrun |]. rewrite Htrace.
  rewrite saved_paths_app, saved_pictures_app, Hpaths, Hpics.
  split; reflexivity.
Qed.

Lemma frame_files_are_numbered_in_order_witness :
  saved_paths
    (trace (snd (@render_frames whole_rates full_disk
                   (map Some [blank 0; blank 1; blank 2] ++ [])
                   "/tmp/tmpab12" wasd 30 1 3 0 initial_state)))
  = ["/tmp/tmpab12/frame_000000.png"; "/tmp/tmpab12/frame_000001.png";
     "/tmp/tmpab12/frame_000002.png"].
Proof.
  assert (Htail : @nil (option frame) = [] \/ (exists rest : list (option frame), [] = None :: rest))
    by (left; reflexivity).
  assert (Hsafe : 3 <> 0 \/ 0 + len [blank 0; blank 1; blank 2] < 100)
    by (left; discriminate).
  destruct (@frame_files_are_numbered_in_order whole_rates full_disk
              [blank 0; blank 1; blank 2] [] "/tmp/tmpab12" wasd 30 1 3 0
              initial_state Htail (Z.le_refl 0) Z.le_0_1 Hsafe)
    as (s' & Hrun & Hpaths & _).
  rewrite Hrun. cbn [snd]. rewrite Hpaths. vm_compute. reflexivity.
Defined.

(** X11.  Under the same conditions the loop prints a progress line for
    exactly those frame counts that are multiples of 100, each with the
    count and the total, and nothing else. *)
Theorem progress_is_reported_every_100_frames `{Platform} (w : World)
    (fs : list frame) (tail : list (option frame)) (temp_dir : string)
    (action_list : list string) (actual_fps : rate)
    (frames_per_action total_frames frame_count : Z) (s : state) :
  tail = [] \/ (exists rest, tail = None :: rest) ->
  0 <= frame_count -> 0 <= frames_per_action ->
  total_frames <> 0 \/ frame_count + len fs < 100 ->
  printed (trace (snd (render_frames w (map Some fs ++ tail) temp_dir
                         action_list actual_fps frames_per_action
                         total_frames frame_count s)))
  = printed (trace s)
    ++ map (fun c => MsgProgress c total_frames)
           (filter (fun c => c mod 100 =? 0)
                   (counts_after frame_count (List.length fs))).
Proof.
  intros Htail Hcount Hper Hsafe.
  destruct (render_frames_all w fs tail temp_dir action_list actual_fps
              frames_per_action total_frames frame_count s
              Htail Hcount Hper Hsafe)
    as (s' & evs & Hrun & Htrace & _ & _ & Hprints & _).
  rewrite Hrun. cbn [snd]. rewrite Htrace, printed_app, Hprints. reflexivity.
Qed.

Lemma progress_is_reported_every_100_frames_witness :
  printed
    (trace (snd (@render_frames whole_rates
                   (studio 250 30 250 banner5 codecs_x264 0)
                   (map Some (map blank (seq 0 250)) ++ [])
                   "/tmp/tmpab12" wasd 30 62 250 0 initial_state)))
  = [MsgProgress 100 250; MsgProgress 200 250].
Proof.
  assert (Htail : @nil (option frame) = [] \/ (exists rest : list (option frame), [] = None :: rest))
    by (left; reflexivity).
  assert (Hper : 0 <= 62) by lia.
  assert (Hsafe : 250 <> 0 \/ 0 + len (map blank (seq 0 250)) < 100)
    by (left; discriminate).
  rewrite (@progress_is_reported_every_100_frames whole_rates
             (studio 250 30 250 banner5 codecs_x264 0)
             (map blank (seq 0 250)) [] "/tmp/tmpab12" wasd 30 62 250 0
             initial_state Htail (Z.le_refl 0) Hper Hsafe).
  vm_compute. reflexivity.
Defined.

(** ** The two frame loops side by side (lines 291-309 and 364-381) *)

(** One turn of the first loop on a frame whose overlay can be drawn. *)
Lemma render_frames_step `{Platform} (w : World) (f shown : frame)
    (frames : list (option frame)) (temp_dir : string)
    (action_list : list string) (actual_fps : rate)
    (frames_per_action total_frames frame_count : Z) (s : state) :
  create_icon_overlay f action_list frame_count actual_fps
    (Some frames_per_action) (Some total_frames) = Ok shown ->
  let frame_path :=
    path_join temp_dir ("frame_" ++ format_06d frame_count ++ ".png")%string in
  let s1 := snd (cv2_imwrite w frame_path shown s) in
  render_frames w (Some f :: frames) temp_dir action_list actual_fps
    frames_per_action total_frames frame_count s
  = if (frame_count + 1) mod 100 =? 0 then
      if total_frames =? 0 then (Raised ZeroDivisionError, s1)
      else render_frames w frames temp_dir action_list actual_fps
             frames_per_action total_frames (frame_count + 1)
             (record (Print (MsgProgress (frame_count + 1) total_frames)) s1)
    else render_frames w frames temp_dir action_list actual_fps
           frames_per_action total_frames (frame_count + 1) s1.
Proof.
  intros Hshown frame_path s1. cbn [render_frames]. rewrite Hshown.
  unfold bind at 1. unfold lift at 1. unfold ret at 1.
  unfold bind at 1. unfold cv2_imwrite at 1. fold frame_path.
  destruct ((frame_count + 1) mod 100 =? 0).
  - unfold bind, lift, truediv, print, emit, ret, raise.
    destruct (total_frames =? 0); reflexivity.
  - unfold bind, ret. reflexivity.
Qed.

(** One turn of the second loop, when the writer accepts the frame. *)
Lemma fallback_frames_step `{Platform} (w : World) (f shown : frame)
    (frames : list (option frame)) (action_list : list string)
    (actual_fps : rate) (frames_per_action total_frames frame_count : Z)
    (s : state) :
  create_icon_overlay f action_list frame_count actual_fps
    (Some frames_per_action) (Some total_frames) = Ok shown ->
  writer_write w shown = Ok tt ->
  let s1 := record (WriterWrite shown) s in
  fallback_frames w (Some f :: frames) action_list actual_fps
    frames_per_action total_frames frame_count s
  = if (frame_count + 1) mod 100 =? 0 then
      if total_frames =? 0 then (Raised ZeroDivisionError, s1)
      else fallback_frames w frames action_list actual_fps
             frames_per_action total_frames (frame_count + 1)
             (record (Print (MsgFallbackProgress (frame_count + 1) total_frames)) s1)
    else fallback_frames w frames action_list actual_fps
           frames_per_action total_frames (frame_count + 1) s1.
Proof.
  intros Hshown Hwrite s1. cbn [fallback_frames]. rewrite Hshown.
  unfold bind at 1. unfold lift at 1. unfold ret at 1.
  unfold bind at 1. unfold out_write, bind at 1. unfold emit at 1.
  rewrite Hwrite. unfold lift at 1. unfold ret at 1.
  destruct ((frame_count + 1) mod 100 =? 0).
  - unfold bind, lift, truediv, print, emit, ret, raise.
    destruct (total_frames =? 0); reflexivity.
  - unfold bind, ret. reflexivity.
Qed.

(** X12.  Given the same frames, schedule and starting count, and a
    writer that accepts every frame, the loop that writes frame files and
    the loop of the fallback draw the same overlays on the same frames in
    the same order, and end in the same way (both fall through, or both
    raise the same exception at the same frame). *)
Theorem both_loops_draw_the_same_overlays `{Platform} (w : World)
    (frames : list (option frame)) (temp_dir : string)
    (action_list : list string) (actual_fps : rate)
    (frames_per_action total_frames frame_count : Z) (s1 s2 : state) :
  (forall f, writer_write w f = Ok tt) ->
  exists shown,
    saved_frames
      (trace (snd (render_frames w frames temp_dir action_list actual_fps
                     frames_per_action total_frames frame_count s1)))
    = saved_frames (trace s1) ++ shown
    /\ written_frames
         (trace (snd (fallback_frames w frames action_list actual_fps
                        frames_per_action total_frames frame_count s2)))
       = written_frames (trace s2) ++ shown
    /\ fst (render_frames w frames temp_dir action_list actual_fps
              frames_per_action total_frames frame_count s1)
       = fst (fallback_frames w frames action_list actual_fps
                frames_per_action total_frames frame_count s2).
Proof.
  intros Hwriter. revert frame_count s1 s2.
  induction frames as [| [f |] frames IH]; intros frame_count s1 s2.
  - exists []. simpl. rewrite !app_nil_r. auto.
  - destruct (create_icon_overlay f action_list frame_count actual_fps
                (Some frames_per_action) (Some total_frames))
      as [shown | e] eqn:Hshown.
    + rewrite (render_frames_step w f shown frames temp_dir action_list
                 actual_fps frames_per_action total_frames frame_count s1 Hshown).
      rewrite (fallback_frames_step w f shown frames action_list
                 actual_fps frames_per_action total_frames frame_count s2
                 Hshown (Hwriter shown)).
      set (frame_path := path_join temp_dir _).
      assert (Hsaved : saved_frames (trace (snd (cv2_imwrite w frame_path shown s1)))
                       = saved_frames (trace s1) ++ [shown])
        by (unfold cv2_imwrite; cbn [snd trace];
            rewrite saved_frames_app; reflexivity).
      assert (Hwritten : written_frames (trace (record (WriterWrite shown) s2))
                         = written_frames (trace s2) ++ [shown])
        by (unfold record; cbn [trace];
            rewrite written_frames_app; reflexivity).
      destruct ((frame_count + 1) mod 100 =? 0).
      * destruct (total_frames =? 0).
        -- exists [shown]. cbn [fst snd]. auto.
        -- destruct (IH (frame_count + 1)
                       (record (Print (MsgProgress (frame_count + 1) total_frames))
                          (snd (cv2_imwrite w frame_path shown s1)))
                       (record (Print (MsgFallbackProgress (frame_count + 1) total_frames))
                          (record (WriterWrite shown) s2)))
             as (more & Hleft & Hright & Hend).
           exists (shown :: more). rewrite Hleft, Hright.
           split; [| split; [| exact Hend]].
           ++ unfold record at 1. cbn [trace]. rewrite saved_frames_app, Hsaved.
              rewrite <- !app_assoc. reflexivity.
           ++ unfold record at 1. cbn [trace]. rewrite written_frames_app, Hwritten.
              rewrite <- !app_assoc. reflexivity.
      * destruct (IH (frame_count + 1)
                     (snd (cv2_imwrite w frame_path shown s1))
                     (record (WriterWrite shown) s2))
          as (more & Hleft & Hright & Hend).
        exists (shown :: more). rewrite Hleft, Hright, Hsaved, Hwritten.
        rewrite <- !app_assoc. auto.
    + exists []. cbn [render_frames fallback_frames]. rewrite Hshown.
      unfold bind, lift, raise. cbn [fst snd]. rewrite !app_nil_r. auto.
  - exists []. simpl. rewrite !app_nil_r. auto.
Qed.

Lemma both_loops_draw_the_same_overlays_witness :
  saved_frames
    (trace (snd (@render_frames whole_rates stutter (cap_frames stutter)
                   "/tmp/tmpab12" wasd 30 1 3 0 initial_state)))
  = written_frames
      (trace (snd (@fallback_frames whole_rates stutter (cap_frames stutter)
                     wasd 30 1 3 0 initial_state))).
Proof.
  destruct (@both_loops_draw_the_same_overlays whole_rates stutter
              (cap_frames stutter) "/tmp/tmpab12" wasd 30 1 3 0
              initial_state initial_state (fun _ => eq_refl))
    as (shown & Hleft & Hright & _).
  rewrite Hleft, Hright. reflexivity.
Defined.

(** ** The encoding stage and whole runs (lines 251-396) *)

Lemma commands_run_app `{Platform} (t1 t2 : list event) :
  commands_run (t1 ++ t2) = commands_run t1 ++ commands_run t2.
Proof.
  induction t1 as [| e t1 IH]; [reflexivity |].
  destruct e; simpl; rewrite IH; reflexivity.
Qed.

Lemma writers_app `{Platform} (t1 t2 : list event) :
  writers (t1 ++ t2) = writers t1 ++ writers t2.
Proof.
  induction t1 as [| e t1 IH]; [reflexivity |].
  destruct e; simpl; rewrite IH; reflexivity.
Qed.

Lemma written_pictures_app `{Platform} (t1 t2 : list event) :
  written_pictures (t1 ++ t2) = written_pictures t1 ++ written_pictures t2.
Proof.
  induction t1 as [| e t1 IH]; [reflexivity |].
  destruct e; simpl; rewrite IH; reflexivity.
Qed.

(** A capture delivers some frames and then ends or fails to read. *)
Lemma frames_split (frames : list (option frame)) :
  exists fs tail,
    frames = map Some fs ++ tail
    /\ (tail = [] \/ (exists rest, tail = None :: rest)).
Proof.
  induction frames as [| [f |] frames (fs & tail & Heq & Htail)].
  - exists [], []. split; [reflexivity | left; reflexivity].
  - exists (f :: fs), tail. split; [simpl; rewrite Heq; reflexivity | exact Htail].
  - exists [], (None :: frames). split; [reflexivity | right; eauto].
Qed.

(** The probes of the command builder write no file, open no writer and
    write no frame. *)
Lemma probes_are_quiet `{Platform} (probes : list event) :
  incl probes [Run ["ffmpeg"; "-version"]; Run ["ffmpeg"; "-codecs"];
               Print MsgNoLibx264] ->
  saved_paths probes = [] /\ writers probes = [].
Proof.
  induction probes as [| e probes IH]; intros Hincl; [split; reflexivity |].
  destruct IH as [Hsaved Hwriters];
    [intros x Hx; apply Hincl; right; exact Hx |].
  assert (He : In e [Run ["ffmpeg"; "-version"]; Run ["ffmpeg"; "-codecs"];
                     Print MsgNoLibx264]) by (apply Hincl; left; reflexivity).
  destruct He as [<- | [<- | [<- | []]]]; simpl; auto.
Qed.

(** The head and the last argument of a command. *)
Lemma get_ffmpeg_command_shape `{Platform} (w : World)
    (input_pattern output_path : string) (fps : rate) (width height : Z)
    (s : state) (cmd : list string) :
  fst (get_ffmpeg_command w input_pattern output_path fps width height s)
  = Normal cmd ->
  firstn 6 cmd = ["ffmpeg"; "-y"; "-framerate"; str_rate fps; "-i"; input_pattern]
  /\ last cmd "" = output_path.
Proof.
  destruct (get_ffmpeg_version_runs w s) as [tier Hv].
  rewrite (get_ffmpeg_command_closed_form _ _ _ _ _ _ _ tier)
    by (rewrite Hv; reflexivity).
  cbv zeta. intros Hcmd. injection Hcmd as <-.
  destruct (String.eqb (output_ext output_path) ".mp4");
    [| destruct (String.eqb (output_ext output_path) ".webm");
       [| destruct (String.eqb (output_ext output_path) ".avi")]].
  all: try (choose_codec w; destruct (version_at_least_5 tier));
    split; reflexivity.
Qed.

(** When the encoder can be invoked and ends with status 0, the [try]
    statement falls through; what it has done is all listed here. *)
Lemma encoding_succeeds `{Platform} (w : World)
    (temp_dir input_video_path output_video_path : string)
    (action_list : list string) (actual_fps : rate)
    (width height frames_per_action total_frames : Z) (s : state) :
  (exists banner,
     process_outcome w CheckAvailable ["ffmpeg"; "-version"] = Ok banner
     /\ returncode banner = 0) ->
  (forall cmd, exists done,
     process_outcome w Encode cmd = Ok done /\ returncode done = 0) ->
  exists cmd probes,
    fst (get_ffmpeg_command w (path_join temp_dir "frame_%06d.png")
           output_video_path actual_fps width height
           (record (Run ["ffmpeg"; "-version"]) s)) = Normal cmd
    /\ incl probes [Run ["ffmpeg"; "-version"]; Run ["ffmpeg"; "-codecs"];
                    Print MsgNoLibx264]
    /\ encode_or_fall_back w temp_dir input_video_path output_video_path
         action_list actual_fps width height frames_per_action total_frames s
       = (Normal tt,
          extend (Run ["ffmpeg"; "-version"] :: probes
                  ++ [Print (MsgRunning cmd); Run cmd;
                      Print MsgEncodingComplete;
                      Print (MsgOutputSaved output_video_path)]) s).
Proof.
  intros (banner & Hbanner & Hzero) Hencode.
  destruct (get_ffmpeg_command_effect w (path_join temp_dir "frame_%06d.png")
              output_video_path actual_fps width height
              (record (Run ["ffmpeg"; "-version"]) s))
    as (cmd & probes & Hcmd & Hprobes).
  destruct (Hencode cmd) as (done & Hdone & Hstatus).
  exists cmd, probes.
  split; [rewrite Hcmd; reflexivity | split; [exact Hprobes |]].
  unfold encode_or_fall_back, try_except, encode_with_ffmpeg.
  unfold bind at 1. unfold subprocess_run at 1. unfold bind at 1.
  unfold emit at 1. rewrite Hbanner. unfold lift at 1. unfold ret at 1.
  unfold bind at 1. rewrite Hzero. simpl (0 =? 0). cbv iota. unfold ret at 1.
  unfold bind at 1. rewrite Hcmd.
  unfold print, subprocess_run. rewrite Hdone.
  unfold bind, emit, lift, ret. cbv beta iota.
  rewrite Hstatus. simpl (0 =? 0). cbv iota.
  f_equal. unfold record, extend. simpl. rewrite <- !app_assoc. reflexivity.
Qed.

(** X13.  A run from start to end when everything works: the source
    opens with a frame rate that is not zero, the schedule is given and
    not negative or can be computed, the frames are read up to the end or
    a first failed read, and the encoder is present and ends with status
    0.  Then [process_video] falls through; the frames have been written
    to [frame_000000.png], [frame_000001.png], ... in the temporary
    directory; the one command that is announced and run reads exactly
    that directory with the pattern [frame_%06d.png] at the measured
    rate and writes the output path; no writer of the fallback is opened;
    and the last thing done is the removal of the directory. *)
Theorem successful_run_end_to_end `{Platform} (w : World)
    (input_video_path output_video_path : string) (action_list : list string)
    (fps : rate) (frames_per_action : option Z)
    (fs : list frame) (tail : list (option frame)) (s : state) :
  cap_isOpened w = true ->
  rate_is_zero (cap_fps w) = false ->
  (frames_per_action = None /\ action_list <> [] /\ 0 <= cap_frame_count w)
  \/ (exists given, frames_per_action = Some given /\ 0 <= given) ->
  cap_frames w = map Some fs ++ tail ->
  tail = [] \/ (exists rest, tail = None :: rest) ->
  cap_frame_count w <> 0 \/ len fs < 100 ->
  (exists banner,
     process_outcome w CheckAvailable ["ffmpeg"; "-version"] = Ok banner
     /\ returncode banner = 0) ->
  (forall cmd, exists done,
     process_outcome w Encode cmd = Ok done /\ returncode done = 0) ->
  let run := process_video w input_video_path output_video_path action_list
               fps frames_per_action s in
  fst run = Normal tt
  /\ saved_paths (trace (snd run))
     = saved_paths (trace s)
       ++ map (fun c => path_join (mkdtemp w)
                          ("frame_" ++ format_06d (c - 1) ++ ".png")%string)
              (counts_after 0 (List.length fs))
  /\ writers (trace (snd run)) = writers (trace s)
  /\ exists t cmd,
       trace (snd run)
       = t ++ [Print (MsgRunning cmd); Run cmd; Print MsgEncodingComplete;
               Print (MsgOutputSaved output_video_path);
               RemoveTempDir (mkdtemp w)]
       /\ firstn 6 cmd
          = ["ffmpeg"; "-y"; "-framerate"; str_rate (cap_fps w); "-i";
             path_join (mkdtemp w) "frame_%06d.png"]
       /\ last cmd "" = output_video_path.
Proof.
  intros Hopen Hrate Hschedule Hframes Htail Hsafe Hbanner Hencode run.
  set (q := match frames_per_action with
            | Some given => given
            | None => cap_frame_count w / len action_list
            end).
  assert (Hq : 0 <= q).
  { subst q. destruct Hschedule as [(-> & Hne & Htotal) | (given & -> & Hgiven)];
      [| exact Hgiven].
    apply len_pos in Hne. apply Z.div_pos; lia. }
  assert (Hgiven_or_list : frames_per_action <> None \/ action_list <> []).
  { destruct Hschedule as [(_ & Hne & _) | (given & -> & _)];
      [right; exact Hne | left; discriminate]. }
  pose proof (report_properties_prints action_list frames_per_action (cap_fps w)
                (cap_width w) (cap_height w) (cap_frame_count w)
                (record (CaptureOpen input_video_path) s) Hgiven_or_list Hrate)
    as Hreport.
  cbv zeta in Hreport. fold q in Hreport.
  subst run.
  rewrite (process_video_opened w input_video_path output_video_path
             action_list fps frames_per_action _ _ _ Hopen Hreport).
  set (report := _ ++ [Print MsgVideoProperties; _; _; _; _; _; _]) in *.
  assert (Hreport_quiet : saved_paths report = [] /\ writers report = []).
  { subst report. destruct frames_per_action; split; reflexivity. }
  destruct Hreport_quiet as [Hreport_saved Hreport_writers].
  clearbody report. clear Hreport.
  set (s2 := extend report (record (CaptureOpen input_video_path) s)).
  unfold with_TemporaryDirectory, in_temp_dir.
  destruct (render_frames_all w fs tail (mkdtemp w) action_list (cap_fps w)
              q (cap_frame_count w) 0
              (record (Print MsgProcessing) (make_dir w s2))
              Htail (Z.le_refl 0) Hq
              (match Hsafe with
               | or_introl Hnz => or_introl Hnz
               | or_intror Hfew => or_intror Hfew
               end))
    as (s3 & evs & Hloop & Htrace3 & Hpaths & _ & _ & Hevs_writers).
  rewrite <- Hframes in Hloop.
  destruct (encoding_succeeds w (mkdtemp w) input_video_path output_video_path
              action_list (cap_fps w) (cap_width w) (cap_height w)
              q (cap_frame_count w)
              (record (Print MsgFramesProcessed) (record CaptureRelease s3))
              Hbanner Hencode)
    as (cmd & probes & Hcmd & Hprobes & Hstage).
  destruct (get_ffmpeg_command_shape _ _ _ _ _ _ _ _ Hcmd) as [Hhead Hlast].
  destruct (probes_are_quiet probes Hprobes) as [Hprobes_saved Hprobes_writers].
  unfold bind, print, emit. rewrite Hloop. rewrite Hstage.
  cbn [fst snd]. unfold remove_dir, extend, record. cbn [trace].
  rewrite Htrace3. unfold record, make_dir. cbn [trace]. subst s2.
  unfold extend, record. cbn [trace].
  split; [reflexivity |]. split; [| split].
  - rewrite !saved_paths_app, Hpaths, Hreport_saved. cbn [saved_paths].
    rewrite saved_paths_app, Hprobes_saved. simpl. rewrite !app_nil_r.
    reflexivity.
  - rewrite !writers_app, Hevs_writers, Hreport_writers. cbn [writers].
    rewrite writers_app, Hprobes_writers. simpl. rewrite !app_nil_r.
    reflexivity.
  - eexists _, cmd. split; [| split; [exact Hhead | exact Hlast]].
    set (before := (_ ++ [Print MsgFramesProcessed])).
    change (Run ["ffmpeg"; "-version"]
            :: probes ++ [Print (MsgRunning cmd); Run cmd;
                          Print MsgEncodingComplete;
                          Print (MsgOutputSaved output_video_path)])
      with ((Run ["ffmpeg"; "-version"] :: probes)
            ++ [Print (MsgRunning cmd); Run cmd; Print MsgEncodingComplete;
                Print (MsgOutputSaved output_video_path)]).
    rewrite app_assoc. rewrite <- (app_assoc _ _ [RemoveTempDir (mkdtemp w)]).
    reflexivity.
Qed.

Lemma successful_run_end_to_end_witness :
  fst (@process_video whole_rates (studio 3 30 3 banner5 codecs_x264 0)
         "in.mp4" "out.mp4" wasd 24 None initial_state)
  = Normal tt.
Proof.
  assert (Htail : @nil (option frame) = []
                  \/ (exists rest : list (option frame), [] = None :: rest))
    by (left; reflexivity).
  assert (Hschedule :
            (@None Z = None /\ wasd <> [] /\ 0 <= 3)
            \/ (exists given, @None Z = Some given /\ 0 <= given))
    by (left; split; [reflexivity | split; [discriminate | lia]]).
  assert (Hsafe : 3 <> 0 \/ len [blank 0; blank 1; blank 2] < 100)
    by (left; discriminate).
  destruct (@successful_run_end_to_end whole_rates
              (studio 3 30 3 banner5 codecs_x264 0) "in.mp4" "out.mp4" wasd
              24 None [blank 0; blank 1; blank 2] [] initial_state
              eq_refl eq_refl Hschedule eq_refl Htail Hsafe
              (ex_intro _ (Completed 0 banner5 "") (conj eq_refl eq_refl))
              (fun cmd => ex_intro _ (Completed 0 "" "Conversion failed!")
                            (conj eq_refl eq_refl)))
    as (Hfalls & _).
  exact Hfalls.
Defined.

(** What the loop of the fallback does with frames that can all be read,
    when the writer accepts them and the progress report cannot divide
    by zero. *)
Lemma fallback_frames_all `{Platform} (w : World) (fs : list frame)
    (tail : list (option frame)) (action_list : list string)
    (actual_fps : rate) (frames_per_action total_frames frame_count : Z)
    (s : state) :
  (forall f, writer_write w f = Ok tt) ->
  tail = [] \/ (exists rest, tail = None :: rest) ->
  0 <= frame_count -> 0 <= frames_per_action ->
  total_frames <> 0 \/ frame_count + len fs < 100 ->
  exists evs,
    fallback_frames w (map Some fs ++ tail) action_list actual_fps
      frames_per_action total_frames frame_count s
    = (Normal tt, extend evs s)
    /\ written_pictures evs = map picture fs
    /\ printed evs
       = map (fun c => MsgFallbackProgress c total_frames)
             (filter (fun c => c mod 100 =? 0)
                     (counts_after frame_count (List.length fs)))
    /\ writers evs = []
    /\ commands_run evs = []
    /\ saved_paths evs = [].
Proof.
  intros Hwriter Htail. revert frame_count s.
  induction fs as [| f fs IH]; intros frame_count s Hcount Hper Hsafe.
  - exists []. split; [| repeat split; reflexivity].
    replace (extend [] s) with s
      by (destruct s; unfold extend; simpl; rewrite app_nil_r; reflexivity).
    destruct Htail as [-> | [rest ->]]; reflexivity.
  - destruct (create_icon_overlay_total f action_list frame_count actual_fps
                frames_per_action (Some total_frames) Hcount Hper)
      as (shown & Hshown & Hpic).
    cbn [map app].
    rewrite (fallback_frames_step w f shown (map Some fs ++ tail) action_list
               actual_fps frames_per_action total_frames frame_count s
               Hshown (Hwriter shown)).
    assert (Hlen : len (f :: fs) = len fs + 1) by (unfold len; simpl; lia).
    cbn [List.length counts_after map filter].
    destruct ((frame_count + 1) mod 100 =? 0) eqn:Hmark.
    + assert (Htotal : total_frames <> 0).
      { destruct Hsafe as [Hnz | Hfew]; [exact Hnz |].
        apply Z.eqb_eq in Hmark. pose proof (Zle_0_nat (List.length fs)).
        rewrite Z.mod_small in Hmark by (rewrite Hlen in Hfew; unfold len in *; lia).
        lia. }
      replace (total_frames =? 0) with false
        by (symmetry; apply Z.eqb_neq; exact Htotal).
      destruct (IH (frame_count + 1)
                  (record (Print (MsgFallbackProgress (frame_count + 1) total_frames))
                     (record (WriterWrite shown) s)))
        as (evs & Hrun & Hpics & Hprints & Hw & Hc & Hs);
        [lia | exact Hper | left; exact Htotal |].
      exists (WriterWrite shown
              :: Print (MsgFallbackProgress (frame_count + 1) total_frames) :: evs).
      split; [rewrite Hrun; f_equal; unfold extend, record; simpl;
              rewrite <- !app_assoc; reflexivity |].
      split; [simpl; rewrite Hpics, Hpic; reflexivity |].
      split; [simpl; rewrite Hprints; reflexivity |].
      split; [exact Hw | split; [exact Hc | exact Hs]].
    + destruct (IH (frame_count + 1) (record (WriterWrite shown) s))
        as (evs & Hrun & Hpics & Hprints & Hw & Hc & Hs);
        [lia | exact Hper
         | destruct Hsafe as [Hnz | Hfew]; [left; exact Hnz | right; lia] |].
      exists (WriterWrite shown :: evs).
      split; [rewrite Hrun; f_equal; unfold extend, record; simpl;
              rewrite <- !app_assoc; reflexivity |].
      split; [simpl; rewrite Hpics, Hpic; reflexivity |].
      split; [exact Hprints |].
      split; [exact Hw | split; [exact Hc | exact Hs]].
Qed.

(** X14.  When the encoder cannot be started (the program is not found,
    or its version report ends with a status other than 0), the source
    can be opened again, the writer can be created and accepts every
    frame, and the progress report cannot divide by zero, the stage falls
    through on the fallback: the version report is the only child process
    started, one writer is opened, on the output path with the measured
    frame rate, every frame read before the end or the first failed read
    is written to it in order, no frame file is written, and the last
    line printed is the note on compatibility. *)
Theorem missing_encoder_falls_back_to_writer `{Platform} (w : World)
    (temp_dir input_video_path output_video_path : string)
    (action_list : list string) (actual_fps : rate)
    (width height frames_per_action total_frames : Z)
    (fs : list frame) (tail : list (option frame)) (s : state) :
  process_outcome w CheckAvailable ["ffmpeg"; "-version"] = Raise FileNotFoundError
  \/ (exists report,
        process_outcome w CheckAvailable ["ffmpeg"; "-version"] = Ok report
        /\ returncode report <> 0) ->
  recap_isOpened w = true ->
  writer_isOpened w = true ->
  (forall f, writer_write w f = Ok tt) ->
  recap_frames w = map Some fs ++ tail ->
  tail = [] \/ (exists rest, tail = None :: rest) ->
  0 <= frames_per_action ->
  total_frames <> 0 \/ len fs < 100 ->
  exists s',
    encode_or_fall_back w temp_dir input_video_path output_video_path
      action_list actual_fps width height frames_per_action total_frames s
    = (Normal tt, s')
    /\ commands_run (trace s')
       = commands_run (trace s) ++ [["ffmpeg"; "-version"]]
    /\ writers (trace s')
       = writers (trace s) ++ [(output_video_path, actual_fps)]
    /\ written_pictures (trace s')
       = written_pictures (trace s) ++ map picture fs
    /\ saved_paths (trace s') = saved_paths (trace s)
    /\ exists t, trace s' = t ++ [Print MsgNoteOpenCV].
Proof.
  intros Hmissing Hreopen Hcreate Hwriter Hframes Htail Hper Hsafe.
  assert (Hbody :
            exists e,
              (e = FileNotFoundError \/ e = CalledProcessError)
              /\ encode_with_ffmpeg w temp_dir output_video_path actual_fps
                   width height s
                 = (Raised e, record (Run ["ffmpeg"; "-version"]) s)).
  { unfold encode_with_ffmpeg, subprocess_run, bind, emit.
    destruct Hmissing as [Hnone | (report & Hreport & Hstatus)].
    - exists FileNotFoundError. rewrite Hnone. split; [left |]; reflexivity.
    - exists CalledProcessError. rewrite Hreport. unfold lift, ret, raise.
      apply Z.eqb_neq in Hstatus. rewrite Hstatus.
      split; [right |]; reflexivity. }
  destruct Hbody as (e & He & Hbody).
  set (s1 := record (Print MsgNotAvailable) (record (Run ["ffmpeg"; "-version"]) s)).
  set (s2 := record (WriterOpen output_video_path "mp4v" actual_fps (width, height))
               (record (CaptureOpen input_video_path) s1)).
  destruct (fallback_frames_all w fs tail action_list actual_fps
              frames_per_action total_frames 0 s2 Hwriter Htail
              (Z.le_refl 0) Hper
              (match Hsafe with
               | or_introl Hnz => or_introl Hnz
               | or_intror Hfew => or_intror Hfew
               end))
    as (evs & Hloop & Hpics & _ & Hw & Hc & Hs).
  rewrite <- Hframes in Hloop.
  exists (extend [CaptureRelease; WriterRelease; Print MsgFallbackComplete;
                  Print (MsgOutputSaved output_video_path); Print MsgNoteOpenCV]
            (extend evs s2)).
  split.
  - unfold encode_or_fall_back. unfold try_except at 1. rewrite Hbody.
    assert (Hhandler :
              forall h1 h2 : M unit,
                match e with
                | FileNotFoundError | CalledProcessError => Some h1
                | _ => Some h2
                end = Some h1)
      by (intros h1 h2; destruct He as [-> | ->]; reflexivity).
    rewrite Hhandler.
    unfold bind at 1. unfold print at 1. unfold emit at 1. fold s1.
    unfold try_except, fallback_opencv.
    unfold bind at 1. unfold emit at 1.
    rewrite Hreopen. cbn [negb].
    unfold bind at 1. unfold emit at 1. fold s2.
    rewrite Hcreate. cbn [negb].
    unfold bind at 1. rewrite Hloop.
    unfold bind, print, emit. f_equal.
    unfold record, extend. simpl. rewrite <- !app_assoc. reflexivity.
  - unfold extend at 1 2 3 4 5. cbn [trace]. unfold extend. cbn [trace].
    subst s2 s1. unfold record. cbn [trace].
    split; [| split; [| split; [| split]]].
    + rewrite !commands_run_app, Hc. simpl. rewrite !app_nil_r. reflexivity.
    + rewrite !writers_app, Hw. simpl. rewrite !app_nil_r. reflexivity.
    + rewrite !written_pictures_app, Hpics. simpl. rewrite !app_nil_r. reflexivity.
    + rewrite !saved_paths_app, Hs. simpl. rewrite !app_nil_r. reflexivity.
    + eexists.
      change [CaptureRelease; WriterRelease; Print MsgFallbackComplete;
              Print (MsgOutputSaved output_video_path); Print MsgNoteOpenCV]
        with ([CaptureRelease; WriterRelease; Print MsgFallbackComplete;
               Print (MsgOutputSaved output_video_path)] ++ [Print MsgNoteOpenCV]).
      rewrite app_assoc. reflexivity.
Qed.

Lemma missing_encoder_falls_back_to_writer_witness :
  written_pictures
    (trace (snd (@encode_or_fall_back whole_rates
                   (surroundings 3 30 (pictures 3) (fun _ _ => true) no_encoder)
                   "/tmp/tmpab12" "in.mp4" "out.mp4" wasd 30 640 480 1 3
                   initial_state)))
  = [0%nat; 1%nat; 2%nat].
Proof.
  assert (Htail : @nil (option frame) = []
                  \/ (exists rest : list (option frame), [] = None :: rest))
    by (left; reflexivity).
  assert (Hsafe : 3 <> 0 \/ len [blank 0; blank 1; blank 2] < 100)
    by (left; discriminate).
  destruct (@missing_encoder_falls_back_to_writer whole_rates
              (surroundings 3 30 (pictures 3) (fun _ _ => true) no_encoder)
              "/tmp/tmpab12" "in.mp4" "out.mp4" wasd 30 640 480 1 3
              [blank 0; blank 1; blank 2] [] initial_state
              (or_introl eq_refl) eq_refl eq_refl (fun _ => eq_refl) eq_refl
              Htail Z.le_0_1 Hsafe)
    as (s' & Hrun & _ & _ & Hwritten & _).
  rewrite Hrun. cbn [snd]. rewrite Hwritten. reflexivity.
Defined.

(** ** What can leave [process_video] as an exception *)

(** The [try] statement of the encoding stage catches everything. *)
Lemma encode_or_fall_back_never_raises `{Platform} (w : World)
    (temp_dir input_video_path output_video_path : string)
    (action_list : list string) (actual_fps : rate)
    (width height frames_per_action total_frames : Z) (s : state) (e : exn) :
  fst (encode_or_fall_back w temp_dir input_video_path output_video_path
         action_list actual_fps width height frames_per_action total_frames s)
  <> Raised e.
Proof.
  unfold encode_or_fall_back. unfold try_except at 1.
  destruct (encode_with_ffmpeg w temp_dir output_video_path actual_fps
              width height s) as [[[] | | caught] s1]; try discriminate.
  assert (Hfallback :
            fst ((print MsgNotAvailable ;;
                  try_except
                    (fallback_opencv w input_video_path output_video_path
                       action_list actual_fps width height
                       frames_per_action total_frames)
                    (fun e => Some (print (MsgFallbackFailed e) ;; return_))) s1)
            <> Raised e).
  { unfold bind at 1. unfold print at 1. unfold emit at 1. unfold try_except.
    destruct (fallback_opencv w input_video_path output_video_path action_list
                actual_fps width height frames_per_action total_frames _)
      as [[[] | | caught'] s2]; discriminate. }
  destruct caught; try exact Hfallback;
    unfold bind, print, emit, return_; discriminate.
Qed.

(** With a schedule passed in, drawing the overlay can only fail on the
    index into the action list. *)
Lemma create_icon_overlay_raises_only `{Platform} (f : frame)
    (action_list : list string) (n : Z) (fps : rate) (per_action : Z)
    (total_frames : option Z) (e : exn) :
  create_icon_overlay f action_list n fps (Some per_action) total_frames
  = Raise e ->
  e = IndexError.
Proof.
  unfold create_icon_overlay.
  destruct (Z.eq_dec per_action 0) as [-> | Hne]; [discriminate |].
  rewrite current_action_given by exact Hne.
  destruct (n / per_action <? len action_list); [| discriminate].
  unfold getitem.
  destruct ((0 <=? _) && (_ <? len action_list)).
  - destruct (nth_error action_list _); simpl; congruence.
  - simpl. congruence.
Qed.

Lemma render_frames_raises_only `{Platform} (w : World)
    (frames : list (option frame)) (temp_dir : string)
    (action_list : list string) (actual_fps : rate)
    (frames_per_action total_frames frame_count : Z) (s : state) (e : exn) :
  fst (render_frames w frames temp_dir action_list actual_fps
         frames_per_action total_frames frame_count s) = Raised e ->
  e = ZeroDivisionError \/ e = IndexError.
Proof.
  revert frame_count s.
  induction frames as [| [f |] frames IH]; intros frame_count s;
    [discriminate | | discriminate].
  destruct (create_icon_overlay f action_list frame_count actual_fps
              (Some frames_per_action) (Some total_frames))
    as [shown | e'] eqn:Hshown.
  - rewrite (render_frames_step w f shown frames temp_dir action_list
               actual_fps frames_per_action total_frames frame_count s Hshown).
    destruct ((frame_count + 1) mod 100 =? 0); [| apply IH].
    destruct (total_frames =? 0); [| apply IH].
    cbn [fst]. intros [= <-]. left. reflexivity.
  - cbn [render_frames]. rewrite Hshown. unfold bind, lift, raise. cbn [fst].
    intros [= <-]. right.
    exact (create_icon_overlay_raises_only _ _ _ _ _ _ _ Hshown).
Qed.

Lemma report_properties_raises_only `{Platform} (action_list : list string)
    (frames_per_action : option Z) (actual_fps : rate)
    (width height total_frames : Z) (s : state) (e : exn) :
  fst (report_properties action_list frames_per_action actual_fps
         width height total_frames s) = Raised e ->
  e = ZeroDivisionError.
Proof.
  unfold report_properties.
  destruct frames_per_action as [given |].
  - unfold bind, ret, print, emit, raise.
    destruct (rate_is_zero actual_fps); cbn [fst]; congruence.
  - unfold bind, lift, floordiv, ret, print, emit, raise.
    destruct (len action_list =? 0); [cbn [fst]; congruence |].
    destruct (rate_is_zero actual_fps); cbn [fst]; congruence.
Qed.

(** The run of [process_video] on a source that opened and whose
    properties were reported, in terms of the loop and the stage. *)
Lemma in_temp_dir_raises_only `{Platform} (w : World)
    (input_video_path output_video_path : string) (action_list : list string)
    (actual_fps : rate) (width height frames_per_action total_frames : Z)
    (temp_dir : string) (s : state) (e : exn) :
  fst (in_temp_dir w input_video_path output_video_path action_list
         actual_fps width height frames_per_action total_frames temp_dir s)
  = Raised e ->
  fst (render_frames w (cap_frames w) temp_dir action_list actual_fps
         frames_per_action total_frames 0 (record (Print MsgProcessing) s))
  = Raised e.
Proof.
  unfold in_temp_dir. unfold bind at 1. unfold print at 1. unfold emit at 1.
  unfold bind at 1.
  destruct (render_frames w (cap_frames w) temp_dir action_list actual_fps
              frames_per_action total_frames 0 _) as [[[] | | e'] s1];
    [| discriminate | intros H0; exact H0].
  unfold bind at 1. unfold emit at 1.
  unfold bind at 1. unfold print at 1. unfold emit at 1.
  intros Hstage. exfalso.
  exact (encode_or_fall_back_never_raises _ _ _ _ _ _ _ _ _ _ _ _ Hstage).
Qed.

(** X15.  Whatever the child processes and the writer of the fallback
    return or raise, and whichever frames can be read and saved, the only
    exceptions that can leave [process_video] are [ZeroDivisionError] and
    [IndexError]: every failure of the encoder or of the fallback is
    caught and reported inside. *)
Theorem only_arithmetic_and_index_errors_escape `{Platform} (w : World)
    (input_video_path output_video_path : string) (action_list : list string)
    (fps : rate) (frames_per_action : option Z) (s : state) (e : exn) :
  fst (process_video w input_video_path output_video_path action_list
         fps frames_per_action s) = Raised e ->
  e = ZeroDivisionError \/ e = IndexError.
Proof.
  unfold process_video. unfold bind at 1. unfold emit at 1.
  destruct (cap_isOpened w); cbn [negb];
    [| unfold bind, print, emit, return_; discriminate].
  unfold bind at 1.
  destruct (report_properties action_list frames_per_action (cap_fps w)
              (cap_width w) (cap_height w) (cap_frame_count w) _)
    as [[q | | e'] s1] eqn:Hreport; [| discriminate |].
  - unfold with_TemporaryDirectory.
    destruct (in_temp_dir w input_video_path output_video_path action_list
                (cap_fps w) (cap_width w) (cap_height w) q
                (cap_frame_count w) (mkdtemp w) (make_dir w s1))
      as [r s2] eqn:Hbody.
    cbn [fst]. intros ->.
    apply (render_frames_raises_only w (cap_frames w) (mkdtemp w) action_list
             (cap_fps w) q (cap_frame_count w) 0
             (record (Print MsgProcessing) (make_dir w s1))).
    apply (in_temp_dir_raises_only w input_video_path output_video_path
             action_list (cap_fps w) (cap_width w) (cap_height w)).
    rewrite Hbody. reflexivity.
  - cbn [fst]. intros [= <-]. left.
    apply (report_properties_raises_only action_list frames_per_action
             (cap_fps w) (cap_width w) (cap_height w) (cap_frame_count w)
             (record (CaptureOpen input_video_path) s)).
    rewrite Hreport. reflexivity.
Qed.

Lemma only_arithmetic_and_index_errors_escape_witness :
  exists e,
    fst (@process_video whole_rates (studio 0 30 120 banner5 codecs_x264 0)
           "in.mp4" "out.mp4" wasd 24 None initial_state) = Raised e
    /\ (e = ZeroDivisionError \/ e = IndexError).
Proof.
  assert (Hraised :
            fst (@process_video whole_rates
                   (studio 0 30 120 banner5 codecs_x264 0)
                   "in.mp4" "out.mp4" wasd 24 None initial_state)
            = Raised ZeroDivisionError)
    by (vm_compute; reflexivity).
  exists ZeroDivisionError. split; [exact Hraised |].
  exact (@only_arithmetic_and_index_errors_escape whole_rates
           (studio 0 30 120 banner5 codecs_x264 0) "in.mp4" "out.mp4" wasd
           24 None initial_state ZeroDivisionError Hraised).
Defined.

(** X16.  When the reported frame rate is not zero, the reported total
    is not zero, and the schedule is either given and not negative or
    computed from a non-empty action list and a total that is not
    negative, no exception leaves [process_video], whatever the child
    processes and the writer of the fallback return or raise and
    whichever frames can be read and saved. *)
Theorem well_formed_run_never_raises `{Platform} (w : World)
    (input_video_path output_video_path : string) (action_list : list string)
    (fps : rate) (frames_per_action : option Z) (s : state) (e : exn) :
  rate_is_zero (cap_fps w) = false ->
  cap_frame_count w <> 0 ->
  (frames_per_action = None /\ action_list <> [] /\ 0 <= cap_frame_count w)
  \/ (exists given, frames_per_action = Some given /\ 0 <= given) ->
  fst (process_video w input_video_path output_video_path action_list
         fps frames_per_action s) <> Raised e.
Proof.
  intros Hrate Htotal Hschedule.
  set (q := match frames_per_action with
            | Some given => given
            | None => cap_frame_count w / len action_list
            end).
  assert (Hq : 0 <= q).
  { subst q. destruct Hschedule as [(-> & Hne & Hpos) | (given & -> & Hgiven)];
      [| exact Hgiven].
    apply len_pos in Hne. apply Z.div_pos; lia. }
  assert (Hgiven_or_list : frames_per_action <> None \/ action_list <> []).
  { destruct Hschedule as [(_ & Hne & _) | (given & -> & _)];
      [right; exact Hne | left; discriminate]. }
  destruct (cap_isOpened w) eqn:Hopen.
  - pose proof (report_properties_prints action_list frames_per_action
                  (cap_fps w) (cap_width w) (cap_height w) (cap_frame_count w)
                  (record (CaptureOpen input_video_path) s)
                  Hgiven_or_list Hrate) as Hreport.
    cbv zeta in Hreport. fold q in Hreport.
    rewrite (process_video_opened w input_video_path output_video_path
               action_list fps frames_per_action _ _ _ Hopen Hreport).
    unfold with_TemporaryDirectory.
    destruct (in_temp_dir w input_video_path output_video_path action_list
                (cap_fps w) (cap_width w) (cap_height w) q
                (cap_frame_count w) (mkdtemp w) _)
      as [r s2] eqn:Hbody.
    cbn [fst]. intros ->.
    assert (Hloop := in_temp_dir_raises_only w input_video_path
                       output_video_path action_list (cap_fps w) (cap_width w)
                       (cap_height w) q (cap_frame_count w) (mkdtemp w) _ e
                       ltac:(rewrite Hbody; reflexivity)).
    destruct (frames_split (cap_frames w)) as (fs & tail & Hframes & Htail).
    rewrite Hframes in Hloop.
    match type of Hloop with
    | fst (render_frames _ _ _ _ _ _ _ _ ?before) = _ =>
        destruct (render_frames_all w fs tail (mkdtemp w) action_list
                    (cap_fps w) q (cap_frame_count w) 0 before
                    Htail (Z.le_refl 0) Hq (or_introl Htotal))
          as (s3 & evs & Hrun & _)
    end.
    rewrite Hrun in Hloop. discriminate.
  - unfold process_video, bind, emit, print, return_. rewrite Hopen.
    discriminate.
Qed.

Lemma well_formed_run_never_raises_witness :
  fst (@process_video whole_rates
         (surroundings 3 30 (pictures 3) (fun _ _ => true) no_encoder)
         "in.mp4" "out.mp4" wasd 24 None initial_state)
  <> Raised (Exception "FFmpeg failed").
Proof.
  apply (@well_formed_run_never_raises whole_rates
           (surroundings 3 30 (pictures 3) (fun _ _ => true) no_encoder)
           "in.mp4" "out.mp4" wasd 24 None initial_state
           (Exception "FFmpeg failed") eq_refl).
  - discriminate.
  - left. split; [reflexivity | split; [discriminate | simpl; lia]].
Defined.

(** ** [check_ffmpeg] and the availability check of the encoding stage *)

Lemma extend_nil `{Platform} (s : state) : extend [] s = s.
Proof. destruct s. unfold extend. simpl. rewrite app_nil_r. reflexivity. Qed.

Lemma extend_record `{Platform} (e : event) (es : list event) (s : state) :
  extend es (record e s) = extend (e :: es) s.
Proof. unfold extend, record. simpl. rewrite <- app_assoc. reflexivity. Qed.

(** Whatever the writer does, the loop of the fallback starts no child
    process and leaves the temporary directory alone. *)
Lemma fallback_frames_effect `{Platform} (w : World)
    (frames : list (option frame)) (action_list : list string)
    (actual_fps : rate) (frames_per_action total_frames frame_count : Z)
    (s : state) :
  exists evs,
    snd (fallback_frames w frames action_list actual_fps
           frames_per_action total_frames frame_count s) = extend evs s
    /\ commands_run evs = [].
Proof.
  revert frame_count s.
  induction frames as [| [f |] frames IH]; intros frame_count s;
    [exists []; rewrite extend_nil; auto | | exists []; rewrite extend_nil; auto].
  destruct (create_icon_overlay f action_list frame_count actual_fps
              (Some frames_per_action) (Some total_frames))
    as [shown | e] eqn:Hshown.
  - destruct (writer_write w shown) as [[] | e] eqn:Hwrite.
    + rewrite (fallback_frames_step w f shown frames action_list actual_fps
                 frames_per_action total_frames frame_count s Hshown Hwrite).
      destruct ((frame_count + 1) mod 100 =? 0).
      * destruct (total_frames =? 0).
        -- exists [WriterWrite shown]. auto.
        -- destruct (IH (frame_count + 1)
                       (record (Print (MsgFallbackProgress (frame_count + 1)
                                         total_frames))
                          (record (WriterWrite shown) s)))
             as (evs & Hrun & Hquiet).
           exists (WriterWrite shown
                   :: Print (MsgFallbackProgress (frame_count + 1) total_frames)
                   :: evs).
           rewrite Hrun, !extend_record. auto.
      * destruct (IH (frame_count + 1) (record (WriterWrite shown) s))
          as (evs & Hrun & Hquiet).
        exists (WriterWrite shown :: evs). rewrite Hrun, extend_record. auto.
    + exists [WriterWrite shown]. cbn [fallback_frames]. rewrite Hshown.
      unfold bind, lift, ret, out_write, emit. rewrite Hwrite.
      unfold raise, bind. auto.
  - exists []. cbn [fallback_frames]. rewrite Hshown.
    unfold bind, lift, raise. rewrite extend_nil. auto.
Qed.

Lemma fallback_opencv_effect `{Platform} (w : World)
    (input_video_path output_video_path : string) (action_list : list string)
    (actual_fps : rate) (width height frames_per_action total_frames : Z)
    (s : state) :
  exists evs,
    snd (fallback_opencv w input_video_path output_video_path action_list
           actual_fps width height frames_per_action total_frames s)
    = extend evs s
    /\ commands_run evs = [].
Proof.
  unfold fallback_opencv. unfold bind at 1. unfold emit at 1.
  destruct (recap_isOpened w); cbn [negb];
    [| exists [CaptureOpen input_video_path; Print MsgCouldNotReopen];
       unfold bind, print, emit, return_; cbn [snd];
       rewrite <- !extend_record, extend_nil; auto].
  unfold bind at 1. unfold emit at 1.
  destruct (writer_isOpened w); cbn [negb];
    [| eexists [CaptureOpen input_video_path; WriterOpen _ _ _ _;
                Print (MsgCouldNotCreate output_video_path); CaptureRelease];
       unfold bind, print, emit, return_; cbn [snd];
       rewrite <- !extend_record, extend_nil; auto].
  destruct (fallback_frames_effect w (recap_frames w) action_list actual_fps
              frames_per_action total_frames 0
              (record (WriterOpen output_video_path "mp4v" actual_fps
                         (width, height))
                 (record (CaptureOpen input_video_path) s)))
    as (evs & Hloop & Hquiet).
  unfold bind at 1.
  destruct (fallback_frames w (recap_frames w) action_list actual_fps
              frames_per_action total_frames 0 _) as [[[] | | e] s1];
    cbn [snd] in Hloop; subst s1.
  - exists ([CaptureOpen input_video_path;
             WriterOpen output_video_path "mp4v" actual_fps (width, height)]
            ++ evs
            ++ [CaptureRelease; WriterRelease; Print MsgFallbackComplete;
                Print (MsgOutputSaved output_video_path); Print MsgNoteOpenCV]).
    split.
    + unfold bind, print, emit. cbn [snd].
      unfold extend, record. simpl. rewrite <- !app_assoc. reflexivity.
    + rewrite !commands_run_app, Hquiet. reflexivity.
  - exists ([CaptureOpen input_video_path;
             WriterOpen output_video_path "mp4v" actual_fps (width, height)]
            ++ evs).
    split.
    + cbn [snd]. unfold extend, record. simpl. rewrite <- !app_assoc. reflexivity.
    + rewrite commands_run_app, Hquiet. reflexivity.
  - exists ([CaptureOpen input_video_path;
             WriterOpen output_video_path "mp4v" actual_fps (width, height)]
            ++ evs).
    split.
    + cbn [snd]. unfold extend, record. simpl. rewrite <- !app_assoc. reflexivity.
    + rewrite commands_run_app, Hquiet. reflexivity.
Qed.

(** The clause for a missing encoder: the line on the fallback is
    printed first, and no child process is started. *)
Lemma missing_encoder_clause_effect `{Platform} (w : World)
    (input_video_path output_video_path : string) (action_list : list string)
    (actual_fps : rate) (width height frames_per_action total_frames : Z)
    (s : state) :
  exists evs,
    snd ((print MsgNotAvailable ;;
          try_except
            (fallback_opencv w input_video_path output_video_path
               action_list actual_fps width height
               frames_per_action total_frames)
            (fun e => Some (print (MsgFallbackFailed e) ;; return_))) s)
    = extend (Print MsgNotAvailable :: evs) s
    /\ commands_run evs = [].
Proof.
  destruct (fallback_opencv_effect w input_video_path output_video_path
              action_list actual_fps width height frames_per_action
              total_frames (record (Print MsgNotAvailable) s))
    as (evs & Hrun & Hquiet).
  unfold bind at 1. unfold print at 1. unfold emit at 1. unfold try_except.
  destruct (fallback_opencv w input_video_path output_video_path action_list
              actual_fps width height frames_per_action total_frames _)
    as [[[] | | e] s1]; cbn [snd] in Hrun; subst s1.
  - exists evs. cbn [snd]. rewrite extend_record. auto.
  - exists evs. cbn [snd]. rewrite extend_record. auto.
  - exists (evs ++ [Print (MsgFallbackFailed e)]).
    split.
    + unfold bind, print, emit, return_. cbn [snd].
      unfold extend, record. simpl. rewrite <- !app_assoc. reflexivity.
    + rewrite commands_run_app, Hquiet. reflexivity.
Qed.

(** X17.  [check_ffmpeg] answers by the exit status of the version
    report alone.  With status 0 the answer is True and one line is
    printed, which announces full support exactly when the version that
    [get_ffmpeg_version] reads is one for which [get_ffmpeg_command] adds
    the preset; with another status the answer is False; when the
    program is not found the answer is False after seven lines; and any
    other exception of the child process is not caught. *)
Theorem check_ffmpeg_answers_by_exit_status `{Platform} (w : World)
    (outcome : result completed) (s : state) :
  let started := record (Run ["ffmpeg"; "-version"]) s in
  (forall report,
     outcome = Ok report -> returncode report = 0 ->
     exists tier line,
       get_ffmpeg_version w started
       = (Normal tier, record (Run ["ffmpeg"; "-version"]) started)
       /\ check_ffmpeg w outcome s
          = (Normal ([line], true),
             record (Run ["ffmpeg"; "-version"]) started)
       /\ (version_at_least_5 tier = true
           <-> exists n, line = LineFullSupport n))
  /\ (forall report,
        outcome = Ok report -> returncode report <> 0 ->
        check_ffmpeg w outcome s = (Normal ([LineNotWorking], false), started))
  /\ (outcome = Raise FileNotFoundError ->
      exists lines,
        check_ffmpeg w outcome s = (Normal (lines, false), started)
        /\ List.length lines = 7%nat)
  /\ (forall e,
        outcome = Raise e -> e <> FileNotFoundError ->
        check_ffmpeg w outcome s = (Raised e, started)).
Proof.
  intros started. split; [| split; [| split]].
  - intros report -> Hzero.
    destruct (get_ffmpeg_version_runs w started) as [tier Hv].
    unfold check_ffmpeg, try_except, bind, emit, lift, ret. fold started.
    rewrite Hzero. simpl (0 =? 0). cbv beta iota. rewrite Hv.
    exists tier.
    destruct tier as [v |]; unfold version_at_least_5; cbn [truthy andb].
    + destruct (v =? 0) eqn:Hv0; cbn [negb].
      * exists LineVersionUnknown.
        split; [reflexivity | split; [reflexivity |]].
        split; [discriminate | intros [n Hn]; discriminate].
      * destruct (5 <=? v).
        -- exists (LineFullSupport v).
           split; [reflexivity | split; [reflexivity |]].
           split; [eauto | reflexivity].
        -- exists (LineBasicMode v).
           split; [reflexivity | split; [reflexivity |]].
           split; [discriminate | intros [n Hn]; discriminate].
    + exists LineVersionUnknown.
      split; [reflexivity | split; [reflexivity |]].
      split; [discriminate | intros [n Hn]; discriminate].
  - intros report -> Hstatus.
    unfold check_ffmpeg, try_except, bind, emit, lift, ret.
    apply Z.eqb_neq in Hstatus. rewrite Hstatus. reflexivity.
  - intros ->. eexists. split; reflexivity.
  - intros e -> Hother.
    unfold check_ffmpeg, try_except, bind, emit, lift, raise.
    destruct e; [contradiction | | | |]; reflexivity.
Qed.

Lemma check_ffmpeg_answers_by_exit_status_witness :
  exists line,
    @check_ffmpeg whole_rates (studio 3 30 3 banner5 codecs_x264 0)
      (Ok (Completed 0 banner5 "")) initial_state
    = (Normal ([line], true),
       record (Run ["ffmpeg"; "-version"])
         (record (Run ["ffmpeg"; "-version"]) initial_state)).
Proof.
  destruct (@check_ffmpeg_answers_by_exit_status whole_rates
              (studio 3 30 3 banner5 codecs_x264 0)
              (Ok (Completed 0 banner5 "")) initial_state)
    as (Hzero & _).
  destruct (Hzero (Completed 0 banner5 "") eq_refl eq_refl)
    as (tier & line & _ & Hcheck & _).
  exists line. exact Hcheck.
Defined.


(** The answer of [check_ffmpeg], when it gives one. *)
Lemma check_ffmpeg_answer `{Platform} (w : World) (outcome : result completed)
    (lines : list check_line) (available : bool) (s s' : state) :
  check_ffmpeg w outcome s = (Normal (lines, available), s') ->
  (exists report, outcome = Ok report /\ available = (returncode report =? 0))
  \/ (outcome = Raise FileNotFoundError /\ available = false).
Proof.
  destruct outcome as [report | e].
  - intros Hcheck. left. exists report. split; [reflexivity |].
    revert Hcheck.
    unfold check_ffmpeg, try_except, bind, emit, lift, ret.
    destruct (returncode report =? 0); [| congruence].
    destruct (get_ffmpeg_version_runs w (record (Run ["ffmpeg"; "-version"]) s))
      as [tier Hv].
    rewrite Hv. destruct tier as [v |]; cbn [truthy]; [| congruence].
    destruct (negb (v =? 0)); [| congruence].
    destruct (5 <=? v); congruence.
  - unfold check_ffmpeg, try_except, bind, emit, lift, raise, ret.
    destruct e; try discriminate.
    intros [= _ <- _]. right. split; reflexivity.
Qed.

Lemma commands_run_In `{Platform} (t : list event) (argv : list string) :
  In (Run argv) t -> In argv (commands_run t).
Proof.
  induction t as [| e t IH]; [intros [] |].
  intros [-> | Hin]; [left; reflexivity |].
  destruct e; simpl; auto.
Qed.

(** Once the version report of line 319 has ended with status 0, a
    command is built, announced and run, whatever comes after. *)
Lemma available_encoder_is_run `{Platform} (w : World)
    (temp_dir input_video_path output_video_path : string)
    (action_list : list string) (actual_fps : rate)
    (width height frames_per_action total_frames : Z) (s : state)
    (report : completed) :
  process_outcome w CheckAvailable ["ffmpeg"; "-version"] = Ok report ->
  returncode report = 0 ->
  exists cmd before after,
    trace (snd (encode_or_fall_back w temp_dir input_video_path
                  output_video_path action_list actual_fps width height
                  frames_per_action total_frames s))
    = trace s ++ before ++ [Print (MsgRunning cmd); Run cmd] ++ after
    /\ firstn 6 cmd
       = ["ffmpeg"; "-y"; "-framerate"; str_rate actual_fps; "-i";
          path_join temp_dir "frame_%06d.png"].
Proof.
  intros Hreport Hzero.
  destruct (get_ffmpeg_command_effect w (path_join temp_dir "frame_%06d.png")
              output_video_path actual_fps width height
              (record (Run ["ffmpeg"; "-version"]) s))
    as (cmd & probes & Hcmd & _).
  destruct (get_ffmpeg_command_shape w (path_join temp_dir "frame_%06d.png")
              output_video_path actual_fps width height
              (record (Run ["ffmpeg"; "-version"]) s) cmd)
    as [Hhead _]; [rewrite Hcmd; reflexivity |].
  exists cmd, (Run ["ffmpeg"; "-version"] :: probes).
  set (s5 := record (Run cmd)
               (record (Print (MsgRunning cmd))
                  (extend probes (record (Run ["ffmpeg"; "-version"]) s)))).
  assert (Htrace5 : trace s5
                    = trace s ++ (Run ["ffmpeg"; "-version"] :: probes)
                      ++ [Print (MsgRunning cmd); Run cmd])
    by (subst s5; unfold record, extend; simpl;
        rewrite <- !app_assoc; reflexivity).
  assert (Hafter :
            exists after,
              trace (snd (encode_or_fall_back w temp_dir input_video_path
                            output_video_path action_list actual_fps width
                            height frames_per_action total_frames s))
              = trace s5 ++ after).
  { unfold encode_or_fall_back. unfold try_except at 1.
    unfold encode_with_ffmpeg.
    unfold bind at 1. unfold subprocess_run at 1. unfold bind at 1.
    unfold emit at 1. rewrite Hreport. unfold lift at 1. unfold ret at 1.
    unfold bind at 1. rewrite Hzero. simpl (0 =? 0). cbv iota. unfold ret at 1.
    unfold bind at 1. rewrite Hcmd.
    unfold bind at 1. unfold print at 1. unfold emit at 1.
    unfold bind at 1. unfold subprocess_run at 1. unfold bind at 1.
    unfold emit at 1. fold s5.
    destruct (process_outcome w Encode cmd) as [done | e].
    - unfold lift at 1. unfold ret at 1.
      destruct (returncode done =? 0).
      + eexists [_; _]. unfold bind, print, emit. cbn [snd].
        unfold record. cbn [trace]. rewrite <- app_assoc. reflexivity.
      + eexists [_; _; _]. unfold bind, print, emit, raise, return_. cbn [snd].
        unfold record. cbn [trace]. rewrite <- !app_assoc. reflexivity.
    - unfold lift at 1. unfold raise at 1.
      assert (Hclause :
                exists after,
                  trace (snd ((print MsgNotAvailable ;;
                               try_except
                                 (fallback_opencv w input_video_path
                                    output_video_path action_list actual_fps
                                    width height frames_per_action total_frames)
                                 (fun e => Some (print (MsgFallbackFailed e) ;;
                                                 return_))) s5))
                  = trace s5 ++ after).
      { destruct (missing_encoder_clause_effect w input_video_path
                    output_video_path action_list actual_fps width height
                    frames_per_action total_frames s5) as (evs & -> & _).
        eexists. reflexivity. }
      destruct e; try exact Hclause;
        (eexists [_]; unfold bind, print, emit, return_; reflexivity). }
  destruct Hafter as [after Hafter].
  exists after. split; [| exact Hhead].
  rewrite Hafter, Htrace5, <- !app_assoc. reflexivity.
Qed.

(** X18.  The answer of [check_ffmpeg] tells what the encoding stage
    does when the version report behaves at line 319 as it did at line
    401.  After the answer True the stage announces and runs an encoder
    command, which starts with [ffmpeg -y].  After the answer False it
    prints that the encoder is not available and starts no child process
    but the version report: no encoder command is built or run, whatever
    the fallback does. *)
Theorem availability_check_predicts_the_stage `{Platform} (w : World)
    (temp_dir input_video_path output_video_path : string)
    (action_list : list string) (actual_fps : rate)
    (width height frames_per_action total_frames : Z)
    (lines : list check_line) (available : bool) (s0 s0' s : state) :
  check_ffmpeg w (process_outcome w CheckAvailable ["ffmpeg"; "-version"]) s0
  = (Normal (lines, available), s0') ->
  exists evs,
    trace (snd (encode_or_fall_back w temp_dir input_video_path
                  output_video_path action_list actual_fps width height
                  frames_per_action total_frames s))
    = trace s ++ evs
    /\ if available then
         exists cmd,
           In (Print (MsgRunning cmd)) evs
           /\ In cmd (commands_run evs)
           /\ firstn 2 cmd = ["ffmpeg"; "-y"]
       else
         In (Print MsgNotAvailable) evs
         /\ commands_run evs = [["ffmpeg"; "-version"]].
Proof.
  intros Hcheck.
  assert (Hmissing :
            forall e,
              e = FileNotFoundError \/ e = CalledProcessError ->
              encode_with_ffmpeg w temp_dir output_video_path actual_fps
                width height s
              = (Raised e, record (Run ["ffmpeg"; "-version"]) s) ->
              exists evs,
                trace (snd (encode_or_fall_back w temp_dir input_video_path
                              output_video_path action_list actual_fps width
                              height frames_per_action total_frames s))
                = trace s ++ evs
                /\ In (Print MsgNotAvailable) evs
                /\ commands_run evs = [["ffmpeg"; "-version"]]).
  { intros e He Hbody.
    destruct (missing_encoder_clause_effect w input_video_path
                output_video_path action_list actual_fps width height
                frames_per_action total_frames
                (record (Run ["ffmpeg"; "-version"]) s))
      as (evs & Hclause & Hquiet).
    exists (Run ["ffmpeg"; "-version"] :: Print MsgNotAvailable :: evs).
    split; [| split; [right; left; reflexivity | simpl; rewrite Hquiet; reflexivity]].
    unfold encode_or_fall_back. unfold try_except at 1. rewrite Hbody.
    destruct He as [-> | ->]; rewrite Hclause;
      unfold extend, record; simpl; rewrite <- app_assoc; reflexivity. }
  destruct (check_ffmpeg_answer _ _ _ _ _ _ Hcheck)
    as [(report & Houtcome & ->) | (Houtcome & ->)].
  - destruct (returncode report =? 0) eqn:Hstatus.
    + apply Z.eqb_eq in Hstatus.
      destruct (available_encoder_is_run w temp_dir input_video_path
                  output_video_path action_list actual_fps width height
                  frames_per_action total_frames s report Houtcome Hstatus)
        as (cmd & before & after & Htrace & Hhead).
      exists (before ++ [Print (MsgRunning cmd); Run cmd] ++ after).
      split; [exact Htrace |]. exists cmd.
      split; [apply in_or_app; right; left; reflexivity |].
      split; [apply commands_run_In; apply in_or_app; right; right; left;
              reflexivity |].
      change 2%nat with (Nat.min 2 6). rewrite <- firstn_firstn, Hhead.
      reflexivity.
    + apply (Hmissing CalledProcessError); [right; reflexivity |].
      unfold encode_with_ffmpeg, subprocess_run, bind, emit, lift, ret, raise.
      rewrite Houtcome, Hstatus. reflexivity.
  - apply (Hmissing FileNotFoundError); [left; reflexivity |].
    unfold encode_with_ffmpeg, subprocess_run, bind, emit, lift, raise.
    rewrite Houtcome. reflexivity.
Qed.

Lemma availability_check_predicts_the_stage_witness :
  exists evs,
    trace (snd (@encode_or_fall_back whole_rates
                  (surroundings 3 30 (pictures 3) (fun _ _ => true) no_encoder)
                  "/tmp/tmpab12" "in.mp4" "out.mp4" wasd 30 640 480 1 3
                  initial_state))
    = trace initial_state ++ evs
    /\ In (Print MsgNotAvailable) evs
    /\ commands_run evs = [["ffmpeg"; "-version"]].
Proof.
  exact (@availability_check_predicts_the_stage whole_rates
           (surroundings 3 30 (pictures 3) (fun _ _ => true) no_encoder)
           "/tmp/tmpab12" "in.mp4" "out.mp4" wasd 30 640 480 1 3
           [LineNotFound; LineToInstall; LineUbuntu; LineCentOS; LineMacOS;
            LineWindows; LineConda]
           false initial_state
           (record (Run ["ffmpeg"; "-version"]) initial_state)
           initial_state eq_refl).
Defined.

(** ** The settings of [main] (lines 451-459) *)

Lemma all_space_split (s : string) : all_space s = true -> split s = [].
Proof.
  unfold split. induction s as [| c s IH]; [reflexivity |].
  simpl. destruct (is_space c); [exact IH | discriminate].
Qed.

Lemma length_drop_chars (n : nat) (s : string) :
  String.length (drop_chars n s) = (String.length s - n)%nat.
Proof.
  revert n. induction s as [| c s IH]; intros [| n]; simpl; auto.
Qed.

Lemma replace_from_skip (old new s : string) (skip : nat) :
  replace_from old new s skip = replace_from old new (drop_chars skip s) 0.
Proof.
  revert skip. induction s as [| c s IH]; intros [| skip]; try reflexivity.
  simpl. apply IH.
Qed.

(** The two cases of a replacement at the head of a string. *)
Lemma replace_here (old new s : string) :
  (0 < String.length old)%nat ->
  String.prefix old s = true ->
  replace s old new
  = (new ++ replace (drop_chars (String.length old) s) old new)%string.
Proof.
  intros Hold Hprefix.
  destruct old as [| o old]; [simpl in Hold; lia |].
  destruct s as [| c s]; [discriminate |].
  unfold replace. cbn [replace_from]. rewrite Hprefix.
  rewrite replace_from_skip. simpl. rewrite Nat.sub_0_r. reflexivity.
Qed.

Lemma replace_later (old new : string) (c : ascii) (s : string) :
  String.prefix old (String c s) = false ->
  replace (String c s) old new = String c (replace s old new).
Proof.
  intros Hprefix. unfold replace. cbn [replace_from]. rewrite Hprefix.
  reflexivity.
Qed.

(** A replacement by a longer string leaves the string as it is or
    makes it longer. *)
Lemma replace_same_or_longer (old new : string) :
  (0 < String.length old < String.length new)%nat ->
  forall s,
    replace s old new = s
    \/ (String.length s < String.length (replace s old new))%nat.
Proof.
  intros Hlonger s.
  assert (Hall : forall n s, (String.length s <= n)%nat ->
                   replace s old new = s
                   \/ (String.length s < String.length (replace s old new))%nat);
    [| exact (Hall (String.length s) s (Nat.le_refl _))].
  clear s. induction n as [| n IH]; intros s Hn.
  - destruct s; [left; reflexivity | simpl in Hn; lia].
  - destruct s as [| c s]; [left; reflexivity |].
    destruct (String.prefix old (String c s)) eqn:Hprefix.
    + right. rewrite replace_here by (exact Hprefix || lia).
      rewrite length_app.
      pose proof (length_drop_chars (String.length old) (String c s)) as Hdrop.
      set (rest := drop_chars (String.length old) (String c s)) in *.
      destruct (IH rest) as [-> | Hlt]; lia.
    + rewrite replace_later by exact Hprefix.
      destruct (IH s) as [-> | Hlt]; [simpl in Hn; lia | left; reflexivity |].
      right. simpl. lia.
Qed.

(** A string that ends with [old] gets longer. *)
Lemma replace_grows (old new a : string) :
  (0 < String.length old < String.length new)%nat ->
  (String.length (a ++ old)
   < String.length (replace (a ++ old) old new))%nat.
Proof.
  intros Hlonger. induction a as [| c a IH].
  - cbn [append].
    assert (Hself : String.prefix old old = true).
    { clear. induction old as [| o old IH]; simpl; [reflexivity |].
      destruct (ascii_dec o o); [exact IH | congruence]. }
    rewrite replace_here by (exact Hself || lia).
    rewrite length_app.
    pose proof (length_drop_chars (String.length old) old) as Hdrop.
    set (rest := drop_chars (String.length old) old) in *.
    destruct (replace_same_or_longer old new Hlonger rest) as [-> | Hlt]; lia.
  - cbn [append].
    destruct (String.prefix old (String c (a ++ old))) eqn:Hprefix.
    + rewrite replace_here by (exact Hprefix || lia).
      rewrite length_app.
      pose proof (length_drop_chars (String.length old) (String c (a ++ old)))
        as Hdrop.
      set (rest := drop_chars (String.length old) (String c (a ++ old))) in *.
      destruct (replace_same_or_longer old new Hlonger rest) as [-> | Hlt]; lia.
    + rewrite replace_later by exact Hprefix. simpl. lia.
Qed.

Lemma substring_split (s : string) (k : nat) :
  (k <= String.length s)%nat ->
  s = (substring 0 k s ++ substring k (String.length s - k) s)%string.
Proof.
  revert k. induction s as [| c s IH]; intros [| k] Hk; simpl in *;
    try reflexivity; try lia.
  - rewrite substring_whole. reflexivity.
  - rewrite <- IH by lia. reflexivity.
Qed.

Lemma endswith_split (s suffix : string) :
  endswith s suffix = true -> exists a, s = (a ++ suffix)%string.
Proof.
  unfold endswith. intros Hends. apply andb_prop in Hends as [Hfits Heq].
  apply Nat.leb_le in Hfits. apply String.eqb_eq in Heq.
  exists (substring 0 (String.length s - String.length suffix) s).
  pose proof (substring_split s (String.length s - String.length suffix)
                ltac:(lia)) as Hsplit.
  replace (String.length s - (String.length s - String.length suffix))%nat
    with (String.length suffix) in Hsplit by lia.
  rewrite Heq in Hsplit. exact Hsplit.
Qed.

Lemma endswith_same_length (s a b : string) :
  String.length a = String.length b ->
  endswith (s ++ a) b = String.eqb a b.
Proof.
  intros Hlen. unfold endswith. rewrite length_app, <- Hlen.
  replace (String.length s + String.length a - String.length a)%nat
    with (String.length s) by lia.
  rewrite substring_app_right.
  replace (String.length a <=? String.length s + String.length a)%nat with true
    by (symmetry; apply Nat.leb_le; lia).
  reflexivity.
Qed.

(** The name of line 459 is longer than the name it is made from. *)
Lemma icon_name_longer (f : string) :
  is_video f = true ->
  (String.length f < String.length (icon_name f))%nat.
Proof.
  intros Hvideo. unfold icon_name.
  set (r1 := replace f ".mp4" "_icon.mp4").
  set (r2 := replace r1 ".avi" "_icon.avi").
  set (r3 := replace r2 ".mov" "_icon.mov").
  set (r4 := replace r3 ".mkv" "_icon.mkv").
  assert (Hmp4 : (0 < String.length ".mp4" < String.length "_icon.mp4")%nat)
    by (simpl; lia).
  assert (Havi : (0 < String.length ".avi" < String.length "_icon.avi")%nat)
    by (simpl; lia).
  assert (Hmov : (0 < String.length ".mov" < String.length "_icon.mov")%nat)
    by (simpl; lia).
  assert (Hmkv : (0 < String.length ".mkv" < String.length "_icon.mkv")%nat)
    by (simpl; lia).
  pose proof (replace_same_or_longer _ _ Hmp4 f) as H1. fold r1 in H1.
  pose proof (replace_same_or_longer _ _ Havi r1) as H2. fold r2 in H2.
  pose proof (replace_same_or_longer _ _ Hmov r2) as H3. fold r3 in H3.
  pose proof (replace_same_or_longer _ _ Hmkv r3) as H4. fold r4 in H4.
  assert (Hle2 : (String.length r1 <= String.length r2)%nat)
    by (destruct H2 as [-> | ?]; lia).
  assert (Hle3 : (String.length r2 <= String.length r3)%nat)
    by (destruct H3 as [-> | ?]; lia).
  assert (Hle4 : (String.length r3 <= String.length r4)%nat)
    by (destruct H4 as [-> | ?]; lia).
  unfold is_video in Hvideo.
  apply orb_prop in Hvideo as [Hvideo | Hmkv_end];
    [apply orb_prop in Hvideo as [Hvideo | Hmov_end];
     [apply orb_prop in Hvideo as [Hmp4_end | Havi_end] |] |].
  - apply endswith_split in Hmp4_end as [a ->].
    pose proof (replace_grows _ _ a Hmp4) as Hgrow. fold r1 in Hgrow. lia.
  - apply endswith_split in Havi_end as [a Ha].
    destruct H1 as [E1 | L1]; [| lia].
    pose proof (replace_grows _ _ a Havi) as Hgrow.
    rewrite <- Ha, <- E1 in Hgrow. fold r2 in Hgrow. rewrite E1 in Hgrow. lia.
  - apply endswith_split in Hmov_end as [a Ha].
    destruct H1 as [E1 | L1]; [| lia].
    destruct H2 as [E2 | L2]; [| rewrite E1 in L2; lia].
    pose proof (replace_grows _ _ a Hmov) as Hgrow.
    rewrite <- Ha, <- E1, <- E2 in Hgrow. fold r3 in Hgrow.
    rewrite E2, E1 in Hgrow. lia.
  - apply endswith_split in Hmkv_end as [a Ha].
    destruct H1 as [E1 | L1]; [| lia].
    destruct H2 as [E2 | L2]; [| rewrite E1 in L2; lia].
    destruct H3 as [E3 | L3]; [| rewrite E2, E1 in L3; lia].
    pose proof (replace_grows _ _ a Hmkv) as Hgrow.
    rewrite <- Ha, <- E1, <- E2, <- E3 in Hgrow. fold r4 in Hgrow.
    rewrite E3, E2, E1 in Hgrow. lia.
Qed.

(** X19.  When ACTION_LIST holds white space only, the action list that
    [main] passes on is empty, and with it (no [frames_per_action] is
    passed) a source that opens makes [process_video] raise
    [ZeroDivisionError] at once: the capture has been opened and is not
    released, nothing is printed, and no temporary directory is made. *)
Theorem empty_action_list_stops_the_run `{Platform} (w : World)
    (input_video_path output_video_path action_list_str : string)
    (fps : rate) (s : state) :
  cap_isOpened w = true ->
  all_space action_list_str = true ->
  split action_list_str = []
  /\ process_video w input_video_path output_video_path
       (split action_list_str) fps None s
     = (Raised ZeroDivisionError, record (CaptureOpen input_video_path) s).
Proof.
  intros Hopen Hblank. rewrite (all_space_split _ Hblank).
  split; [reflexivity |].
  unfold process_video, bind, emit. rewrite Hopen. reflexivity.
Qed.

Lemma empty_action_list_stops_the_run_witness :
  @process_video whole_rates (studio 3 30 3 banner5 codecs_x264 0)
    "in.mp4" "out.mp4" (split "  ") 24 None initial_state
  = (Raised ZeroDivisionError, record (CaptureOpen "in.mp4") initial_state).
Proof.
  destruct (@empty_action_list_stops_the_run whole_rates
              (studio 3 30 3 banner5 codecs_x264 0) "in.mp4" "out.mp4" "  "
              24 initial_state eq_refl eq_refl) as [_ Hraised].
  exact Hraised.
Defined.

(** X20.  When INPUT_VIDEO is [home.mp4] and the current directory
    lists a video file that is not an [_icon.mp4] file, [main] works on
    the first such file of the listing and on the name of line 459 made
    from it, whatever OUTPUT_VIDEO says; that name is longer than the
    name of the file, so the output is never written over the input. *)
Theorem chosen_output_is_not_the_input (input_video output_video : string)
    (listing : list string) (f : string) :
  input_video = "home.mp4" ->
  hd_error (filter is_candidate listing) = Some f ->
  choose_paths input_video output_video listing = (f, icon_name f)
  /\ In f listing
  /\ endswith f "_icon.mp4" = false
  /\ (String.length f < String.length (icon_name f))%nat
  /\ icon_name f <> f.
Proof.
  intros -> Hfirst.
  destruct (filter is_candidate listing) as [| g candidates] eqn:Hfilter;
    [discriminate |].
  injection Hfirst as ->.
  assert (Hin : In f (filter is_candidate listing))
    by (rewrite Hfilter; left; reflexivity).
  apply filter_In in Hin as [Hin Hcandidate].
  unfold is_candidate in Hcandidate.
  apply andb_prop in Hcandidate as [Hvideo Hfresh].
  pose proof (icon_name_longer f Hvideo) as Hlonger.
  split; [unfold choose_paths; simpl; rewrite Hfilter; reflexivity |].
  split; [exact Hin |].
  split; [destruct (endswith f "_icon.mp4"); [discriminate | reflexivity] |].
  split; [exact Hlonger |].
  intros Hsame. rewrite Hsame in Hlonger. lia.
Qed.

Lemma chosen_output_is_not_the_input_witness :
  choose_paths "home.mp4" "configured.mp4"
    ["notes.txt"; "home_icon.mp4"; "village.mp4"; "river.avi"]
  = ("village.mp4", "village_icon.mp4").
Proof.
  destruct (chosen_output_is_not_the_input "home.mp4" "configured.mp4"
              ["notes.txt"; "home_icon.mp4"; "village.mp4"; "river.avi"]
              "village.mp4" eq_refl eq_refl) as [Hchosen _].
  exact Hchosen.
Defined.

Lemma replace_dotless_prefix (stem rest old new : string) :
  contains "." stem = false ->
  replace (stem ++ rest) (String "." old) new
  = (stem ++ replace rest (String "." old) new)%string.
Proof.
  intros Hstem. induction stem as [| c stem IH]; [reflexivity |].
  cbn [contains] in Hstem. apply orb_false_elim in Hstem as [Hc Hstem].
  cbn [append]. rewrite replace_later.
  - rewrite IH by exact Hstem. reflexivity.
  - cbn [String.prefix].
    destruct (ascii_dec "." c) as [<- | Hother]; [| reflexivity].
    exfalso. revert Hc. cbn [String.prefix].
    destruct (ascii_dec "." "."); [destruct stem; discriminate | congruence].
Qed.

Lemma append_assoc (a b c : string) :
  ((a ++ b) ++ c = a ++ (b ++ c))%string.
Proof. induction a as [| x a IH]; simpl; [| rewrite IH]; reflexivity. Qed.

(** X21.  For a file name made of a stem without a dot and one of the
    four extensions, the name of line 459 is the stem, [_icon] and the
    extension.  Such a result is passed over by the filter of line 456
    when the extension is [.mp4], and is a candidate like any other
    video when it is [.avi], [.mov] or [.mkv]. *)
Theorem simple_names_get_the_icon_suffix (stem ext : string) :
  contains "." stem = false ->
  In ext [".mp4"; ".avi"; ".mov"; ".mkv"] ->
  icon_name (stem ++ ext) = (stem ++ "_icon" ++ ext)%string
  /\ is_candidate (icon_name (stem ++ ext)) = negb (String.eqb ext ".mp4").
Proof.
  intros Hstem Hext.
  assert (Hname : icon_name (stem ++ ext) = (stem ++ "_icon" ++ ext)%string).
  { unfold icon_name. rewrite !replace_dotless_prefix by exact Hstem.
    destruct Hext as [<- | [<- | [<- | [<- | []]]]]; reflexivity. }
  split; [exact Hname |]. rewrite Hname.
  unfold is_candidate, is_video.
  assert (Hshort : forall other,
            String.length other = 4%nat ->
            endswith (stem ++ "_icon" ++ ext) other = String.eqb ext other).
  { intros other Hother. rewrite <- append_assoc.
    apply endswith_same_length.
    destruct Hext as [<- | [<- | [<- | [<- | []]]]]; rewrite Hother; reflexivity. }
  rewrite !Hshort by reflexivity.
  assert (Hlong : endswith (stem ++ "_icon" ++ ext) "_icon.mp4"
                  = String.eqb ext ".mp4").
  { rewrite (endswith_same_length stem ("_icon" ++ ext) "_icon.mp4")
      by (destruct Hext as [<- | [<- | [<- | [<- | []]]]]; reflexivity).
    destruct Hext as [<- | [<- | [<- | [<- | []]]]]; reflexivity. }
  rewrite Hlong.
  destruct Hext as [<- | [<- | [<- | [<- | []]]]]; reflexivity.
Qed.

Lemma simple_names_get_the_icon_suffix_witness :
  icon_name "river.avi" = "river_icon.avi"
  /\ is_candidate (icon_name "river.avi") = true.
Proof.
  exact (simple_names_get_the_icon_suffix "river" ".avi" eq_refl
           (or_intror (or_introl eq_refl))).
Defined.

(** ** The letters on the icons (lines 86-98) *)

Lemma texts_app (ops1 ops2 : list draw_op) :
  texts (ops1 ++ ops2) = texts ops1 ++ texts ops2.
Proof.
  induction ops1 as [| op ops1 IH]; [reflexivity |].
  destruct op; simpl; rewrite IH; reflexivity.
Qed.

Lemma draw_icon_texts `{Platform} (current : option string) (f : frame)
    (key : string) (x y : Z) :
  let org := (x - fst (getTextSize (upper key)) / 2,
              y + snd (getTextSize (upper key)) / 2) in
  texts (drawn (draw_icon current f (key, (x, y))))
  = texts (drawn f) ++ [putText (upper key) org (0, 0, 0) 5;
                        putText (upper key) org (255, 255, 255) 3].
Proof.
  unfold draw_icon.
  destruct (is_active key current); simpl;
    rewrite !texts_app; simpl; rewrite !app_nil_r, <- !app_assoc; reflexivity.
Qed.

(** X22.  The letters drawn do not depend on the current label: on every
    frame the overlay writes W, A, S and D, in this order and in upper
    case, each first in black with thickness 5 and then in white with
    thickness 3 at the same origin, which centres the measured text on
    the icon. *)
Theorem letters_do_not_depend_on_the_label `{Platform} (f : frame)
    (current : option string) :
  let center_x := snd (shape f) / 2 in
  let row_y := fst (shape f) - 150 in
  let letter (text : string) (x y : Z) :=
    let org := (x - fst (getTextSize text) / 2,
                y + snd (getTextSize text) / 2) in
    [putText text org (0, 0, 0) 5; putText text org (255, 255, 255) 3] in
  texts (drawn (draw_icons f current))
  = texts (drawn f)
    ++ letter "W" (center_x - 100) (row_y - 100)
    ++ letter "A" (center_x - 100) row_y
    ++ letter "S" center_x row_y
    ++ letter "D" (center_x + 100) row_y.
Proof.
  intros center_x row_y letter. subst center_x row_y letter.
  unfold draw_icons. destruct (shape f) as [h wd].
  unfold icon_positions. cbn [fold_left fst snd].
  rewrite !draw_icon_texts. rewrite <- !app_assoc. reflexivity.
Qed.
